(** * jx_data_api: the report generation service

    A shallow embedding of [app/services/report.py] (the aggregation, diff
    and rendering pipeline of the daily and the two-period reports) and of
    [app/core/queue.py] (the admission gate), with the properties of the
    specification stated and proved over it.

    Conventions of the embedding.
    - A Python [int] is [Int z]; a [Decimal] (what the MySQL connector
      returns for [SUM(..)] and for DECIMAL columns) or a [float] is
      [Dec q] with [q] an exact rational.  Arithmetic on [Dec] is exact;
      the 28-digit precision of [Decimal] division, binary rounding of
      floats and the sign of zero are not modelled.
    - [None] (SQL NULL) is [None] of an [option].
    - A raised exception is [Raise e]; a normal return is [Ok v].
    - A Python [str] is a [string], one [ascii] per character.  Store
      identifiers and dates are texts, in the tables and in the requests.
    - A table is the list of its rows, and a query is its relational
      meaning on these lists.  A row that a cursor returns is a record of
      its columns; the empty dictionary [{}] that stands for a missing row
      is [None].
    - [json.loads], the time and the random part of file names are taken
      from the surroundings: a decoder [json_loads] and an [environment].
    - Cell styling, column widths, borders and merges of the workbook are
      left out: only sheet names and cell values are kept. *)

From Stdlib Require Import ZArith QArith Qround Lia Lqa Ascii String.
From Stdlib Require Import DecimalString DecimalN DecimalZ DecimalFacts.
From stdpp Require Import gmap strings sorting.

#[local] Set Warnings "-register-all,-clear-no-such-hyp".

(** ** Exceptions and the error monad *)

Inductive exn : Type :=
| ValueError (msg : string)
| TypeError
| ZeroDivisionError
| JSONDecodeError.

Inductive result (A : Type) : Type :=
| Ok (a : A)
| Raise (e : exn).
Arguments Ok {A} a.
Arguments Raise {A} e.

Definition bind {A B} (k : A -> result B) (r : result A) : result B :=
  match r with
  | Ok a => k a
  | Raise e => Raise e
  end.

(** The monad notation [x ← c; k] is stdpp's. *)
#[global] Instance result_ret : MRet result := fun A a => Ok a.
#[global] Instance result_bind : MBind result := fun A B k r => bind k r.
#[global] Instance result_fmap : FMap result := fun A B f r => bind (fun a => Ok (f a)) r.

Definition is_ok {A} (r : result A) : bool :=
  match r with Ok _ => true | Raise _ => false end.

(** ** Numbers *)

Inductive number : Type :=
| Int (n : Z)
| Dec (q : Q).

Definition toQ (x : number) : Q :=
  match x with
  | Int n => inject_Z n
  | Dec q => q
  end.

(** [bool(x)] of a number: everything but zero is true. *)
Definition num_truthy (x : number) : bool := negb (Qeq_bool (toQ x) 0).

Definition num_gtb (x y : number) : bool :=
  match (toQ x ?= toQ y)%Q with Gt => true | _ => false end.

Definition num_geb (x y : number) : bool :=
  match (toQ x ?= toQ y)%Q with Lt => false | _ => true end.

Definition num_ltb (x y : number) : bool := num_gtb y x.

(** [x - y] and [x * y]: an [int] only when both operands are. *)
Definition num_sub (x y : number) : number :=
  match x, y with
  | Int a, Int b => Int (a - b)
  | _, _ => Dec (toQ x - toQ y)%Q
  end.

Definition num_mul (x y : number) : number :=
  match x, y with
  | Int a, Int b => Int (a * b)
  | _, _ => Dec (toQ x * toQ y)%Q
  end.

(** [x / y]: true division, never an [int]; a zero divisor raises. *)
Definition num_truediv (x y : number) : result number :=
  if Qeq_bool (toQ y) 0 then Raise ZeroDivisionError
  else Ok (Dec (toQ x / toQ y)%Q).

(** Rounding to the nearest integer, ties to the even one. *)
Definition round_half_even (q : Q) : Z :=
  let f := Qfloor q in
  match (q - inject_Z f ?= 1 # 2)%Q with
  | Lt => f
  | Gt => (f + 1)%Z
  | Eq => if Z.even f then f else (f + 1)%Z
  end.

Definition pow10 (n : nat) : Q := inject_Z (10 ^ Z.of_nat n).

(** [round(x, ndigits)]: an [int] is returned as it is. *)
Definition py_round (x : number) (ndigits : nat) : number :=
  match x with
  | Int n => Int n
  | Dec q => Dec (inject_Z (round_half_even (q * pow10 ndigits)) / pow10 ndigits)%Q
  end.

(** Operators on values that may be [None]. *)
Definition truthy (v : option number) : bool :=
  match v with
  | None => false
  | Some x => num_truthy x
  end.

Definition py_gt (a b : option number) : result bool :=
  match a, b with
  | Some x, Some y => Ok (num_gtb x y)
  | _, _ => Raise TypeError
  end.

Definition py_truediv (a b : option number) : result number :=
  match a, b with
  | Some x, Some y => num_truediv x y
  | _, _ => Raise TypeError
  end.

Definition py_mul (a b : option number) : result number :=
  match a, b with
  | Some x, Some y => Ok (num_mul x y)
  | _, _ => Raise TypeError
  end.

(** ** The ratio helpers *)

(** [denominator and denominator > 0]: the comparison is evaluated only
    when the left operand is true. *)
Definition positive_guard (denominator : option number) : result bool :=
  if truthy denominator then py_gt denominator (Some (Int 0)) else Ok false.

Definition calc_rate (numerator denominator : option number) : result number :=
  c ← positive_guard denominator;
  if (c : bool) then
    q ← py_truediv numerator denominator;
    p ← py_mul (Some q) (Some (Int 100));
    Ok (py_round p 1)
  else Ok (Int 0).

Definition calc_avg_price (total count : option number) : result number :=
  c ← positive_guard count;
  if (c : bool) then
    q ← py_truediv total count;
    Ok (py_round q 2)
  else Ok (Int 0).

(** ** Strings *)

(** [str(n)] of an [int]. *)
Definition str_int (z : Z) : string := NilZero.string_of_int (Z.to_int z).

Definition str_nat_digits (n : N) : string := NilEmpty.string_of_uint (N.to_uint n).

(** A number of tenths shown with its one fractional digit. *)
Definition str_tenths (t : Z) : string :=
  (if (t <? 0)%Z then "-" else "")
  +:+ str_nat_digits (Z.to_N (Z.abs t / 10))
  +:+ "." +:+ str_nat_digits (Z.to_N (Z.abs t mod 10)).

(** [str(x)] for the numbers the reports print inside a text: an [int],
    or a [Decimal] (or [float]) that [round(_, 1)] has put on one
    fractional digit, which [str] shows in full ([12.5], [0.0], [-3.0]).
    On any other [Dec q] this shows the tenth nearest to [q]. *)
Definition py_str (x : number) : string :=
  match x with
  | Int n => str_int n
  | Dec q => str_tenths (round_half_even (q * 10))
  end.

(** [f"{x}%"] *)
Definition fmt_percent (x : number) : string := py_str x +:+ "%".

(** [s.rstrip(c)] for a single character [c]. *)
Fixpoint rstrip (c : ascii) (s : string) : string :=
  match s with
  | EmptyString => EmptyString
  | String a r =>
      match rstrip c r with
      | EmptyString => if Ascii.eqb a c then EmptyString else String a EmptyString
      | r' => String a r'
      end
  end.

(** The text before the first ["."], and the text after it when there is
    one. *)
Fixpoint split_dot (s : string) : string * option string :=
  match s with
  | EmptyString => (EmptyString, None)
  | String a r =>
      if Ascii.eqb a "." then (EmptyString, Some r)
      else let '(i, f) := split_dot r in (String a i, f)
  end.

(** A leading minus sign and the rest of the text. *)
Definition strip_sign (s : string) : bool * string :=
  match s with
  | String a r => if Ascii.eqb a "-" then (true, r) else (false, s)
  | EmptyString => (false, s)
  end.

Definition not_a_float : exn := ValueError "could not convert string to float".

(** The value of an unsigned decimal text, negated when [neg]. *)
Definition float_of_decimal (neg : bool) (body : string) : result number :=
  let '(ip, fp) := split_dot body in
  let fp := default EmptyString fp in
  match NilEmpty.uint_of_string ip, NilEmpty.uint_of_string fp with
  | Some i, Some f =>
      if (String.length ip + String.length fp =? 0)%nat then Raise not_a_float
      else
        let scale := pow10 (String.length fp) in
        let m := (inject_Z (Z.of_N (N.of_uint i)) * scale + inject_Z (Z.of_N (N.of_uint f)))%Q in
        Ok (Dec ((if neg then - m else m) / scale)%Q)
  | _, _ => Raise not_a_float
  end.

(** [float(s)] on plain decimal notation: an optional minus sign, digits,
    and an optional point followed by digits, with a digit somewhere.
    Anything else raises [ValueError] (exponents, [inf], [nan] and
    surrounding blanks, which [float] also reads, never reach it here). *)
Definition py_float (s : string) : result number :=
  let '(neg, body) := strip_sign s in float_of_decimal neg body.

(** [name.replace(c, '')] for a single character [c]. *)
Fixpoint str_remove (c : ascii) (s : string) : string :=
  match s with
  | EmptyString => EmptyString
  | String a r => if Ascii.eqb a c then str_remove c r else String a (str_remove c r)
  end.

(** [s.replace(c, d)] for single characters. *)
Fixpoint str_replace (c d : ascii) (s : string) : string :=
  match s with
  | EmptyString => EmptyString
  | String a r => String (if Ascii.eqb a c then d else a) (str_replace c d r)
  end.

(** [s[:n]] *)
Definition str_take (n : nat) (s : string) : string := String.substring 0 n s.

(** [bool(s)] of a string. *)
Definition str_truthy (s : string) : bool := negb (String.eqb s "").

(** [s or d] where [s] may be [None]. *)
Definition str_or (s : option string) (d : string) : string :=
  match s with
  | Some v => if str_truthy v then v else d
  | None => d
  end.

(** ** Sheet names *)

Definition illegal_chars : list ascii := ["\"; "/"; "*"; "?"; ":"; "["; "]"]%char.

Definition clean_sheet_name (name : string) (max_length : nat) : string :=
  if negb (str_truthy name) then "Sheet"
  else
    let name := foldl (fun nm c => str_remove c nm) name illegal_chars in
    let name := if (max_length <? String.length name)%nat then str_take max_length name else name in
    if str_truthy name then name else "Sheet".

(** ** Dates

    Request dates and the date columns of the tables are texts in the form
    [YYYY-MM-DD]; on such texts equality and [BETWEEN] of the queries are
    equality and the lexicographic order of strings. *)

Record datetime := { dt_year : Z; dt_month : Z; dt_day : Z }.

Definition is_leap (y : Z) : bool :=
  ((y mod 4 =? 0) && (negb (y mod 100 =? 0) || (y mod 400 =? 0)))%Z.

Definition days_in_month (y m : Z) : Z :=
  if (m =? 2)%Z then (if is_leap y then 29 else 28)
  else if ((m =? 4) || (m =? 6) || (m =? 9) || (m =? 11))%Z then 30 else 31.

Definition digits_value (s : string) : option Z :=
  if (String.length s =? 0)%nat then None
  else (fun d => Z.of_N (N.of_uint d)) <$> NilEmpty.uint_of_string s.

(** [datetime.strptime(s, '%Y-%m-%d')] on the zero-padded form; any other
    text raises [ValueError]. *)
Definition strptime (s : string) : result datetime :=
  let bad := Raise (ValueError "time data does not match format '%Y-%m-%d'") in
  if negb ((String.length s =? 10)%nat
           && String.eqb (String.substring 4 1 s) "-"
           && String.eqb (String.substring 7 1 s) "-") then bad
  else
    match digits_value (String.substring 0 4 s),
          digits_value (String.substring 5 2 s),
          digits_value (String.substring 8 2 s) with
    | Some y, Some m, Some d =>
        if ((1 <=? y) && (1 <=? m) && (m <=? 12) && (1 <=? d) && (d <=? days_in_month y m))%Z
        then Ok {| dt_year := y; dt_month := m; dt_day := d |}
        else bad
    | _, _, _ => bad
    end.

Definition pad (width : nat) (n : Z) : string :=
  let t := str_int n in
  String.concat "" (replicate (width - String.length t) "0") +:+ t.

(** Days since 1970-01-01 in the proleptic Gregorian calendar. *)
Definition days_from_civil (dt : datetime) : Z :=
  let y := if (dt_month dt <=? 2)%Z then (dt_year dt - 1)%Z else dt_year dt in
  let era := (y / 400)%Z in
  let yoe := (y - era * 400)%Z in
  let mp := ((dt_month dt + 9) mod 12)%Z in
  let doy := ((153 * mp + 2) / 5 + dt_day dt - 1)%Z in
  let doe := (yoe * 365 + yoe / 4 - yoe / 100 + doy)%Z in
  (era * 146097 + doe - 719468)%Z.

(** [date_obj.weekday()]: Monday is 0. *)
Definition weekday (dt : datetime) : nat := Z.to_nat ((days_from_civil dt + 3) mod 7).

(** [strftime('%Y.%m.%d')], [strftime('%m月%d日')], [strftime('%m/%d')] *)
Definition strftime_dotted (dt : datetime) : string :=
  pad 4 (dt_year dt) +:+ "." +:+ pad 2 (dt_month dt) +:+ "." +:+ pad 2 (dt_day dt).
Definition strftime_month_day (dt : datetime) : string :=
  pad 2 (dt_month dt) +:+ "月" +:+ pad 2 (dt_day dt) +:+ "日".
Definition strftime_short (dt : datetime) : string :=
  pad 2 (dt_month dt) +:+ "/" +:+ pad 2 (dt_day dt).

(** ** Decoded JSON documents *)

Inductive json : Type :=
| JNull
| JBool (b : bool)
| JNum (x : number)
| JStr (s : string)
| JList (l : list json)
| JDict (kv : list (string * json)).

(** [d.get(key)] on a decoded object. *)
Fixpoint dict_get (key : string) (kv : list (string * json)) : option json :=
  match kv with
  | [] => None
  | (k, v) :: r => if String.eqb k key then Some v else dict_get key r
  end.

Definition json_truthy (j : json) : bool :=
  match j with
  | JNull => false
  | JBool b => b
  | JNum x => num_truthy x
  | JStr s => str_truthy s
  | JList l => negb (bool_decide (l = []))
  | JDict kv => negb (bool_decide (kv = []))
  end.

(** [repr(j)].  A text is put between single quotes as it is: the escapes
    and the choice of the quote that [repr] makes for texts with quotes or
    control characters are left out. *)
Fixpoint json_repr (j : json) : string :=
  match j with
  | JNull => "None"
  | JBool true => "True"
  | JBool false => "False"
  | JNum x => py_str x
  | JStr s => "'" +:+ s +:+ "'"
  | JList l => "[" +:+ String.concat ", " (List.map json_repr l) +:+ "]"
  | JDict kv =>
      "{" +:+ String.concat ", "
                (List.map (fun e => "'" +:+ fst e +:+ "': " +:+ json_repr (snd e)) kv)
      +:+ "}"
  end.

(** [str(j)]: a text is itself, anything else is shown as by [repr]. *)
Definition json_str (j : json) : string :=
  match j with
  | JStr s => s
  | _ => json_repr j
  end.

(** What a JSON column holds when it is not NULL: the raw text, or a
    document the connector has decoded already. *)
Inductive blob : Type :=
| BText (s : string)
| BDecoded (j : json).

Definition blob_truthy (b : blob) : bool :=
  match b with
  | BText s => str_truthy s
  | BDecoded j => json_truthy j
  end.

(** ** The tables *)

Record account_row := {
  pa_account : string;
  pa_stores_json : option blob;
  pa_compareRegions_json : option blob;
  pa_sales_name : option string;
  pa_city_name : option string;
  pa_operator_id : option Z }.

Record user_row := { su_id : Z; su_name : option string }.

Record kewen_row := {
  k_report_date : string;
  k_shop_id : string;
  k_shop_name : option string;
  k_exposure_users : option number;
  k_visit_users : option number;
  k_order_users : option number;
  k_verify_person_count : option number;
  k_order_coupon_count : option number;
  k_verify_coupon_count : option number;
  k_promotion_cost : option number;
  k_new_good_review_count : option number;
  k_new_review_count : option number;
  k_new_collect_users : option number;
  k_consult_users : option number;
  k_intent_rate : option string;
  k_order_sale_amount : option number;
  k_verify_sale_amount : option number;
  k_verify_after_discount : option number;
  k_coupon_pay_order_count : option number;
  k_promotion_exposure_count : option number;
  k_promotion_click_count : option number }.

Record promo_row := {
  p_shop_id : string;
  p_report_date : string;
  p_view_phone_count : option number;
  p_view_address_count : option number;
  p_click_avg_price : option number;
  p_order_count : option number;
  p_view_groupbuy_count : option number }.

Record stats_row := {
  s_store_id : string;
  s_date : string;
  s_order_user_rank : option number;
  s_verify_amount_rank : option number;
  s_checkin_count : option number;
  s_ad_balance : option number;
  s_ad_order_count : option number;
  s_is_force_offline : option number }.

Record database := {
  platform_accounts : list account_row;
  saas_users : list user_row;
  kewen_daily_report : list kewen_row;
  promotion_daily_report : list promo_row;
  store_stats : list stats_row }.

(** *** Relational operators *)

(** [l LEFT JOIN r ON on]: every row of [l] with each matching row of
    [r], or with [None] (all columns NULL) when none matches. *)
Definition left_join {A B} (on : A -> B -> bool) (l : list A) (r : list B)
  : list (A * option B) :=
  flat_map (fun a =>
    match List.filter (on a) r with
    | [] => [(a, None)]
    | ms => map (fun b => (a, Some b)) ms
    end) l.

(** A column of the optional side of a left join. *)
Definition col {B V} (f : B -> option V) (b : option B) : option V := b ≫= f.

(** [x IN (..)] *)
Definition sql_in (x : string) (l : list string) : bool := bool_decide (x ∈ l).

(** [a BETWEEN lo AND hi] on dates *)
Definition sql_between (a lo hi : string) : bool := String.leb lo a && String.leb a hi.

(** [SUM(..)]: NULL when no row has a value, else the sum of the values;
    the connector hands a sum over as a [Decimal]. *)
Definition sql_sum (l : list (option number)) : option number :=
  match omap id l with
  | [] => None
  | vs => Some (Dec (foldr (fun x acc => (toQ x + acc)%Q) 0%Q vs))
  end.

(** [ORDER BY key]; SQL leaves the order of rows with the same key open,
    here it is the one of the merge sort. *)
Definition key_le {A} (key : A -> string) (a b : A) : Prop := String.le (key a) (key b).
#[global] Instance key_le_dec {A} (key : A -> string) : RelDecision (key_le key).
Proof. intros a b. unfold key_le. apply _. Defined.

Definition order_by {A} (key : A -> string) (l : list A) : list A :=
  merge_sort (key_le key) l.

(** [int(x)]: truncation towards zero. *)
Definition py_int (x : number) : Z :=
  match x with
  | Int n => n
  | Dec q => if Qle_bool 0 q then Qfloor q else Qceiling q
  end.

(** [v or d] on a number that may be [None]. *)
Definition num_or (v : option number) (d : number) : number :=
  match v with
  | Some x => if num_truthy x then x else d
  | None => d
  end.

(** [round(v, 2) if v else 0] *)
Definition round2_or_zero (v : option number) : number :=
  match v with
  | Some x => if num_truthy x then py_round x 2 else Int 0
  | None => Int 0
  end.

(** [f"{x:.1f}"] *)
Definition fmt_1f (x : number) : string := str_tenths (round_half_even (toQ x * 10)).

(** The inverse of [days_from_civil], for [end_date - timedelta(days=6)]. *)
Definition civil_from_days (z : Z) : datetime :=
  let z := (z + 719468)%Z in
  let era := (z / 146097)%Z in
  let doe := (z - era * 146097)%Z in
  let yoe := ((doe - doe / 1460 + doe / 36524 - doe / 146096) / 365)%Z in
  let doy := (doe - (365 * yoe + yoe / 4 - yoe / 100))%Z in
  let mp := ((5 * doy + 2) / 153)%Z in
  let d := (doy - (153 * mp + 2) / 5 + 1)%Z in
  let m := (if (mp <? 10)%Z then mp + 3 else mp - 9)%Z in
  let y := (yoe + era * 400 + (if (m <=? 2)%Z then 1 else 0))%Z in
  {| dt_year := y; dt_month := m; dt_day := d |}.

(** [strftime('%Y-%m-%d')] *)
Definition strftime_iso (dt : datetime) : string :=
  pad 4 (dt_year dt) +:+ "-" +:+ pad 2 (dt_month dt) +:+ "-" +:+ pad 2 (dt_day dt).

(** [os.path.join(a, b)] *)
Definition path_join (a b : string) : string :=
  match b with
  | String "/" _ => b
  | _ =>
      if negb (str_truthy a) || String.eqb (String.substring (String.length a - 1) 1 a) "/"
      then a +:+ b
      else a +:+ "/" +:+ b
  end.

(** ** The workbook *)

Inductive cell : Type :=
| CEmpty
| CStr (s : string)
| CNum (x : number).

Record sheet := { title : string; rows : list (list cell) }.

(** The saved workbook and the path it was saved to, which the report
    functions return. *)
Record report := { path : string; sheets : list sheet }.

(** What the process reads from its surroundings when it names a file:
    [settings.TEMP_DIR], [datetime.now().strftime('%Y%m%d%H%M%S')] and
    [uuid.uuid4().hex[:8]]. *)
Record environment := { TEMP_DIR : string; timestamp : string; unique_id : string }.

(** [ensure_temp_dir()], which only creates the directory, is left out. *)
Definition generate_temp_filename (env : environment) (prefix ext : string) : string :=
  path_join (TEMP_DIR env)
    (prefix +:+ "_" +:+ timestamp env +:+ "_" +:+ unique_id env +:+ "." +:+ ext).

(** Store metadata kept by the resolver. *)
Record shop_info := { operator : string; sales : string; city : string }.
Record region_info := { region_city : json; region_district : json; region_business : json }.

(** A row of the daily query: the [kewen_daily_report] row with the
    [promotion_daily_report] and [store_stats] rows joined to it. *)
Record joined := { jk : kewen_row; jp : option promo_row; js : option stats_row }.

Definition join_reports (db : database) (ks : list kewen_row) : list joined :=
  flat_map (fun '(k, p) =>
      map (fun '(_, s) => {| jk := k; jp := p; js := s |})
        (left_join (fun k s => String.eqb (k_shop_id k) (s_store_id s)
                               && String.eqb (k_report_date k) (s_date s))
           [k] (store_stats db)))
    (left_join (fun k p => String.eqb (k_shop_id k) (p_shop_id p)
                           && String.eqb (k_report_date k) (p_report_date p))
       ks (promotion_daily_report db)).

(** [accounts] of a request is given and not empty. *)
Definition list_truthy {A} (l : option (list A)) : bool :=
  match l with
  | Some (_ :: _) => true
  | _ => false
  end.

Section Service.

(** [json.loads]: the decoded document, or the [JSONDecodeError] (or
    [TypeError]) it raises; it raises nothing else. *)
Variable json_loads : string -> result json.
Variable env : environment.
Variable db : database.

(** [json.loads(b) if isinstance(b, str) else b] *)
Definition decode (b : blob) : result json :=
  match b with
  | BText s => json_loads s
  | BDecoded j => Ok j
  end.

(** The identifiers a decoded stores document lists: for every object of
    the list, [str(store.get('shop_id', ''))] when that is not empty. *)
Definition listed_shop_ids (stores : json) : list string :=
  match stores with
  | JList l =>
      omap (fun store =>
        match store with
        | JDict kv =>
            let shop_id := json_str (default (JStr "") (dict_get "shop_id" kv)) in
            if str_truthy shop_id then Some shop_id else None
        | _ => None
        end) l
  | _ => []
  end.

(** The body of [try: .. except (json.JSONDecodeError, TypeError): pass]
    around the decoding of one account's stores: the account's shop
    identifiers, none when its blob is NULL, empty or does not decode. *)
Definition account_shop_ids (stores_json : option blob) : list string :=
  match stores_json with
  | Some b =>
      if blob_truthy b then
        match decode b with
        | Ok stores => listed_shop_ids stores
        | Raise _ => []
        end
      else []
  | None => []
  end.

Definition account_selected (accounts : option (list string)) (pa : account_row) : bool :=
  if list_truthy accounts then sql_in (pa_account pa) (default [] accounts) else true.

Definition get_shop_info_mapping (accounts : option (list string)) : gmap string shop_info :=
  let account_results :=
    left_join (fun pa su => bool_decide (pa_operator_id pa = Some (su_id su)))
      (List.filter (fun pa => bool_decide (is_Some (pa_stores_json pa)) && account_selected accounts pa)
         (platform_accounts db))
      (saas_users db) in
  foldl (fun shop_mapping '(pa, su) =>
      let info := {| operator := str_or (col su_name su) "";
                     sales := str_or (pa_sales_name pa) "";
                     city := str_or (pa_city_name pa) "" |} in
      foldl (fun m shop_id => <[shop_id := info]> m) shop_mapping
        (account_shop_ids (pa_stores_json pa)))
    ∅ account_results.

Definition region_name (info : json) : json :=
  match info with
  | JDict kv => default (JStr "") (dict_get "regionName" kv)
  | _ => JStr ""
  end.

Definition account_regions (regions_json : option blob) : list (string * region_info) :=
  match regions_json with
  | Some b =>
      if blob_truthy b then
        match decode b with
        | Ok (JDict regions) =>
            omap (fun '(shop_id, shop_data) =>
              match shop_data with
              | JDict sd =>
                  match default (JDict []) (dict_get "regions" sd) with
                  | JDict regions_data =>
                      let city_info := default (JDict []) (dict_get "city" regions_data) in
                      let district_info := default (JDict []) (dict_get "district" regions_data) in
                      let business_info := default (JDict []) (dict_get "business" regions_data) in
                      Some (shop_id, {| region_city := region_name city_info;
                                        region_district := region_name district_info;
                                        region_business := region_name business_info |})
                  | _ => None
                  end
              | _ => None
              end) regions
        | _ => []
        end
      else []
  | None => []
  end.

Definition get_region_info_mapping (accounts : option (list string)) : gmap string region_info :=
  let account_results :=
    List.filter (fun pa => bool_decide (is_Some (pa_compareRegions_json pa)) && account_selected accounts pa)
      (platform_accounts db) in
  foldl (fun region_mapping pa =>
      foldl (fun m '(shop_id, info) => <[shop_id := info]> m) region_mapping
        (account_regions (pa_compareRegions_json pa)))
    ∅ account_results.

Definition get_coupon_orders_last_7days (shop_id report_date : string) : result Z :=
  end_date ← strptime report_date;
  let start_date := civil_from_days (days_from_civil end_date - 6) in
  let total :=
    sql_sum (map k_coupon_pay_order_count
      (List.filter (fun k => String.eqb (k_shop_id k) shop_id
                             && sql_between (k_report_date k) (strftime_iso start_date) report_date)
         (kewen_daily_report db))) in
  Ok (py_int (num_or total (Int 0))).

Definition get_ad_orders_today (shop_id report_date : string) : Z :=
  match List.filter (fun s => String.eqb (s_store_id s) shop_id && String.eqb (s_date s) report_date)
          (store_stats db) with
  | s :: _ => py_int (num_or (s_ad_order_count s) (Int 0))
  | [] => 0
  end.

(** *** The daily report *)

(** The store filter of a daily request: [None] without accounts, else the
    identifiers that the stores of the named accounts list. *)
Definition daily_shop_ids_filter (accounts : option (list string)) : option (list string) :=
  if list_truthy accounts then
    let account_data :=
      List.filter (fun pa => sql_in (pa_account pa) (default [] accounts)) (platform_accounts db) in
    Some (flat_map (fun acc => account_shop_ids (pa_stores_json acc)) account_data)
  else None.

(** The daily query.  [if shop_ids_filter:] adds the [IN] condition only
    for a filter that is given and not empty. *)
Definition daily_rows (report_date : string) (shop_ids_filter : option (list string)) : list joined :=
  order_by (fun r => k_shop_id (jk r))
    (join_reports db
       (List.filter (fun k =>
            String.eqb (k_report_date k) report_date
            && (if list_truthy shop_ids_filter
                then sql_in (k_shop_id k) (default [] shop_ids_filter)
                else true))
          (kewen_daily_report db))).

Definition weekday_names : list string :=
  ["周一"; "周二"; "周三"; "周四"; "周五"; "周六"; "周日"].

Definition summary_headers : list string :=
  ["星期"; "日期"; "序号"; "运营"; "城市"; "销售"; "门店";
   "曝光人数"; "访问人数"; "下单人数"; "核销人数"; "下单券数"; "核销券数";
   "电话点击"; "地址点击"; "推广通消耗"; "好评"; "意向转化率";
   "下单售价金额"; "核销售价金额"; "优惠后核销金额";
   "下单人数商圈排名"; "核销金额商圈排名"].

(** [rank and rank < 100], [rank and rank >= 100] *)
Definition rank_below_100 (rank : option number) : bool :=
  match rank with
  | Some r => num_truthy r && num_ltb r (Int 100)
  | None => false
  end.

Definition rank_from_100 (rank : option number) : bool :=
  match rank with
  | Some r => num_truthy r && num_geb r (Int 100)
  | None => false
  end.

(** [order_rank_str] and [verify_rank_str] of the summary row. *)
Definition rank_str (rank : option number) : string :=
  if rank_below_100 rank then "第" +:+ py_str (default (Int 0) rank) +:+ "名"
  else if rank_from_100 rank then "大于100名"
  else "--".

(** [order_rank_display] and [verify_rank_display] of the detail sheet. *)
Definition rank_display (region_display : string) (rank : option number) : string :=
  if rank_below_100 rank
  then region_display +:+ "：第" +:+ py_str (default (Int 0) rank) +:+ "名"
  else region_display +:+ "：大于100名".

(** The name of the next detail sheet and the updated [sheet_names_used]. *)
Definition assign_sheet_name (sheet_names_used : gmap string Z) (shop_name : string)
  : string * gmap string Z :=
  let sheet_name := clean_sheet_name shop_name 31 in
  match sheet_names_used !! sheet_name with
  | Some n =>
      let n' := (n + 1)%Z in
      (str_take 28 sheet_name +:+ "_" +:+ str_int n', <[sheet_name := n']> sheet_names_used)
  | None => (sheet_name, <[sheet_name := 1%Z]> sheet_names_used)
  end.

(** [(numerator / denominator * 100) if denominator > 0 else 0] *)
Definition ratio_percent (numerator denominator : number) : result number :=
  if num_gtb denominator (Int 0)
  then q ← num_truediv numerator denominator; Ok (num_mul q (Int 100))
  else Ok (Int 0).

Definition qualified (b : bool) : string := if b then "达标" else "未达标".

Definition kv (label : string) (value : cell) : list cell := [CStr label; value; CStr ""].
Definition blank_row : list cell := [CStr ""; CStr ""; CStr ""].

(** One turn of the loop over the rows of the daily query: the summary
    row and the detail sheet of one store. *)
Definition daily_store (shop_mapping : gmap string shop_info)
    (region_mapping : gmap string region_info)
    (report_date weekday_name date_str date_short : string)
    (sheet_names_used : gmap string Z) (idx : Z) (row : joined)
  : result (list cell * sheet * gmap string Z) :=
  let k := jk row in
  let shop_id := k_shop_id k in
  let shop_name := str_or (k_shop_name k) ("门店" +:+ shop_id) in
  let shop_info := shop_mapping !! shop_id in
  let operator := default "" (operator <$> shop_info) in
  let sales := default "" (sales <$> shop_info) in
  let city := default "" (city <$> shop_info) in
  let region := region_mapping !! shop_id in
  let region_city := default (JStr city) (region_city <$> region) in
  let region_district := default (JStr "") (region_district <$> region) in
  let region_business := default (JStr "") (region_business <$> region) in
  let order_rank := col s_order_user_rank (js row) in
  let verify_rank := col s_verify_amount_rank (js row) in
  let order_rank_str := rank_str order_rank in
  let verify_rank_str := rank_str verify_rank in
  let summary_row :=
    [CStr weekday_name; CStr date_str; CNum (Int idx); CStr operator; CStr city; CStr sales;
     CStr shop_name;
     CNum (num_or (k_exposure_users k) (Int 0)); CNum (num_or (k_visit_users k) (Int 0));
     CNum (num_or (k_order_users k) (Int 0)); CNum (num_or (k_verify_person_count k) (Int 0));
     CNum (num_or (k_order_coupon_count k) (Int 0)); CNum (num_or (k_verify_coupon_count k) (Int 0));
     CNum (num_or (col p_view_phone_count (jp row)) (Int 0));
     CNum (num_or (col p_view_address_count (jp row)) (Int 0));
     CNum (round2_or_zero (k_promotion_cost k));
     CNum (num_or (k_new_good_review_count k) (Int 0)); CStr (str_or (k_intent_rate k) "0%");
     CNum (round2_or_zero (k_order_sale_amount k));
     CNum (round2_or_zero (k_verify_sale_amount k));
     CNum (round2_or_zero (k_verify_after_discount k));
     CStr order_rank_str; CStr verify_rank_str] in
  let '(sheet_name, sheet_names_used) := assign_sheet_name sheet_names_used shop_name in
  let order_users := num_or (k_order_users k) (Int 0) in
  let verify_users := num_or (k_verify_person_count k) (Int 0) in
  let new_review_count := num_or (k_new_review_count k) (Int 0) in
  let new_collect_users := num_or (k_new_collect_users k) (Int 0) in
  review_rate ← ratio_percent new_review_count verify_users;
  let review_rate_str := fmt_1f review_rate +:+ "%" in
  let review_qualified := qualified (num_geb review_rate (Int 30)) in
  collect_rate ← ratio_percent new_collect_users order_users;
  let collect_rate_str := fmt_1f collect_rate +:+ "%" in
  let collect_qualified := qualified (num_geb collect_rate (Int 40)) in
  coupon_7days ← get_coupon_orders_last_7days shop_id report_date;
  let coupon_qualified := qualified (10 <=? coupon_7days)%Z in
  let ad_today := get_ad_orders_today shop_id report_date in
  let ad_qualified := qualified (1 <=? ad_today)%Z in
  let is_force_offline := num_or (col s_is_force_offline (js row)) (Int 0) in
  let status_info :=
    if num_gtb is_force_offline (Int 0)
    then "警告：有" +:+ py_str is_force_offline +:+ "个团单被强制下线！"
    else "今天邮件已查看，无违规无异常。" in
  let region_display :=
    if json_truthy region_business
    then json_str region_city +:+ " | " +:+ json_str region_district +:+ " | "
         +:+ json_str region_business
    else city in
  let order_rank_display := rank_display region_display order_rank in
  let verify_rank_display := rank_display region_display verify_rank in
  let detail_data :=
    [ [CStr shop_name; CStr status_info; CStr ""];
      [CStr "数据报表"; CStr ("日期(" +:+ date_short +:+ ")"); CStr ""];
      kv "【美团点评广告结果数据】" (CStr "");
      kv "曝光人数：" (CNum (num_or (k_exposure_users k) (Int 0)));
      kv "访问人数：" (CNum (num_or (k_visit_users k) (Int 0)));
      kv "下单人数：" (CNum (num_or (k_order_users k) (Int 0)));
      kv "下单券数：" (CNum (num_or (k_order_coupon_count k) (Int 0)));
      kv "核销人数：" (CNum (num_or (k_verify_person_count k) (Int 0)));
      kv "核销券数：" (CNum (num_or (k_verify_coupon_count k) (Int 0)));
      kv "电话点击：" (CNum (num_or (col p_view_phone_count (jp row)) (Int 0)));
      kv "地址点击：" (CNum (num_or (col p_view_address_count (jp row)) (Int 0)));
      kv "在线咨询：" (CNum (num_or (k_consult_users k) (Int 0)));
      blank_row;
      kv "【店内干预数据】" (CStr "");
      kv "新增收藏：" (CNum (num_or (k_new_collect_users k) (Int 0)));
      kv "新增打卡：" (CNum (num_or (col s_checkin_count (js row)) (Int 0)));
      kv "新增评价：" (CNum (num_or (k_new_review_count k) (Int 0)));
      blank_row;
      kv "【推广通数据】" (CStr "");
      kv "推广通消耗：" (CNum (round2_or_zero (k_promotion_cost k)));
      kv "推广通点击单价：" (CNum (round2_or_zero (col p_click_avg_price (jp row))));
      kv "推广通下单量：" (CNum (num_or (col p_order_count (jp row)) (Int 0)));
      kv "推广通余额：" (CNum (round2_or_zero (col s_ad_balance (js row))));
      blank_row;
      [CStr "留评率（30%达标）："; CStr review_rate_str; CStr review_qualified];
      [CStr "收藏率（40%达标）："; CStr collect_rate_str; CStr collect_qualified];
      [CStr "近7天优惠码订单是否达标："; CNum (Int coupon_7days); CStr coupon_qualified];
      [CStr "广告单："; CStr ("当天" +:+ str_int ad_today +:+ "单"); CStr ad_qualified];
      blank_row;
      kv "下单售价金额：" (CNum (round2_or_zero (k_order_sale_amount k)));
      kv "核销售价金额：" (CNum (round2_or_zero (k_verify_sale_amount k)));
      kv "下单人数商圈排名：" (CStr order_rank_display);
      kv "核销金额商圈排名：" (CStr verify_rank_display);
      blank_row;
      kv "团单被强制下线数量：" (CNum is_force_offline);
      blank_row;
      kv "运营：" (CStr operator);
      kv "销售：" (CStr sales);
      kv "城市：" (CStr city) ] in
  Ok (summary_row, {| title := sheet_name; rows := detail_data |}, sheet_names_used).

(** The loop [for idx, row in enumerate(rows, start=1)]. *)
Fixpoint daily_loop (shop_mapping : gmap string shop_info)
    (region_mapping : gmap string region_info)
    (report_date weekday_name date_str date_short : string)
    (sheet_names_used : gmap string Z) (idx : Z) (rows : list joined)
  : result (list (list cell) * list sheet) :=
  match rows with
  | [] => Ok ([], [])
  | row :: rest =>
      '(summary_row, ws_detail, sheet_names_used) ←
        daily_store shop_mapping region_mapping report_date weekday_name date_str date_short
          sheet_names_used idx row;
      '(summary_rows, details) ←
        daily_loop shop_mapping region_mapping report_date weekday_name date_str date_short
          sheet_names_used (idx + 1) rest;
      Ok (summary_row :: summary_rows, ws_detail :: details)
  end.

Definition no_data_for_date (report_date : string) : exn :=
  ValueError ("日期 " +:+ report_date +:+ " 没有数据").

Definition generate_daily_report (report_date : string) (accounts : option (list string))
  : result report :=
  let shop_ids_filter := daily_shop_ids_filter accounts in
  let shop_mapping := get_shop_info_mapping accounts in
  let region_mapping := get_region_info_mapping accounts in
  let rows := daily_rows report_date shop_ids_filter in
  if bool_decide (rows = []) then Raise (no_data_for_date report_date)
  else
    date_obj ← strptime report_date;
    let weekday_name := default "" (weekday_names !! weekday date_obj) in
    let date_str := strftime_month_day date_obj in
    let date_short := strftime_short date_obj in
    '(summary_rows, details) ←
      daily_loop shop_mapping region_mapping report_date weekday_name date_str date_short
        ∅ 1 rows;
    let ws_summary := {| title := "汇总"; rows := map CStr summary_headers :: summary_rows |} in
    let output_filename :=
      generate_temp_filename env ("日报_" +:+ str_remove "-" report_date) "xlsx" in
    Ok {| path := output_filename; sheets := ws_summary :: details |}.

(** *** The two-period report *)

(** A row of the weekly query: a store with the sums over one period. *)
Record agg_row := {
  a_shop_id : string;
  a_shop_name : option string;
  a_verify_after_discount : option number;
  a_exposure_users : option number;
  a_visit_users : option number;
  a_order_users : option number;
  a_order_coupon_count : option number;
  a_verify_users : option number;
  a_verify_coupon_count : option number;
  a_order_sale_amount : option number;
  a_verify_sale_amount : option number;
  a_coupon_orders : option number;
  a_phone_clicks : option number;
  a_promotion_cost : option number;
  a_promotion_exposure : option number;
  a_promotion_clicks : option number;
  a_promotion_orders : option number;
  a_view_groupbuy : option number;
  a_view_phone : option number;
  a_consult_users : option number;
  a_address_clicks : option number;
  a_new_collect : option number;
  a_new_good_reviews : option number;
  a_new_reviews : option number;
  a_checkin_count : option number }.

(** The sums of one [GROUP BY k.shop_id, k.shop_name] group. *)
Definition aggregate (shop_id : string) (shop_name : option string) (g : list joined) : agg_row :=
  let ksum f := sql_sum (map (fun r => f (jk r)) g) in
  let psum f := sql_sum (map (fun r => col f (jp r)) g) in
  let ssum f := sql_sum (map (fun r => col f (js r)) g) in
  {| a_shop_id := shop_id;
     a_shop_name := shop_name;
     a_verify_after_discount := ksum k_verify_after_discount;
     a_exposure_users := ksum k_exposure_users;
     a_visit_users := ksum k_visit_users;
     a_order_users := ksum k_order_users;
     a_order_coupon_count := ksum k_order_coupon_count;
     a_verify_users := ksum k_verify_person_count;
     a_verify_coupon_count := ksum k_verify_coupon_count;
     a_order_sale_amount := ksum k_order_sale_amount;
     a_verify_sale_amount := ksum k_verify_sale_amount;
     a_coupon_orders := ksum k_coupon_pay_order_count;
     a_phone_clicks := psum p_view_phone_count;
     a_promotion_cost := ksum k_promotion_cost;
     a_promotion_exposure := ksum k_promotion_exposure_count;
     a_promotion_clicks := ksum k_promotion_click_count;
     a_promotion_orders := psum p_order_count;
     a_view_groupbuy := psum p_view_groupbuy_count;
     a_view_phone := psum p_view_phone_count;
     a_consult_users := ksum k_consult_users;
     a_address_clicks := psum p_view_address_count;
     a_new_collect := ksum k_new_collect_users;
     a_new_good_reviews := ksum k_new_good_review_count;
     a_new_reviews := ksum k_new_review_count;
     a_checkin_count := ssum s_checkin_count |}.

(** [sql_week]: no condition on the store, only on the date. *)
Definition sql_week (start_date end_date : string) : list agg_row :=
  let joined_rows :=
    join_reports db
      (List.filter (fun k => sql_between (k_report_date k) start_date end_date)
         (kewen_daily_report db)) in
  let group_key r := (k_shop_id (jk r), k_shop_name (jk r)) in
  let groups := remove_dups (map group_key joined_rows) in
  order_by a_shop_id
    (map (fun '(shop_id, shop_name) =>
        aggregate shop_id shop_name
          (List.filter (fun r => bool_decide (group_key r = (shop_id, shop_name))) joined_rows))
       groups).

(** [{row['shop_id']: row for row in cursor.fetchall()}] *)
Definition by_shop_id (rows : list agg_row) : gmap string agg_row :=
  foldl (fun m row => <[a_shop_id row := row]> m) ∅ rows.

(** [safe_get_val(data, key, default=0)]; [data] is a row of the weekly
    query, or the empty dictionary [{}], which is [None] here. *)
Definition safe_get_val (data : option agg_row) (key : agg_row -> option number)
    (default : number) : number :=
  match data with
  | None => default
  | Some row =>
      match key row with
      | None => default
      | Some value => value
      end
  end.

(** The figures of one period of a store: the variables [w1_..] of the
    loop for the first period, [w2_..] for the second. *)
Record period_metrics := {
  w_verify_discount : number;
  w_exposure : number;
  w_visit : number;
  w_order_users : number;
  w_order_coupons : number;
  w_verify_users : number;
  w_verify_coupons : number;
  w_order_amount : number;
  w_verify_amount : number;
  w_coupon_orders : number;
  w_phone_clicks : number;
  w_exposure_rate : string;
  w_order_rate : string;
  w_avg_price : number;
  w_promo_cost : number;
  w_promo_exposure : number;
  w_promo_clicks : number;
  w_promo_orders : number;
  w_view_groupbuy : number;
  w_view_phone : number;
  w_consult : number;
  w_address : number;
  w_collect : number;
  w_good_reviews : number;
  w_click_price : number;
  w_promo_rate : string;
  w_collect_rate : string;
  w_review_rate : string }.

Definition period_of (w : option agg_row) : result period_metrics :=
  let verify_discount := safe_get_val w a_verify_after_discount (Int 0) in
  let exposure := safe_get_val w a_exposure_users (Int 0) in
  let visit := safe_get_val w a_visit_users (Int 0) in
  let order_users := safe_get_val w a_order_users (Int 0) in
  let order_coupons := safe_get_val w a_order_coupon_count (Int 0) in
  let verify_users := safe_get_val w a_verify_users (Int 0) in
  let verify_coupons := safe_get_val w a_verify_coupon_count (Int 0) in
  let order_amount := safe_get_val w a_order_sale_amount (Int 0) in
  let verify_amount := safe_get_val w a_verify_sale_amount (Int 0) in
  let coupon_orders := safe_get_val w a_coupon_orders (Int 0) in
  let phone_clicks := safe_get_val w a_phone_clicks (Int 0) in
  exposure_rate ← calc_rate (Some visit) (Some exposure);
  order_rate ← calc_rate (Some order_users) (Some visit);
  avg_price ← calc_avg_price (Some verify_discount) (Some verify_users);
  let promo_cost := safe_get_val w a_promotion_cost (Int 0) in
  let promo_exposure := safe_get_val w a_promotion_exposure (Int 0) in
  let promo_clicks := safe_get_val w a_promotion_clicks (Int 0) in
  let promo_orders := safe_get_val w a_promotion_orders (Int 0) in
  let view_groupbuy := safe_get_val w a_view_groupbuy (Int 0) in
  let view_phone := safe_get_val w a_view_phone (Int 0) in
  let consult := safe_get_val w a_consult_users (Int 0) in
  let address := safe_get_val w a_address_clicks (Int 0) in
  let collect := safe_get_val w a_new_collect (Int 0) in
  let good_reviews := safe_get_val w a_new_good_reviews (Int 0) in
  click_price ← calc_avg_price (Some promo_cost) (Some promo_clicks);
  promo_rate ← calc_rate (Some promo_orders) (Some promo_clicks);
  collect_rate ← calc_rate (Some collect) (Some visit);
  review_rate ← calc_rate (Some good_reviews) (Some verify_users);
  Ok {| w_verify_discount := verify_discount;
        w_exposure := exposure;
        w_visit := visit;
        w_order_users := order_users;
        w_order_coupons := order_coupons;
        w_verify_users := verify_users;
        w_verify_coupons := verify_coupons;
        w_order_amount := order_amount;
        w_verify_amount := verify_amount;
        w_coupon_orders := coupon_orders;
        w_phone_clicks := phone_clicks;
        w_exposure_rate := fmt_percent exposure_rate;
        w_order_rate := fmt_percent order_rate;
        w_avg_price := avg_price;
        w_promo_cost := promo_cost;
        w_promo_exposure := promo_exposure;
        w_promo_clicks := promo_clicks;
        w_promo_orders := promo_orders;
        w_view_groupbuy := view_groupbuy;
        w_view_phone := view_phone;
        w_consult := consult;
        w_address := address;
        w_collect := collect;
        w_good_reviews := good_reviews;
        w_click_price := click_price;
        w_promo_rate := fmt_percent promo_rate;
        w_collect_rate := fmt_percent collect_rate;
        w_review_rate := fmt_percent review_rate |}.

Definition calc_rate_diff (rate1_str rate2_str : string) : result string :=
  val1 ← (if negb (String.eqb rate1_str "0%") then py_float (rstrip "%" rate1_str)
          else Ok (Int 0));
  val2 ← (if negb (String.eqb rate2_str "0%") then py_float (rstrip "%" rate2_str)
          else Ok (Int 0));
  Ok (fmt_percent (py_round (num_sub val2 val1) 1)).

(** The differences of a store: the variables [diff_..] of the loop. *)
Record period_diff := {
  diff_verify_discount : number;
  diff_exposure : number;
  diff_visit : number;
  diff_exposure_rate : string;
  diff_order_users : number;
  diff_order_coupons : number;
  diff_order_rate : string;
  diff_verify_users : number;
  diff_verify_coupons : number;
  diff_order_amount : number;
  diff_verify_amount : number;
  diff_coupon_orders : number;
  diff_phone_clicks : number;
  diff_avg_price : number;
  diff_promo_cost : number;
  diff_promo_exposure : number;
  diff_promo_clicks : number;
  diff_click_price : number;
  diff_promo_orders : number;
  diff_promo_rate : string;
  diff_view_groupbuy : number;
  diff_view_phone : number;
  diff_consult : number;
  diff_address : number;
  diff_collect : number;
  diff_collect_rate : string;
  diff_good_reviews : number;
  diff_review_rate : string }.

Definition diff_of (w1 w2 : period_metrics) : result period_diff :=
  exposure_rate ← calc_rate_diff (w_exposure_rate w1) (w_exposure_rate w2);
  order_rate ← calc_rate_diff (w_order_rate w1) (w_order_rate w2);
  promo_rate ← calc_rate_diff (w_promo_rate w1) (w_promo_rate w2);
  collect_rate ← calc_rate_diff (w_collect_rate w1) (w_collect_rate w2);
  review_rate ← calc_rate_diff (w_review_rate w1) (w_review_rate w2);
  Ok {| diff_verify_discount := py_round (num_sub (w_verify_discount w2) (w_verify_discount w1)) 2;
        diff_exposure := num_sub (w_exposure w2) (w_exposure w1);
        diff_visit := num_sub (w_visit w2) (w_visit w1);
        diff_exposure_rate := exposure_rate;
        diff_order_users := num_sub (w_order_users w2) (w_order_users w1);
        diff_order_coupons := num_sub (w_order_coupons w2) (w_order_coupons w1);
        diff_order_rate := order_rate;
        diff_verify_users := num_sub (w_verify_users w2) (w_verify_users w1);
        diff_verify_coupons := num_sub (w_verify_coupons w2) (w_verify_coupons w1);
        diff_order_amount := py_round (num_sub (w_order_amount w2) (w_order_amount w1)) 2;
        diff_verify_amount := py_round (num_sub (w_verify_amount w2) (w_verify_amount w1)) 2;
        diff_coupon_orders := num_sub (w_coupon_orders w2) (w_coupon_orders w1);
        diff_phone_clicks := num_sub (w_phone_clicks w2) (w_phone_clicks w1);
        diff_avg_price := py_round (num_sub (w_avg_price w2) (w_avg_price w1)) 2;
        diff_promo_cost := py_round (num_sub (w_promo_cost w2) (w_promo_cost w1)) 2;
        diff_promo_exposure := num_sub (w_promo_exposure w2) (w_promo_exposure w1);
        diff_promo_clicks := num_sub (w_promo_clicks w2) (w_promo_clicks w1);
        diff_click_price := py_round (num_sub (w_click_price w2) (w_click_price w1)) 2;
        diff_promo_orders := num_sub (w_promo_orders w2) (w_promo_orders w1);
        diff_promo_rate := promo_rate;
        diff_view_groupbuy := num_sub (w_view_groupbuy w2) (w_view_groupbuy w1);
        diff_view_phone := num_sub (w_view_phone w2) (w_view_phone w1);
        diff_consult := num_sub (w_consult w2) (w_consult w1);
        diff_address := num_sub (w_address w2) (w_address w1);
        diff_collect := num_sub (w_collect w2) (w_collect w1);
        diff_collect_rate := collect_rate;
        diff_good_reviews := num_sub (w_good_reviews w2) (w_good_reviews w1);
        diff_review_rate := review_rate |}.

Definition header_row1 : list string :=
  ["序号"; "运营"; "城市"; "销售"; "门店"; "数据周期"; "优惠后核销额"; "曝光人数"; "访问人数";
   "曝光访问转化率"; "下单人数"; "下单券数"; "下单转化率"; "核销人数"; "核销券数";
   "下单售价金额"; "核销售价金额"; "优惠码订单"; "电话点击"; "客单价"].

Definition header_row2 : list string :=
  [""; ""; ""; ""; ""; "数据周期"; "推广通花费"; "推广通曝光"; "推广通点击"; "推广通点击均价";
   "推广通订单量"; "推广通下单转化率"; "推广通查看团购"; "推广通查看电话"; "在线咨询";
   "地址点击"; "门店收藏"; "收藏率"; "新增好评数"; "留评率"].

Definition name_cell (shop_name : option string) : cell :=
  match shop_name with
  | Some n => CStr n
  | None => CEmpty
  end.

Definition five_blank : list cell := [CStr ""; CStr ""; CStr ""; CStr ""; CStr ""].

(** The first metric group of a period: columns 7 to 20 of rows 2 and 3. *)
Definition period_cells (w : period_metrics) : list cell :=
  [CNum (py_round (w_verify_discount w) 2); CNum (w_exposure w); CNum (w_visit w);
   CStr (w_exposure_rate w); CNum (w_order_users w); CNum (w_order_coupons w);
   CStr (w_order_rate w); CNum (w_verify_users w); CNum (w_verify_coupons w);
   CNum (py_round (w_order_amount w) 2); CNum (py_round (w_verify_amount w) 2);
   CNum (w_coupon_orders w); CNum (w_phone_clicks w); CNum (w_avg_price w)].

(** The promotion group of a period: columns 7 to 20 of rows 6 and 7. *)
Definition promo_cells (w : period_metrics) : list cell :=
  [CNum (py_round (w_promo_cost w) 2); CNum (w_promo_exposure w); CNum (w_promo_clicks w);
   CNum (w_click_price w); CNum (w_promo_orders w); CStr (w_promo_rate w);
   CNum (w_view_groupbuy w); CNum (w_view_phone w); CNum (w_consult w); CNum (w_address w);
   CNum (w_collect w); CStr (w_collect_rate w); CNum (w_good_reviews w);
   CStr (w_review_rate w)].

Definition diff_cells (d : period_diff) : list cell :=
  [CNum (diff_verify_discount d); CNum (diff_exposure d); CNum (diff_visit d);
   CStr (diff_exposure_rate d); CNum (diff_order_users d); CNum (diff_order_coupons d);
   CStr (diff_order_rate d); CNum (diff_verify_users d); CNum (diff_verify_coupons d);
   CNum (diff_order_amount d); CNum (diff_verify_amount d); CNum (diff_coupon_orders d);
   CNum (diff_phone_clicks d); CNum (diff_avg_price d)].

Definition diff_promo_cells (d : period_diff) : list cell :=
  [CNum (diff_promo_cost d); CNum (diff_promo_exposure d); CNum (diff_promo_clicks d);
   CNum (diff_click_price d); CNum (diff_promo_orders d); CStr (diff_promo_rate d);
   CNum (diff_view_groupbuy d); CNum (diff_view_phone d); CNum (diff_consult d);
   CNum (diff_address d); CNum (diff_collect d); CStr (diff_collect_rate d);
   CNum (diff_good_reviews d); CStr (diff_review_rate d)].

(** One turn of the loop over [sorted(all_shop_ids)]: the figures of the
    store in both periods, their differences, and its eight rows. *)
Definition weekly_store (shop_mapping : gmap string shop_info)
    (week1_data week2_data : gmap string agg_row) (week1_str week2_str : string)
    (seq_num : Z) (shop_id : string) : result (list (list cell)) :=
  let w1 := week1_data !! shop_id in
  let w2 := week2_data !! shop_id in
  let shop_name :=
    match w2 ≫= a_shop_name with
    | Some n => if str_truthy n then Some n
                else match w1 with Some r => a_shop_name r | None => Some "未知门店" end
    | None => match w1 with Some r => a_shop_name r | None => Some "未知门店" end
    end in
  let shop_info := shop_mapping !! shop_id in
  let operator := str_or (operator <$> shop_info) "--" in
  let sales := str_or (sales <$> shop_info) "--" in
  let city := str_or (city <$> shop_info) "--" in
  m1 ← period_of w1;
  m2 ← period_of w2;
  d ← diff_of m1 m2;
  Ok [ map CStr header_row1;
       [CNum (Int seq_num); CStr operator; CStr city; CStr sales; name_cell shop_name;
        CStr week1_str] ++ period_cells m1;
       five_blank ++ [CStr week2_str] ++ period_cells m2;
       five_blank ++ [CStr "差值"] ++ diff_cells d;
       map CStr header_row2;
       five_blank ++ [CStr week1_str] ++ promo_cells m1;
       five_blank ++ [CStr week2_str] ++ promo_cells m2;
       five_blank ++ [CStr "差值"] ++ diff_promo_cells d ].

Fixpoint weekly_loop (shop_mapping : gmap string shop_info)
    (week1_data week2_data : gmap string agg_row) (week1_str week2_str : string)
    (seq_num : Z) (shop_ids : list string) : result (list (list cell)) :=
  match shop_ids with
  | [] => Ok []
  | shop_id :: rest =>
      block ← weekly_store shop_mapping week1_data week2_data week1_str week2_str
                seq_num shop_id;
      more ← weekly_loop shop_mapping week1_data week2_data week1_str week2_str
               (seq_num + 1) rest;
      Ok (block ++ more)
  end.

Definition no_data_found : exn := ValueError "没有找到数据".

Definition generate_weekly_report (week1_start week1_end week2_start week2_end : string)
    (accounts : option (list string)) : result report :=
  let shop_mapping := get_shop_info_mapping accounts in
  let week1_data := by_shop_id (sql_week week1_start week1_end) in
  let week2_data := by_shop_id (sql_week week2_start week2_end) in
  let all_shop_ids : gset string := dom week1_data ∪ dom week2_data in
  if bool_decide (all_shop_ids = ∅) then Raise no_data_found
  else
    s1 ← strptime week1_start;
    e1 ← strptime week1_end;
    let week1_str := strftime_dotted s1 +:+ "-" +:+ strftime_dotted e1 in
    s2 ← strptime week2_start;
    e2 ← strptime week2_end;
    let week2_str := strftime_dotted s2 +:+ "-" +:+ strftime_dotted e2 in
    summary ← weekly_loop shop_mapping week1_data week2_data week1_str week2_str 1
                (merge_sort String.le (elements all_shop_ids));
    let output_filename :=
      generate_temp_filename env
        ("周报_" +:+ str_remove "-" week2_start +:+ "_" +:+ str_remove "-" week2_end) "xlsx" in
    Ok {| path := output_filename; sheets := [ {| title := "汇总"; rows := summary |} ] |}.

Definition generate_monthly_report (month1_start month1_end month2_start month2_end : string)
    (accounts : option (list string)) : result report :=
  generate_weekly_report month1_start month1_end month2_start month2_end accounts.

Definition generate_custom_report (period1_start period1_end period2_start period2_end : string)
    (shop_ids : option (list string)) (accounts : option (list string)) : result report :=
  generate_weekly_report period1_start period1_end period2_start period2_end accounts.

End Service.

(** ** The admission gate ([app/core/queue.py])

    [run_task] takes a token of the shared semaphore, hands the job to a
    worker with [run_in_executor], awaits it, and gives the token back when
    it leaves the [async with] block, with the job's result or with the
    exception it raised.  The callers interleave at these two points only;
    the gate is the transition system whose events they are.  A job is
    given by its outcome; jobs that never return and callers that are
    cancelled are outside the model. *)
Module TaskQueue.

(** [settings.MAX_WORKERS] when the environment does not set it. *)
Definition MAX_WORKERS : Z := 5.

Section Gate.
Context {A : Type}.

(** Where a caller of [run_task] stands. *)
Inductive phase : Type :=
| Waiting                (* at [async with semaphore], not admitted *)
| Executing              (* admitted: its job is on a worker *)
| Returned (r : result A). (* out of the block, token released *)

(** [_semaphore] is [None] until the first caller creates it. *)
Record state := { _semaphore : option Z; callers : list phase }.

Variable max_workers : Z.
Variable jobs : list (result A).

(** The value of the semaphore that [get_semaphore] returns. *)
Definition get_semaphore (s : state) : Z := default max_workers (_semaphore s).

Inductive event : Type :=
| Admit (i : nat)    (* caller [i] acquires a token: its job starts *)
| Finish (i : nat).  (* the job of caller [i] ends: token released *)

Definition fire (e : event) (s : state) : option state :=
  match e with
  | Admit i =>
      match callers s !! i with
      | Some Waiting =>
          let value := get_semaphore s in
          if (0 <? value)%Z
          then Some {| _semaphore := Some (value - 1)%Z;
                       callers := <[i := Executing]> (callers s) |}
          else None
      | _ => None
      end
  | Finish i =>
      match callers s !! i, jobs !! i with
      | Some Executing, Some r =>
          Some {| _semaphore := Some (get_semaphore s + 1)%Z;
                  callers := <[i := Returned r]> (callers s) |}
      | _, _ => None
      end
  end.

Fixpoint run (events : list event) (s : state) : option state :=
  match events with
  | [] => Some s
  | e :: rest => fire e s ≫= run rest
  end.

(** All jobs submitted, none admitted. *)
Definition submitted : state :=
  {| _semaphore := None; callers := replicate (length jobs) Waiting |}.

Definition is_executing (p : phase) : bool :=
  match p with Executing => true | _ => false end.

Definition is_waiting (p : phase) : bool :=
  match p with Waiting => true | _ => false end.

(** The number of jobs that execute in a state. *)
Definition executing (s : state) : Z := Z.of_nat (length (List.filter is_executing (callers s))).
Definition waiting (s : state) : Z := Z.of_nat (length (List.filter is_waiting (callers s))).

End Gate.
End TaskQueue.

(** ** Notions used in the statements *)

(** The rate of a period as the specification words it:
    [round(numerator / denominator * 100, 1)] when the denominator is
    positive, [0] otherwise. *)
Definition spec_rate (numerator denominator : number) : number :=
  if num_gtb denominator (Int 0)
  then py_round (Dec (toQ numerator / toQ denominator * 100)) 1
  else Int 0.

(** The field of an aggregated record with the default of the report. *)
Definition field (w : option agg_row) (key : agg_row -> option number) : number :=
  safe_get_val w key (Int 0).




(** Numbers equal up to the representation of a rational. *)
Definition num_eq (x y : number) : Prop :=
  match x, y with
  | Int a, Int b => a = b
  | Dec p, Dec q => (p == q)%Q
  | _, _ => False
  end.

(** A rate is the integer [0] or a decimal on one fractional digit. *)
Inductive one_decimal : number -> Prop :=
| one_decimal_zero : one_decimal (Int 0)
| one_decimal_tenths t : one_decimal (Dec (inject_Z t / pow10 1)).


Definition is_digit (a : ascii) : bool :=
  match NilEmpty.uint_of_string (String a EmptyString) with
  | Some _ => true
  | None => false
  end.

Fixpoint all_digits (s : string) : bool :=
  match s with
  | EmptyString => true
  | String a r => is_digit a && all_digits r
  end.

(** [c in s] *)
Fixpoint occurs (c : ascii) (s : string) : bool :=
  match s with
  | EmptyString => false
  | String a r => Ascii.eqb a c || occurs c r
  end.

(** A printed rate: the text of a number on one fractional digit. *)
Definition printed_rate (s : string) : Prop := exists r, one_decimal r /\ s = fmt_percent r.


(** The steps a caller of the gate still has to take: two while it
    waits, one while its job executes, none once it has returned. *)
Definition steps_left {A} (p : TaskQueue.phase (A := A)) : Z :=
  match p with
  | TaskQueue.Waiting => 2
  | TaskQueue.Executing => 1
  | TaskQueue.Returned _ => 0
  end.

Definition remaining {A} (s : TaskQueue.state (A := A)) : Z :=
  foldr (fun p acc => (steps_left p + acc)%Z) 0%Z (TaskQueue.callers s).

(** What holds in every state the gate reaches: the tokens out and the
    tokens left add up to the budget, every job has its caller, and a
    caller that has returned holds the outcome of its own job. *)
Definition gate_invariant {A} (max_workers : Z) (jobs : list (result A))
    (s : TaskQueue.state) : Prop :=
  (0 <= TaskQueue.get_semaphore max_workers s)%Z
  /\ (TaskQueue.get_semaphore max_workers s + TaskQueue.executing s = max_workers)%Z
  /\ length (TaskQueue.callers s) = length jobs
  /\ (forall i r, TaskQueue.callers s !! i = Some (TaskQueue.Returned r) -> jobs !! i = Some r).

(** ** Styles and merged cells of the two-period report

    After the loop over the stores [generate_weekly_report] styles the
    rows of the sheet and merges cells.  Rows and columns are counted from
    1 here, as the worksheet counts them. *)

(** [cell.value == text] for a cell of a row; a cell that is not there
    has the value [None]. *)
Definition value_is (text : string) (c : option cell) : bool :=
  match c with
  | Some (CStr s) => String.eqb s text
  | _ => false
  end.

(** The rows that the style loop makes bold on the green fill: the first
    cell is ['序号'], or the sixth is ['数据周期'] and the first is empty. *)
Definition header_style (row : list cell) : bool :=
  value_is "序号" (row !! 0%nat)
  || (value_is "数据周期" (row !! 5%nat) && value_is "" (row !! 0%nat)).

(** The rows whose cells from the sixth column on get the red font: the
    sixth cell is ['差值']. *)
Definition red_font (row : list cell) : bool := value_is "差值" (row !! 5%nat).

(** [ws.max_row]: the number of the last row, 1 for an empty sheet. *)
Definition max_row (ws : sheet) : Z := Z.max 1 (Z.of_nat (length (rows ws))).

(** [ws.cell(row, column).value] of a cell that was written. *)
Definition cell_value (ws : sheet) (row column : Z) : option cell :=
  rows ws !! Z.to_nat (row - 1) ≫= fun cells => cells !! Z.to_nat (column - 1).

(** The arguments of one call of [merge_cells]. *)
Record merged_range := { start_row : Z; start_column : Z; end_row : Z; end_column : Z }.

(** The loop [while row_idx <= max_row: .. row_idx += 8], which merges
    the first five columns over seven rows when these rows exist.  The
    fuel bounds the number of turns: [None] when it does not suffice. *)
Fixpoint merge_loop (fuel : nat) (max_row row_idx : Z) : option (list merged_range) :=
  match fuel with
  | O => None
  | S fuel =>
      if (row_idx <=? max_row)%Z then
        let merge_end := (row_idx + 6)%Z in
        let merged :=
          if (merge_end <=? max_row)%Z
          then (fun col => {| start_row := row_idx; start_column := col;
                              end_row := merge_end; end_column := col |}) <$> seqZ 1 5
          else [] in
        more ← merge_loop fuel max_row (row_idx + 8);
        Some (merged ++ more)
      else Some []
  end.

(** The merged ranges of a sheet: the loop started at row 2, with one
    turn more than the sheet has rows. *)
Definition merged_cells (ws : sheet) : option (list merged_range) :=
  merge_loop (S (length (rows ws))) (max_row ws) 2.

(** ** The routes ([app/api/routes.py])

    Each of the four handlers passes its request to a report function
    through the gate, which hands back what the job returned or raised,
    and turns the outcome into a response. *)
Module Routes.

Record DailyReportRequest := { report_date : string; daily_accounts : option (list string) }.

Record WeeklyReportRequest := {
  week1_start : string; week1_end : string; week2_start : string; week2_end : string;
  weekly_accounts : option (list string) }.

Record MonthlyReportRequest := {
  month1_start : string; month1_end : string; month2_start : string; month2_end : string;
  monthly_accounts : option (list string) }.

Record CustomReportRequest := {
  period1_start : string; period1_end : string; period2_start : string; period2_end : string;
  shop_ids : option (list string); custom_accounts : option (list string) }.

(** What is raised inside the [try] block of a handler: the exception of
    the job, or the [HTTPException] of the handler itself. *)
Inductive raised : Type :=
| JobError (e : exn)
| HTTPException (status_code : Z) (detail : string).

Record FileResponse := { response_path : string; filename : string; media_type : string }.

(** What the client gets: the file, or the error that leaves the
    handler. *)
Inductive response : Type :=
| Download (r : FileResponse)
| Error (status_code : Z) (detail : string).

(** [os.path.basename(p)]: what follows the last slash. *)
Fixpoint basename (p : string) : string :=
  match p with
  | EmptyString => EmptyString
  | String c r =>
      if occurs "/" r then basename r else if Ascii.eqb c "/" then r else p
  end.

Definition xlsx_media_type : string :=
  "application/vnd.openxmlformats-officedocument.spreadsheetml.sheet".

Section Handlers.

(** [os.path.exists] at the time of the request, and [str(e)] of an
    exception, which the handlers put into the detail of the last
    [except] clause. *)
Variable path_exists : string -> bool.
Variable str_of_exception : raised -> string.
Variable json_loads : string -> result json.
Variable env : environment.
Variable db : database.

(** The [try] block after the job has come back from the gate. *)
Definition try_block (job : result report) : raised + FileResponse :=
  match job with
  | Raise e => inl (JobError e)
  | Ok r =>
      let file_path := path r in
      if negb (str_truthy file_path) || negb (path_exists file_path)
      then inl (HTTPException 404 "报表生成失败，未找到文件")
      else inr {| response_path := file_path; filename := basename file_path;
                  media_type := xlsx_media_type |}
  end.

(** [except ValueError as e: .. except Exception as e: ..] *)
Definition respond (job : result report) : response :=
  match try_block job with
  | inr r => Download r
  | inl (JobError (ValueError msg)) => Error 400 msg
  | inl e => Error 500 ("报表生成失败: " +:+ str_of_exception e)
  end.

Definition create_daily_report (request : DailyReportRequest) : response :=
  respond (generate_daily_report json_loads env db
             (report_date request) (daily_accounts request)).

Definition create_weekly_report (request : WeeklyReportRequest) : response :=
  respond (generate_weekly_report json_loads env db
             (week1_start request) (week1_end request)
             (week2_start request) (week2_end request) (weekly_accounts request)).

Definition create_monthly_report (request : MonthlyReportRequest) : response :=
  respond (generate_monthly_report json_loads env db
             (month1_start request) (month1_end request)
             (month2_start request) (month2_end request) (monthly_accounts request)).

Definition create_custom_report (request : CustomReportRequest) : response :=
  respond (generate_custom_report json_loads env db
             (period1_start request) (period1_end request)
             (period2_start request) (period2_end request)
             (shop_ids request) (custom_accounts request)).

End Handlers.
End Routes.

(** ** Connections of the pool ([app/core/database.py])

    Every function that queries the tables takes a connection from the
    pool with [get_connection] and gives it back in the [finally] clause
    of its [try], whether its body returns or raises.  The trace of a
    report job is the sequence of these two events in the order in which
    the job performs them. *)
Module Pool.

(** [settings.DB_POOL_SIZE] when the environment does not set it. *)
Definition DB_POOL_SIZE : Z := 20.

Inductive event : Type :=
| get_connection   (* [conn = db.get_connection()] *)
| close.           (* [conn.close()] in the [finally] clause *)

(** [conn = db.get_connection(); try: body finally: conn.close()] *)
Definition with_connection (body : list event) : list event :=
  get_connection :: body ++ [close].

Definition step (connections : Z) (e : event) : Z :=
  match e with
  | get_connection => (connections + 1)%Z
  | close => (connections - 1)%Z
  end.

(** The number of connections the job holds after each of its events,
    starting from [connections]. *)
Fixpoint levels (connections : Z) (trace : list event) : list Z :=
  match trace with
  | [] => []
  | e :: rest => step connections e :: levels (step connections e) rest
  end.

(** The number of connections the job holds at the end. *)
Definition in_use (trace : list event) : Z := foldl step 0%Z trace.

Section Jobs.
Variable json_loads : string -> result json.
Variable db : database.

Definition get_shop_info_mapping : list event := with_connection [].
Definition get_region_info_mapping : list event := with_connection [].
Definition get_coupon_orders_last_7days : list event := with_connection [].
Definition get_ad_orders_today : list event := with_connection [].

(** [generate_daily_report]: the store filter when accounts are named,
    the two resolvers, then the connection of the daily query, which is
    held while the loop over the rows calls the two helpers for every
    row.  Without rows, and with a date that [strptime] does not read,
    the body raises before the loop. *)
Definition generate_daily_report (report_date : string) (accounts : option (list string))
  : list event :=
  (if list_truthy accounts then with_connection [] else [])
  ++ get_shop_info_mapping
  ++ get_region_info_mapping
  ++ with_connection
       (let rows := daily_rows db report_date (daily_shop_ids_filter json_loads db accounts) in
        match strptime report_date with
        | Ok _ => flat_map (fun _ => get_coupon_orders_last_7days ++ get_ad_orders_today) rows
        | Raise _ => []
        end).

(** [generate_weekly_report]: the resolver, then the connection of the
    two queries; the loop over the stores queries nothing. *)
Definition generate_weekly_report : list event :=
  get_shop_info_mapping ++ with_connection [].

Definition generate_monthly_report : list event := generate_weekly_report.
Definition generate_custom_report : list event := generate_weekly_report.

End Jobs.
End Pool.

(** ** Concrete requests and tables for the examples *)

Definition env0 : environment :=
  {| TEMP_DIR := "/tmp/jx_reports"; timestamp := "20251218093000"; unique_id := "0a1b2c3d" |}.

(** A [kewen_daily_report] row with the given counts and nothing else. *)
Definition kewen (report_date shop_id shop_name : string)
    (exposure_users visit_users order_users verify_users : Z) : kewen_row :=
  {| k_report_date := report_date; k_shop_id := shop_id; k_shop_name := Some shop_name;
     k_exposure_users := Some (Int exposure_users); k_visit_users := Some (Int visit_users);
     k_order_users := Some (Int order_users);
     k_verify_person_count := Some (Int verify_users);
     k_order_coupon_count := None; k_verify_coupon_count := None; k_promotion_cost := None;
     k_new_good_review_count := None; k_new_review_count := None;
     k_new_collect_users := None; k_consult_users := None; k_intent_rate := None;
     k_order_sale_amount := None; k_verify_sale_amount := None;
     k_verify_after_discount := None; k_coupon_pay_order_count := None;
     k_promotion_exposure_count := None; k_promotion_click_count := None |}.

Definition stats (store_id date : string) (order_user_rank verify_amount_rank : option number)
  : stats_row :=
  {| s_store_id := store_id; s_date := date;
     s_order_user_rank := order_user_rank; s_verify_amount_rank := verify_amount_rank;
     s_checkin_count := None; s_ad_balance := None; s_ad_order_count := None;
     s_is_force_offline := None |}.

Definition tables (accounts : list account_row) (reports : list kewen_row)
    (store_stats : list stats_row) : database :=
  {| platform_accounts := accounts; saas_users := []; kewen_daily_report := reports;
     promotion_daily_report := []; store_stats := store_stats |}.

(** A decoder that knows the empty documents only. *)
Definition loads_empty_documents (s : string) : result json :=
  if String.eqb s "[]" then Ok (JList [])
  else if String.eqb s "{}" then Ok (JDict [])
  else Raise JSONDecodeError.

(** Scenario D: the only account of the request has a stores blob that is
    not JSON; one store has a row on the date. *)
Definition db_D : database :=
  tables [ {| pa_account := "acctX"; pa_stores_json := Some (BText "{not json");
              pa_compareRegions_json := None; pa_sales_name := None; pa_city_name := None;
              pa_operator_id := None |} ]
         [ kewen "2025-12-18" "1001" "Central" 100 40 10 40 ]
         [].

(** Two stores with rows in both periods. *)
Definition db_two_stores : database :=
  tables []
         [ kewen "2025-12-02" "1001" "Central" 100 40 10 8;
           kewen "2025-12-02" "1002" "Harbour" 200 50 20 9;
           kewen "2025-12-09" "1001" "Central" 120 60 30 8;
           kewen "2025-12-09" "1002" "Harbour" 210 70 10 9 ]
         [].

(** Scenario B: a store with 20 ordering users in period A and no row in
    period B. *)
Definition db_B : database :=
  tables [] [ kewen "2025-12-02" "1001" "Central" 100 40 20 8 ] [].


(** Three stores on one date: ranks 5 and 150, rank 0, and no
    [store_stats] row at all. *)
Definition db_ranks : database :=
  tables []
         [ kewen "2025-12-18" "1" "North" 1 1 1 1;
           kewen "2025-12-18" "2" "South" 1 1 1 1;
           kewen "2025-12-18" "3" "West" 1 1 1 1 ]
         [ stats "1" "2025-12-18" (Some (Int 5)) (Some (Int 150));
           stats "2" "2025-12-18" (Some (Int 0)) None ].

(** The cell at a position of a saved workbook, counted from 0. *)
Definition cell_at (r : result report) (sheet row column : nat) : option cell :=
  match r with
  | Ok r => sheets r !! sheet ≫= fun ws => rows ws !! row ≫= fun cells => cells !! column
  | Raise _ => None
  end.

Definition sheet_titles (r : result report) : result (list string) :=
  (fun r => title <$> sheets r) <$> r.

(** The names given to the detail sheets of stores with the given display
    names, in order, starting from [sheet_names_used]. *)
Fixpoint assign_all (sheet_names_used : gmap string Z) (shop_names : list string) : list string :=
  match shop_names with
  | [] => []
  | shop_name :: rest =>
      let '(sheet_name, sheet_names_used) := assign_sheet_name sheet_names_used shop_name in
      sheet_name :: assign_all sheet_names_used rest
  end.

(** [shop_name] of a row of the daily query. *)
Definition display_name (row : joined) : string :=
  str_or (k_shop_name (jk row)) ("门店" +:+ k_shop_id (jk row)).

(** Six report jobs for the default budget of five: five that return a
    path and one that raises the no-data error. *)
Definition six_jobs : list (result string) :=
  [ Ok "/tmp/jx_reports/a.xlsx"; Ok "/tmp/jx_reports/b.xlsx"; Raise no_data_found;
    Ok "/tmp/jx_reports/c.xlsx"; Ok "/tmp/jx_reports/d.xlsx"; Ok "/tmp/jx_reports/e.xlsx" ].

(** One run of the six jobs to the end: five are admitted, the sixth is
    admitted when the first has finished. *)
Definition six_jobs_schedule : list TaskQueue.event :=
  (TaskQueue.Admit <$> seq 0 5)
  ++ [TaskQueue.Finish 0; TaskQueue.Admit 5]
  ++ (TaskQueue.Finish <$> seq 1 5).

(** ** Further notions *)



(** An account with an operator that lists one of two stores, both with
    rows on one date and in two periods. *)
Definition db_accounts : database :=
  {| platform_accounts :=
       [ {| pa_account := "acctA";
            pa_stores_json := Some (BDecoded (JList [JDict [("shop_id", JNum (Int 1001))]]));
            pa_compareRegions_json := None; pa_sales_name := Some "Lin";
            pa_city_name := Some "Shanghai"; pa_operator_id := Some 7%Z |} ];
     saas_users := [ {| su_id := 7; su_name := Some "Chen" |} ];
     kewen_daily_report :=
       [ kewen "2025-12-18" "1002" "Harbour" 200 50 20 9;
         kewen "2025-12-18" "1001" "Central" 100 40 10 8;
         kewen "2025-12-11" "1001" "Central" 120 60 30 8 ];
     promotion_daily_report := [];
     store_stats := [] |}.

(** A summary row and a detail sheet of the daily report that belong to
    the store of one row of the query, the store being number [idx]: the
    summary row has the 23 columns of the header, with the number in the
    third and the store name in the seventh; the detail sheet has 39 rows
    of three cells and begins with the store name. *)
Definition describes_store (idx : Z) (row : joined) (summary_row : list cell) (ws : sheet)
  : Prop :=
  length summary_row = length summary_headers
  /\ summary_row !! 2%nat = Some (CNum (Int idx))
  /\ summary_row !! 6%nat = Some (CStr (display_name row))
  /\ length (rows ws) = 39%nat
  /\ Forall (fun cells => length cells = 3%nat) (rows ws)
  /\ rows ws !! 0%nat ≫= (fun cells => cells !! 0%nat) = Some (CStr (display_name row)).


(** The eight rows of the store with number [seq_num] in the two-period
    sheet: rows of 20 cells; the two header rows, first and fifth, and
    only they, bold on green; the number of the store at the start of the
    second row; the first five cells of the third to eighth row empty;
    and the red font in the two rows of differences, fourth and eighth,
    and only there. *)
Definition store_block (seq_num : Z) (block : list (list cell)) : Prop :=
  length block = 8%nat
  /\ Forall (fun row => length row = 20%nat) block
  /\ block !! 0%nat = Some (map CStr header_row1)
  /\ block !! 4%nat = Some (map CStr header_row2)
  /\ block !! 1%nat ≫= (fun row => row !! 0%nat) = Some (CNum (Int seq_num))
  /\ (forall k : nat, (2 <= k < 8)%nat -> take 5 <$> block !! k = Some five_blank)
  /\ header_style <$> block = [true; false; false; false; true; false; false; false]
  /\ red_font <$> block = [false; false; false; true; false; false; false; true].

(** The ranges merged for the [i]-th store of the two-period sheet,
    counted from 0: rows 2 to 8 of its block in each of the first five
    columns. *)
Definition store_ranges (i : nat) : list merged_range :=
  (fun col => {| start_row := 8 * Z.of_nat i + 2; start_column := col;
                 end_row := 8 * Z.of_nat i + 8; end_column := col |}) <$> seqZ 1 5.

(** The caller of an event of the gate, and the steps that caller has
    left when the event can happen. *)
Definition caller_of (e : TaskQueue.event) : nat :=
  match e with TaskQueue.Admit i | TaskQueue.Finish i => i end.

Definition steps_before (e : TaskQueue.event) : Z :=
  match e with TaskQueue.Admit _ => 2 | TaskQueue.Finish _ => 1 end.

(** The rows of a store within a period. *)
Definition period_rows (db : database) (start_date end_date shop_id : string)
  : list kewen_row :=
  List.filter (fun k => String.eqb (k_shop_id k) shop_id
                        && sql_between (k_report_date k) start_date end_date)
    (kewen_daily_report db).

(** The promotion rows and the statistics rows that a [kewen_daily_report]
    row is joined to: those of its store and date. *)
Definition promo_of (db : database) (k : kewen_row) : list promo_row :=
  List.filter (fun p => String.eqb (k_shop_id k) (p_shop_id p)
                        && String.eqb (k_report_date k) (p_report_date p))
    (promotion_daily_report db).

Definition stats_of (db : database) (k : kewen_row) : list stats_row :=
  List.filter (fun s => String.eqb (k_shop_id k) (s_store_id s)
                        && String.eqb (k_report_date k) (s_date s))
    (store_stats db).

(** The row is joined to at most one promotion row and at most one
    statistics row. *)
Definition joined_once (db : database) (k : kewen_row) : Prop :=
  (length (promo_of db k) <= 1)%nat /\ (length (stats_of db k) <= 1)%nat.

(** The sums of the weekly query with the columns they sum. *)
Definition kewen_sums : list ((agg_row -> option number) * (kewen_row -> option number)) :=
  [ (a_verify_after_discount, k_verify_after_discount); (a_exposure_users, k_exposure_users);
    (a_visit_users, k_visit_users); (a_order_users, k_order_users);
    (a_order_coupon_count, k_order_coupon_count); (a_verify_users, k_verify_person_count);
    (a_verify_coupon_count, k_verify_coupon_count);
    (a_order_sale_amount, k_order_sale_amount); (a_verify_sale_amount, k_verify_sale_amount);
    (a_coupon_orders, k_coupon_pay_order_count); (a_promotion_cost, k_promotion_cost);
    (a_promotion_exposure, k_promotion_exposure_count);
    (a_promotion_clicks, k_promotion_click_count); (a_consult_users, k_consult_users);
    (a_new_collect, k_new_collect_users); (a_new_good_reviews, k_new_good_review_count);
    (a_new_reviews, k_new_review_count) ].

Definition promo_sums : list ((agg_row -> option number) * (promo_row -> option number)) :=
  [ (a_phone_clicks, p_view_phone_count); (a_promotion_orders, p_order_count);
    (a_view_groupbuy, p_view_groupbuy_count); (a_view_phone, p_view_phone_count);
    (a_address_clicks, p_view_address_count) ].

(** A store that changes its name within the period: two rows of
    store 1001 under different names. *)
Definition db_renamed : database :=
  tables []
         [ kewen "2025-12-02" "1001" "Central" 100 40 10 8;
           kewen "2025-12-03" "1001" "Central Plaza" 300 50 20 9 ]
         [].
(** * Properties *)

(** ** Numbers and rounding *)

Lemma num_gtb_zero_spec (x : number) : num_gtb x (Int 0) = true <-> (0 < toQ x)%Q.
Proof.
  unfold num_gtb. change (toQ (Int 0)) with 0%Q.
  rewrite (Qgt_alt (toQ x) 0). destruct (toQ x ?= 0)%Q; split; congruence.
Qed.

Lemma num_gtb_zero_truthy (x : number) : num_gtb x (Int 0) = true -> num_truthy x = true.
Proof.
  intros H%num_gtb_zero_spec. unfold num_truthy.
  destruct (Qeq_bool (toQ x) 0) eqn:E; [|done].
  apply Qeq_bool_iff in E. rewrite E in H. by apply Qlt_irrefl in H.
Qed.

Lemma num_truediv_positive (x y : number) :
  num_gtb y (Int 0) = true -> num_truediv x y = Ok (Dec (toQ x / toQ y)).
Proof.
  intros H%num_gtb_zero_truthy. unfold num_truediv, num_truthy in *.
  by destruct (Qeq_bool (toQ y) 0).
Qed.

(** The guard of the helpers never raises, whatever the denominator is. *)
Lemma positive_guard_spec (denominator : option number) :
  positive_guard denominator =
    Ok (match denominator with Some d => num_gtb d (Int 0) | None => false end).
Proof.
  destruct denominator as [d|]; [|done]. unfold positive_guard. simpl.
  destruct (num_truthy d) eqn:T; [done|].
  destruct (num_gtb d (Int 0)) eqn:G; [|done].
  apply num_gtb_zero_truthy in G. congruence.
Qed.

Lemma calc_rate_numbers (n d : number) : calc_rate (Some n) (Some d) = Ok (spec_rate n d).
Proof.
  unfold calc_rate, spec_rate. rewrite positive_guard_spec. simpl.
  destruct (num_gtb d (Int 0)) eqn:G; [|done].
  by rewrite (num_truediv_positive n d G).
Qed.

Lemma calc_avg_price_numbers (n d : number) :
  calc_avg_price (Some n) (Some d) =
    Ok (if num_gtb d (Int 0) then py_round (Dec (toQ n / toQ d)) 2 else Int 0).
Proof.
  unfold calc_avg_price. rewrite positive_guard_spec. simpl.
  destruct (num_gtb d (Int 0)) eqn:G; [|done].
  by rewrite (num_truediv_positive n d G).
Qed.


#[global] Instance round_half_even_proper : Proper (Qeq ==> eq) round_half_even.
Proof.
  intros p q E. unfold round_half_even.
  rewrite (Qfloor_comp p q E). 
  assert (E2 : (p - inject_Z (Qfloor q) == q - inject_Z (Qfloor q))%Q) by (by rewrite E).
  by rewrite (Qcompare_comp _ _ E2 (1#2) (1#2) (Qeq_refl _)).
Qed.

Lemma round_half_even_Z (z : Z) : round_half_even (inject_Z z) = z.
Proof.
  unfold round_half_even. rewrite Qfloor_Z.
  assert (E : (inject_Z z - inject_Z z == 0)%Q) by ring.
  by rewrite (Qcompare_comp _ _ E (1#2) (1#2) (Qeq_refl _)).
Qed.

Lemma pow10_pos n : (0 < pow10 n)%Q.
Proof.
  unfold pow10. change 0%Q with (inject_Z 0). rewrite <- Zlt_Qlt. 
  apply Z.pow_pos_nonneg; lia.
Qed.

Lemma round_grid (t : Z) (n : nat) : round_half_even (inject_Z t / pow10 n * pow10 n) = t.
Proof.
  rewrite <- (round_half_even_Z t) at 2. apply round_half_even_proper.
  field. pose proof (pow10_pos n) as H. intros E. rewrite E in H. by apply Qlt_irrefl in H.
Qed.





(** ** Texts of numbers *)

Lemma str_length_app (a b : string) :
  String.length (a +:+ b) = (String.length a + String.length b)%nat.
Proof. induction a as [|c a IH]; simpl; [done|]. by rewrite IH. Qed.

Lemma occurs_app c (a b : string) : occurs c (a +:+ b) = occurs c a || occurs c b.
Proof. induction a as [|x a IH]; simpl; [done|]. rewrite IH. by rewrite orb_assoc. Qed.

Lemma all_digits_uint (d : Decimal.uint) : all_digits (NilEmpty.string_of_uint d) = true.
Proof. induction d; simpl; try done; by rewrite IHd. Qed.

Lemma all_digits_occurs c (s : string) :
  is_digit c = false -> all_digits s = true -> occurs c s = false.
Proof.
  intros Hc. induction s as [|a s IH]; simpl; [done|].
  intros [Ha Hs]%andb_prop. rewrite (IH Hs), orb_false_r.
  destruct (Ascii.eqb_spec a c) as [->|]; [congruence|done].
Qed.

Lemma split_dot_digits (a b : string) :
  all_digits a = true -> split_dot (a +:+ String "." b) = (a, Some b).
Proof.
  induction a as [|x a IH]; simpl; [done|].
  intros [Hx Ha]%andb_prop. rewrite (IH Ha).
  destruct (Ascii.eqb_spec x ".") as [->|]; [done|done].
Qed.

Lemma rstrip_last c (s : string) :
  occurs c s = false -> rstrip c (s +:+ String c EmptyString) = s.
Proof.
  induction s as [|a s IH]; simpl.
  - by rewrite Ascii.eqb_refl.
  - intros [Ha Hs]%orb_false_elim. rewrite (IH Hs).
    destruct s; [by rewrite Ha | done].
Qed.

Lemma str_nat_digits_parse (n : N) :
  NilEmpty.uint_of_string (str_nat_digits n) = Some (N.to_uint n).
Proof. apply NilEmpty.usu. Qed.

Lemma str_nat_digits_nonempty (n : N) : (1 <= String.length (str_nat_digits n))%nat.
Proof.
  unfold str_nat_digits. destruct n as [|p]; [simpl; lia|].
  simpl. pose proof (DecimalPos.Unsigned.to_uint_nonnil p) as H.
  destruct (Pos.to_uint p); simpl; try lia. done.
Qed.

Lemma str_nat_digits_one (r : Z) :
  (0 <= r < 10)%Z -> String.length (str_nat_digits (Z.to_N r)) = 1%nat.
Proof.
  intros H.
  assert (r = 0 \/ r = 1 \/ r = 2 \/ r = 3 \/ r = 4 \/ r = 5 \/ r = 6 \/ r = 7 \/ r = 8 \/ r = 9)%Z
    as D by lia.
  by repeat (destruct D as [->|D]; [done|]); subst.
Qed.

Lemma str_tenths_no_percent (t : Z) : occurs "%" (str_tenths t) = false.
Proof.
  unfold str_tenths, str_nat_digits. rewrite !occurs_app.
  rewrite !(all_digits_occurs "%" _ eq_refl (all_digits_uint _)).
  by destruct (t <? 0)%Z.
Qed.

Lemma str_tenths_length (t : Z) : (3 <= String.length (str_tenths t))%nat.
Proof.
  unfold str_tenths. rewrite !str_length_app.
  pose proof (str_nat_digits_nonempty (Z.to_N (Z.abs t / 10))).
  pose proof (str_nat_digits_nonempty (Z.to_N (Z.abs t mod 10))).
  simpl. lia.
Qed.

Lemma float_of_decimal_tenths (neg : bool) (ip fp : N) :
  String.length (str_nat_digits fp) = 1%nat ->
  float_of_decimal neg (str_nat_digits ip +:+ "." +:+ str_nat_digits fp) =
    Ok (Dec ((if neg then - (inject_Z (Z.of_N ip) * pow10 1 + inject_Z (Z.of_N fp))
              else (inject_Z (Z.of_N ip) * pow10 1 + inject_Z (Z.of_N fp))) / pow10 1)%Q).
Proof.
  intros Hfp. unfold float_of_decimal.
  change ("." +:+ str_nat_digits fp) with (String "." (str_nat_digits fp)).
  rewrite split_dot_digits by apply all_digits_uint. cbv beta iota zeta.
  change (default EmptyString (Some (str_nat_digits fp))) with (str_nat_digits fp).
  rewrite !str_nat_digits_parse, !DecimalN.Unsigned.of_to, Hfp.
  destruct (String.length (str_nat_digits ip) + 1 =? 0)%nat eqn:E; [|done].
  apply Nat.eqb_eq in E. lia.
Qed.

Lemma strip_sign_digits (n : N) (s : string) :
  strip_sign (str_nat_digits n +:+ s) = (false, str_nat_digits n +:+ s).
Proof.
  pose proof (all_digits_uint (N.to_uint n)) as H.
  pose proof (str_nat_digits_nonempty n) as L.
  fold (str_nat_digits n) in H. destruct (str_nat_digits n) as [|a r]; [simpl in L; lia|].
  simpl in H. apply andb_prop in H as [H _]. simpl.
  destruct (Ascii.eqb_spec a "-") as [->|]; [done|done].
Qed.

(** [float] reads a one-digit decimal text back to the number it shows. *)
Lemma py_float_str_tenths (t : Z) :
  exists q, py_float (str_tenths t) = Ok (Dec q) /\ (q == inject_Z t / pow10 1)%Q.
Proof.
  set (ip := Z.to_N (Z.abs t / 10)). set (fp := Z.to_N (Z.abs t mod 10)).
  assert (Hfp : String.length (str_nat_digits fp) = 1%nat)
    by (apply str_nat_digits_one, Z.mod_pos_bound; lia).
  assert (Hval : (Z.of_N ip * 10 + Z.of_N fp = Z.abs t)%Z).
  { unfold ip, fp. rewrite !Z2N.id.
    - pose proof (Z.div_mod (Z.abs t) 10). lia.
    - apply Z.mod_pos_bound; lia.
    - apply Z.div_pos; lia. }
  assert (HvalQ : (inject_Z (Z.of_N ip) * pow10 1 + inject_Z (Z.of_N fp) == inject_Z (Z.abs t))%Q).
  { rewrite <- Hval. unfold pow10. change (10 ^ Z.of_nat 1)%Z with 10%Z.
    rewrite inject_Z_plus, inject_Z_mult. reflexivity. }
  unfold str_tenths, py_float. fold ip fp. destruct (t <? 0)%Z eqn:S.
  - apply Z.ltb_lt in S. eexists. split.
    + change ("-" +:+ ?x) with (String "-" x). simpl strip_sign. cbv iota.
      apply (float_of_decimal_tenths true ip fp Hfp).
    + cbv beta iota. rewrite HvalQ. rewrite Z.abs_neq by lia. rewrite inject_Z_opp.
      field. done.
  - apply Z.ltb_ge in S. eexists. split.
    + change ("" +:+ ?x) with x. rewrite strip_sign_digits.
      apply (float_of_decimal_tenths false ip fp Hfp).
    + cbv beta iota. rewrite HvalQ. rewrite Z.abs_eq by lia. reflexivity.
Qed.

Lemma num_sub_eq x x' y y' : num_eq x x' -> num_eq y y' -> num_eq (num_sub x y) (num_sub x' y').
Proof.
  destruct x, x', y, y'; simpl; try done; intros H1 H2; subst; try done;
    by rewrite ?H1, ?H2.
Qed.

Lemma py_round_eq x y n : num_eq x y -> py_round x n = py_round y n.
Proof.
  destruct x as [a|p], y as [b|q]; simpl; try done; [by intros ->|].
  intros E. by rewrite E.
Qed.

Lemma spec_rate_one_decimal n d : one_decimal (spec_rate n d).
Proof. unfold spec_rate. destruct (num_gtb d (Int 0)); simpl; constructor. Qed.

Lemma fmt_percent_tenths (t : Z) :
  fmt_percent (Dec (inject_Z t / pow10 1)) = str_tenths t +:+ "%".
Proof.
  unfold fmt_percent, py_str. change 10%Q with (pow10 1). by rewrite round_grid.
Qed.

Lemma str_tenths_percent_not_zero (t : Z) : String.eqb (str_tenths t +:+ "%") "0%" = false.
Proof.
  apply String.eqb_neq. intros E. apply (f_equal String.length) in E.
  rewrite str_length_app in E. pose proof (str_tenths_length t). simpl in E. lia.
Qed.

(** Reading a printed rate back, as [calc_rate_diff] does for each of its
    arguments, gives the rate again. *)
Lemma read_rate_back (r : number) :
  one_decimal r ->
  exists v,
    (if negb (String.eqb (fmt_percent r) "0%") then py_float (rstrip "%" (fmt_percent r))
     else Ok (Int 0)) = Ok v /\ num_eq v r.
Proof.
  intros [|t].
  - by exists (Int 0).
  - rewrite fmt_percent_tenths, str_tenths_percent_not_zero. simpl negb. cbv iota.
    rewrite rstrip_last by apply str_tenths_no_percent.
    destruct (py_float_str_tenths t) as (q & -> & E). by exists (Dec q).
Qed.

Lemma calc_rate_diff_rates (r1 r2 : number) :
  one_decimal r1 -> one_decimal r2 ->
  calc_rate_diff (fmt_percent r1) (fmt_percent r2) =
    Ok (fmt_percent (py_round (num_sub r2 r1) 1)).
Proof.
  intros H1 H2. unfold calc_rate_diff.
  destruct (read_rate_back r1 H1) as (v1 & -> & E1).
  destruct (read_rate_back r2 H2) as (v2 & -> & E2).
  simpl. by rewrite (py_round_eq _ _ 1 (num_sub_eq _ _ _ _ E2 E1)).
Qed.


(** A numerator that is [None] is not a number: with a positive
    denominator the division raises. *)
Example none_numerator_raises : calc_rate None (Some (Int 5)) = Raise TypeError.
Proof. done. Qed.

(** ** The comparison of two periods *)

(** The figures of a period are always computed, and its five rates are
    the printed rates of its own counts. *)
Lemma period_of_rates (w : option agg_row) :
  exists m, period_of w = Ok m
    /\ w_exposure_rate m = fmt_percent (spec_rate (field w a_visit_users) (field w a_exposure_users))
    /\ w_order_rate m = fmt_percent (spec_rate (field w a_order_users) (field w a_visit_users))
    /\ w_promo_rate m = fmt_percent (spec_rate (field w a_promotion_orders) (field w a_promotion_clicks))
    /\ w_collect_rate m = fmt_percent (spec_rate (field w a_new_collect) (field w a_visit_users))
    /\ w_review_rate m = fmt_percent (spec_rate (field w a_new_good_reviews) (field w a_verify_users)).
Proof.
  unfold period_of. rewrite !calc_rate_numbers, !calc_avg_price_numbers. simpl.
  eexists. split; [reflexivity|]. simpl. by repeat split.
Qed.

Lemma period_of_printed (w : option agg_row) (m : period_metrics) :
  period_of w = Ok m ->
  printed_rate (w_exposure_rate m) /\ printed_rate (w_order_rate m)
  /\ printed_rate (w_promo_rate m) /\ printed_rate (w_collect_rate m)
  /\ printed_rate (w_review_rate m).
Proof.
  destruct (period_of_rates w) as (m' & -> & E1 & E2 & E3 & E4 & E5). intros [= <-].
  rewrite E1, E2, E3, E4, E5.
  repeat split; eexists; (split; [apply spec_rate_one_decimal | reflexivity]).
Qed.


Lemma calc_rate_diff_printed (s1 s2 : string) :
  printed_rate s1 -> printed_rate s2 -> exists s, calc_rate_diff s1 s2 = Ok s.
Proof.
  intros (r1 & H1 & ->) (r2 & H2 & ->). rewrite calc_rate_diff_rates by done. by eexists.
Qed.

(** Computes the rate delta of two printed rates in the goal. *)
Ltac delta_of_printed A B := destruct (calc_rate_diff_printed _ _ A B) as [? ->].

(** The differences of two periods with printed rates are always
    computed. *)
Lemma diff_of_printed (m1 m2 : period_metrics) :
  printed_rate (w_exposure_rate m1) /\ printed_rate (w_order_rate m1)
  /\ printed_rate (w_promo_rate m1) /\ printed_rate (w_collect_rate m1)
  /\ printed_rate (w_review_rate m1) ->
  printed_rate (w_exposure_rate m2) /\ printed_rate (w_order_rate m2)
  /\ printed_rate (w_promo_rate m2) /\ printed_rate (w_collect_rate m2)
  /\ printed_rate (w_review_rate m2) ->
  exists d, diff_of m1 m2 = Ok d.
Proof.
  intros (A1 & A2 & A3 & A4 & A5) (B1 & B2 & B3 & B4 & B5). unfold diff_of.
  delta_of_printed A1 B1. delta_of_printed A2 B2. delta_of_printed A3 B3.
  delta_of_printed A4 B4. delta_of_printed A5 B5.
  simpl. by eexists.
Qed.

(** C1.  For every pair of aggregated records of a store (period A,
    period B) and every ratio field, the rate delta that the comparative
    report shows is [round(rate(B) - rate(A), 1)], where the rate of each
    period is computed from that period's own counts as
    [round(numerator / denominator * 100, 1)] when the denominator is
    positive and [0] otherwise. *)
Theorem rate_delta_of_independent_rates (a b : option agg_row) :
  exists m1 m2 d,
    period_of a = Ok m1 /\ period_of b = Ok m2 /\ diff_of m1 m2 = Ok d
    /\ diff_exposure_rate d =
         fmt_percent (py_round (num_sub
           (spec_rate (field b a_visit_users) (field b a_exposure_users))
           (spec_rate (field a a_visit_users) (field a a_exposure_users))) 1)
    /\ diff_order_rate d =
         fmt_percent (py_round (num_sub
           (spec_rate (field b a_order_users) (field b a_visit_users))
           (spec_rate (field a a_order_users) (field a a_visit_users))) 1)
    /\ diff_promo_rate d =
         fmt_percent (py_round (num_sub
           (spec_rate (field b a_promotion_orders) (field b a_promotion_clicks))
           (spec_rate (field a a_promotion_orders) (field a a_promotion_clicks))) 1)
    /\ diff_collect_rate d =
         fmt_percent (py_round (num_sub
           (spec_rate (field b a_new_collect) (field b a_visit_users))
           (spec_rate (field a a_new_collect) (field a a_visit_users))) 1)
    /\ diff_review_rate d =
         fmt_percent (py_round (num_sub
           (spec_rate (field b a_new_good_reviews) (field b a_verify_users))
           (spec_rate (field a a_new_good_reviews) (field a a_verify_users))) 1).
Proof.
  destruct (period_of_rates a) as (m1 & Hm1 & A1 & A2 & A3 & A4 & A5).
  destruct (period_of_rates b) as (m2 & Hm2 & B1 & B2 & B3 & B4 & B5).
  exists m1, m2. unfold diff_of.
  rewrite A1, A2, A3, A4, A5, B1, B2, B3, B4, B5.
  rewrite !calc_rate_diff_rates by apply spec_rate_one_decimal.
  simpl. eexists. by repeat split.
Qed.

(** The delta of the rates is not the rate of the deltas: with 10 orders
    on 100 visits in period A and 30 on 150 in period B the report shows
    [20.0 - 10.0], where the raw differences would give [20 / 50]. *)
Example rate_delta_is_not_rate_of_deltas :
  calc_rate_diff (fmt_percent (spec_rate (Dec 10) (Dec 100)))
                 (fmt_percent (spec_rate (Dec 30) (Dec 150))) = Ok "10.0%"
  /\ fmt_percent (spec_rate (num_sub (Dec 30) (Dec 10)) (num_sub (Dec 150) (Dec 100))) = "40.0%".
Proof. by vm_compute. Qed.

(** Scenario C: no orders and no visits in period A, 10 orders on 50
    visits in period B: the rates are 0 and 20.0, the delta 20.0. *)
Example scenario_C :
  calc_rate (Some (Int 0)) (Some (Int 0)) = Ok (Int 0)
  /\ fmt_percent <$> calc_rate (Some (Dec 10)) (Some (Dec 50)) = Ok "20.0%"
  /\ calc_rate_diff "0%" "20.0%" = Ok "20.0%".
Proof. by vm_compute. Qed.

(** ** Stores missing from one period *)






(** ** Empty result sets *)




Lemma dom_by_shop_id (rows : list agg_row) :
  dom (by_shop_id rows) = list_to_set (a_shop_id <$> rows).
Proof.
  unfold by_shop_id.
  assert (G : forall (m : gmap string agg_row),
    dom (foldl (fun m row => <[a_shop_id row := row]> m) m rows)
      = dom m ∪ list_to_set (a_shop_id <$> rows)).
  { induction rows as [|row rest IH]; intros m; simpl.
    - set_solver.
    - rewrite IH, dom_insert_L. set_solver. }
  rewrite G. set_solver.
Qed.


Section Service_facts.
Variable json_loads : string -> result json.
Variable env : environment.
Variable db : database.




Lemma weekly_store_ok shop_mapping week1_data week2_data week1_str week2_str seq_num shop_id :
  exists block,
    weekly_store shop_mapping week1_data week2_data week1_str week2_str seq_num shop_id = Ok block
    /\ length block = 8%nat.
Proof.
  unfold weekly_store.
  destruct (period_of_rates (week1_data !! shop_id)) as (m1 & H1 & _).
  destruct (period_of_rates (week2_data !! shop_id)) as (m2 & H2 & _).
  destruct (diff_of_printed m1 m2 (period_of_printed _ _ H1) (period_of_printed _ _ H2))
    as [d Hd].
  cbv zeta. rewrite H1. simpl. rewrite H2. simpl. rewrite Hd. simpl.
  by eexists.
Qed.

(** The block of a store in the report holds the figures of its two
    periods and their differences: rows 2 and 3 and rows 6 and 7 show the
    periods, rows 4 and 8 the deltas. *)
Lemma weekly_store_cells shop_mapping week1_data week2_data week1_str week2_str seq_num
    shop_id block :
  weekly_store shop_mapping week1_data week2_data week1_str week2_str seq_num shop_id
    = Ok block ->
  exists m1 m2 d,
    period_of (week1_data !! shop_id) = Ok m1
    /\ period_of (week2_data !! shop_id) = Ok m2
    /\ diff_of m1 m2 = Ok d
    /\ drop 6 <$> block !! 1%nat = Some (period_cells m1)
    /\ block !! 2%nat = Some (five_blank ++ [CStr week2_str] ++ period_cells m2)
    /\ block !! 3%nat = Some (five_blank ++ [CStr "差值"] ++ diff_cells d)
    /\ block !! 5%nat = Some (five_blank ++ [CStr week1_str] ++ promo_cells m1)
    /\ block !! 6%nat = Some (five_blank ++ [CStr week2_str] ++ promo_cells m2)
    /\ block !! 7%nat = Some (five_blank ++ [CStr "差值"] ++ diff_promo_cells d).
Proof.
  unfold weekly_store. cbv zeta.
  destruct (period_of (week1_data !! shop_id)) as [m1|]; simpl; [|done].
  destruct (period_of (week2_data !! shop_id)) as [m2|]; simpl; [|done].
  destruct (diff_of m1 m2) as [d|] eqn:Hd; simpl; [|done].
  intros [= <-]. exists m1, m2, d. repeat split; done.
Qed.

Lemma weekly_loop_ok shop_mapping week1_data week2_data week1_str week2_str shop_ids :
  forall seq_num,
  exists summary,
    weekly_loop shop_mapping week1_data week2_data week1_str week2_str seq_num shop_ids
      = Ok summary
    /\ length summary = (8 * length shop_ids)%nat.
Proof.
  induction shop_ids as [|shop_id rest IH]; intros seq_num; [by eexists|].
  simpl.
  destruct (weekly_store_ok shop_mapping week1_data week2_data week1_str week2_str
              seq_num shop_id) as (block & -> & Hb).
  simpl. destruct (IH (seq_num + 1)%Z) as (more & -> & Hm).
  simpl. eexists. split; [done|]. rewrite length_app. lia.
Qed.


End Service_facts.

(** ** The report kinds *)

(** C9.  The monthly and the custom report are the weekly report on the
    ranges and accounts they are called with, whatever the tables hold;
    the custom report does not look at its store list. *)
Theorem monthly_and_custom_are_the_weekly_pipeline
    (json_loads : string -> result json) (env : environment) (db : database)
    (period1_start period1_end period2_start period2_end : string)
    (shop_ids accounts : option (list string)) :
  generate_monthly_report json_loads env db
      period1_start period1_end period2_start period2_end accounts
    = generate_weekly_report json_loads env db
        period1_start period1_end period2_start period2_end accounts
  /\ generate_custom_report json_loads env db
      period1_start period1_end period2_start period2_end shop_ids accounts
    = generate_weekly_report json_loads env db
        period1_start period1_end period2_start period2_end accounts.
Proof. done. Qed.


(** ** Store filters *)

Section Malformed_blob.
Variable json_loads : string -> result json.
Variable env : environment.
Hypothesis malformed : json_loads "{not json" = Raise JSONDecodeError.

Lemma malformed_blob_lists_no_store :
  account_shop_ids json_loads (Some (BText "{not json")) = [].
Proof. unfold account_shop_ids, decode. simpl. by rewrite malformed. Qed.

Lemma scenario_D_filter : daily_shop_ids_filter json_loads db_D (Some ["acctX"]) = Some [].
Proof.
  unfold daily_shop_ids_filter.
  change (list_truthy (Some ["acctX"])) with true. cbv iota.
  set (l := List.filter _ _). vm_compute in l. subst l.
  cbn [flat_map pa_stores_json]. by rewrite malformed_blob_lists_no_store.
Qed.

Lemma scenario_D_shop_mapping : get_shop_info_mapping json_loads db_D (Some ["acctX"]) = ∅.
Proof.
  unfold get_shop_info_mapping.
  set (l := left_join _ _ _). vm_compute in l. subst l.
  cbn [foldl pa_stores_json]. by rewrite malformed_blob_lists_no_store.
Qed.

Lemma scenario_D_region_mapping : get_region_info_mapping json_loads db_D (Some ["acctX"]) = ∅.
Proof.
  unfold get_region_info_mapping.
  set (l := List.filter _ _). vm_compute in l. by subst l.
Qed.

(** C2, on the code.  Scenario D: the stores blob of the only account of
    a daily request is not JSON.  The resolution raises nothing and finds
    no store, but the empty filter is then treated as no filter: the query
    is the one of a request without accounts, and the report is produced
    with the sheet of a store that the account does not own, where the
    specification has the no-data error. *)
Theorem scenario_D_reports_every_store :
  daily_shop_ids_filter json_loads db_D (Some ["acctX"]) = Some []
  /\ daily_rows db_D "2025-12-18" (Some []) = daily_rows db_D "2025-12-18" None
  /\ sheet_titles (generate_daily_report json_loads env db_D "2025-12-18" (Some ["acctX"]))
     = Ok ["汇总"; "Central"].
Proof.
  split; [apply scenario_D_filter|]. split; [done|].
  unfold generate_daily_report.
  rewrite scenario_D_filter, scenario_D_shop_mapping, scenario_D_region_mapping.
  by vm_compute.
Qed.

End Malformed_blob.

Lemma scenario_D_reports_every_store_witness :
  loads_empty_documents "{not json" = Raise JSONDecodeError
  /\ sheet_titles (generate_daily_report loads_empty_documents env0 db_D "2025-12-18"
                    (Some ["acctX"]))
     = Ok ["汇总"; "Central"].
Proof.
  split; [reflexivity|].
  apply (scenario_D_reports_every_store loads_empty_documents env0). reflexivity.
Defined.

(** The empty filter and the absent filter give the same query on every
    database. *)
Lemma empty_filter_is_no_filter (db : database) (report_date : string) :
  daily_rows db report_date (Some []) = daily_rows db report_date None.
Proof. done. Qed.

(** C3, on the code.  A custom report asked for store 1001 only, on
    tables where stores 1001 and 1002 have rows in both periods: the
    store list is dropped, and the report has the block of store 1002. *)
Theorem custom_report_ignores_store_list
    (json_loads : string -> result json) (env : environment) :
  let r := generate_custom_report json_loads env db_two_stores
             "2025-12-01" "2025-12-07" "2025-12-08" "2025-12-14" (Some ["1001"]) None in
  r = generate_custom_report json_loads env db_two_stores
        "2025-12-01" "2025-12-07" "2025-12-08" "2025-12-14" None None
  /\ cell_at r 0 1 4 = Some (CStr "Central")
  /\ cell_at r 0 9 4 = Some (CStr "Harbour").
Proof. split; [done|]. by vm_compute. Qed.

(** The accounts of a two-period request do not restrict the stores
    either: the rows of both periods come from [sql_week], which has no
    condition on the store. *)
Lemma weekly_rows_independent_of_accounts
    (json_loads : string -> result json) (env : environment) (db : database)
    (week1_start week1_end week2_start week2_end : string) (accounts : option (list string)) :
  is_ok (generate_weekly_report json_loads env db
           week1_start week1_end week2_start week2_end accounts)
  = is_ok (generate_weekly_report json_loads env db
             week1_start week1_end week2_start week2_end None).
Proof.
  unfold generate_weekly_report.
  destruct (bool_decide _); [done|].
  destruct (strptime week1_start) as [s1|]; [|done]. simpl.
  destruct (strptime week1_end) as [e1|]; [|done]. simpl.
  destruct (strptime week2_start) as [s2|]; [|done]. simpl.
  destruct (strptime week2_end) as [e2|]; [|done]. simpl.
  set (week1_data := by_shop_id (sql_week db week1_start week1_end)).
  set (week2_data := by_shop_id (sql_week db week2_start week2_end)).
  set (week1_str := strftime_dotted s1 +:+ "-" +:+ strftime_dotted e1).
  set (week2_str := strftime_dotted s2 +:+ "-" +:+ strftime_dotted e2).
  set (shop_ids := merge_sort String.le (elements (dom week1_data ∪ dom week2_data))).
  destruct (weekly_loop_ok (get_shop_info_mapping json_loads db accounts)
              week1_data week2_data week1_str week2_str shop_ids 1%Z) as (rows1 & -> & _).
  destruct (weekly_loop_ok (get_shop_info_mapping json_loads db None)
              week1_data week2_data week1_str week2_str shop_ids 1%Z) as (rows2 & -> & _).
  done.
Qed.

(** Scenario B: 20 ordering users in period A, no row in period B: the
    report shows 20, then 0, then the delta -20. *)
Example scenario_B (json_loads : string -> result json) (env : environment) :
  let r := generate_weekly_report json_loads env db_B
             "2025-12-01" "2025-12-07" "2025-12-08" "2025-12-14" None in
  cell_at r 0 1 10 = Some (CNum (Dec 20))
  /\ cell_at r 0 2 10 = Some (CNum (Int 0))
  /\ cell_at r 0 3 10 = Some (CNum (Dec (-20))).
Proof. by vm_compute. Qed.


(** ** Sheet names *)













(** The hundredth store of the same long name gets a name of 32
    characters: 28 of the name, the underscore and three digits. *)
Example hundredth_sheet_name_is_too_long :
  let names := assign_all ∅ (replicate 100 "Riverside Shopping Centre Branch") in
  last names = Some "Riverside Shopping Centre Br_100"
  /\ String.length <$> last names = Some 32%nat.
Proof. by vm_compute. Qed.

(** ** Ranks *)

Lemma Qcompare_inject_Z (a b : Z) : (inject_Z a ?= inject_Z b)%Q = (a ?= b)%Z.
Proof. unfold Qcompare. simpl. by rewrite !Z.mul_1_r. Qed.

Lemma Qeq_bool_inject_Z (a b : Z) : Qeq_bool (inject_Z a) (inject_Z b) = (a =? b)%Z.
Proof. unfold Qeq_bool. simpl. by rewrite !Z.mul_1_r. Qed.

(** The summary row shows a rank from 1 to 99 with its number, a rank of
    100 or more as more than 100, and no rank as a dash. *)
Lemma rank_str_cases :
  rank_str None = "--"
  /\ (forall n : Z, (0 < n < 100)%Z -> rank_str (Some (Int n)) = "第" +:+ str_int n +:+ "名")
  /\ (forall n : Z, (100 <= n)%Z -> rank_str (Some (Int n)) = "大于100名").
Proof.
  split; [done|]. split; intros n Hn; unfold rank_str, rank_below_100, rank_from_100,
    num_truthy, num_ltb, num_gtb, num_geb; cbn [toQ]; change 0%Q with (inject_Z 0);
    rewrite Qeq_bool_inject_Z, !Qcompare_inject_Z.
  - destruct (Z.eqb_spec n 0); [lia|].
    destruct (Z.compare_spec 100 n); try lia. done.
  - destruct (Z.eqb_spec n 0); [lia|].
    destruct (Z.compare_spec 100 n); destruct (Z.compare_spec n 100); try lia; done.
Qed.

(** The detail sheet has no dash: without a rank it shows more than 100. *)
Lemma rank_display_absent (region_display : string) :
  rank_display region_display None = region_display +:+ "：大于100名".
Proof. done. Qed.

(** C7, on the code.  A store without a [store_stats] row has no rank:
    its summary row shows the dash in both rank columns, but its detail
    sheet shows the text for a rank above 100 in both rank rows.  A store
    with ranks 5 and 150 shows them alike in both places. *)
Theorem absent_rank_on_detail_sheet
    (json_loads : string -> result json) (env : environment) :
  let r := generate_daily_report json_loads env db_ranks "2025-12-18" None in
  (cell_at r 0 1 21 = Some (CStr "第5名") /\ cell_at r 0 1 22 = Some (CStr "大于100名")
   /\ cell_at r 1 31 1 = Some (CStr "：第5名") /\ cell_at r 1 32 1 = Some (CStr "：大于100名"))
  /\ (cell_at r 0 3 21 = Some (CStr "--") /\ cell_at r 0 3 22 = Some (CStr "--")
      /\ cell_at r 3 31 1 = Some (CStr "：大于100名")
      /\ cell_at r 3 32 1 = Some (CStr "：大于100名")).
Proof. by vm_compute. Qed.

(** A rank of 0 counts as no rank in both places. *)
Example rank_zero_is_no_rank (json_loads : string -> result json) (env : environment) :
  let r := generate_daily_report json_loads env db_ranks "2025-12-18" None in
  cell_at r 0 2 21 = Some (CStr "--") /\ cell_at r 2 31 1 = Some (CStr "：大于100名").
Proof. by vm_compute. Qed.

(** ** The admission gate *)

Section Gate_facts.
Import TaskQueue.
Context {A : Type}.
Variable max_workers : Z.
Variable jobs : list (result A).
Hypothesis budget : (0 < max_workers)%Z.

#[local] Abbreviation fire := (fire max_workers jobs).
#[local] Abbreviation run := (run max_workers jobs).
#[local] Abbreviation submitted := (submitted (A := A) jobs).
#[local] Abbreviation phase := (phase (A := A)).
#[local] Abbreviation state := (state (A := A)).

Lemma filter_length_insert (f : phase -> bool) (l : list phase) (i : nat) (p q : phase) :
  l !! i = Some p ->
  Z.of_nat (length (List.filter f (<[i := q]> l)))
  = (Z.of_nat (length (List.filter f l)) - (if f p then 1 else 0) + (if f q then 1 else 0))%Z.
Proof.
  revert i. induction l as [|x l IH]; intros [|i] H; simplify_eq/=.
  - destruct (f p), (f q); simpl; lia.
  - specialize (IH i H). destruct (f x); simpl; lia.
Qed.

Lemma remaining_insert (l : list phase) (i : nat) (p q : phase) (sem sem' : option Z) :
  l !! i = Some p ->
  remaining {| _semaphore := sem'; callers := <[i := q]> l |}
  = (remaining {| _semaphore := sem; callers := l |} - steps_left p + steps_left q)%Z.
Proof.
  unfold remaining. simpl. revert i. induction l as [|x l IH]; intros [|i] H; simplify_eq/=.
  - lia.
  - specialize (IH i H). lia.
Qed.

Lemma remaining_nonneg (s : state) : (0 <= remaining s)%Z.
Proof.
  unfold remaining. induction (callers s) as [|p l IH]; simpl; [lia|].
  destruct p; simpl; lia.
Qed.

Lemma submitted_invariant : gate_invariant max_workers jobs submitted.
Proof.
  unfold gate_invariant, submitted, get_semaphore, executing. simpl.
  rewrite length_replicate. repeat split; try lia.
  - induction (length jobs) as [|n IH]; simpl; lia.
  - intros i r [E _]%lookup_replicate. done.
Qed.

Lemma remaining_submitted : remaining submitted = (2 * Z.of_nat (length jobs))%Z.
Proof.
  unfold remaining, submitted. simpl. induction (length jobs) as [|n IH]; [done|].
  rewrite Nat2Z.inj_succ. simpl replicate. cbn [foldr steps_left]. lia.
Qed.

(** An event keeps the invariant and takes one of the remaining steps. *)
Lemma fire_invariant (e : event) (s s' : state) :
  gate_invariant max_workers jobs s -> fire e s = Some s' ->
  gate_invariant max_workers jobs s' /\ remaining s' = (remaining s - 1)%Z.
Proof.
  intros (Hpos & Hsum & Hlen & Hret) Hfire. destruct s as [sem l].
  destruct e as [i|i]; simpl in Hfire.
  - destruct (l !! i) as [[| |r]|] eqn:Hi; try done.
    destruct (0 <? get_semaphore max_workers _)%Z eqn:Hv; [|done].
    apply Z.ltb_lt in Hv. injection Hfire as <-. split.
    + unfold gate_invariant, get_semaphore, executing in *. simpl in *.
      rewrite (filter_length_insert is_executing l i Waiting Executing Hi), length_insert.
      simpl. repeat split; try lia.
      intros j r Hj. destruct (decide (i = j)) as [->|Hne].
      * rewrite list_lookup_insert_eq in Hj by (by apply lookup_lt_Some in Hi). done.
      * rewrite list_lookup_insert_ne in Hj by done. by apply Hret.
    + rewrite (remaining_insert l i Waiting Executing sem _ Hi). simpl. lia.
  - destruct (l !! i) as [[| |r]|] eqn:Hi; try done.
    destruct (jobs !! i) as [r|] eqn:Hr; [|done].
    injection Hfire as <-. split.
    + unfold gate_invariant, get_semaphore, executing in *. simpl in *.
      rewrite (filter_length_insert is_executing l i Executing (Returned r) Hi), length_insert.
      simpl. repeat split; try lia.
      intros j r' Hj. destruct (decide (i = j)) as [->|Hne].
      * rewrite list_lookup_insert_eq in Hj by (by apply lookup_lt_Some in Hi). congruence.
      * rewrite list_lookup_insert_ne in Hj by done. by apply Hret.
    + rewrite (remaining_insert l i Executing (Returned r) sem _ Hi). simpl. lia.
Qed.

Lemma run_invariant (events : list event) :
  forall s s', gate_invariant max_workers jobs s -> run events s = Some s' ->
    gate_invariant max_workers jobs s'
    /\ (remaining s' + Z.of_nat (length events) = remaining s)%Z.
Proof.
  induction events as [|e rest IH]; intros s s' Hinv Hrun; simpl in Hrun.
  - injection Hrun as <-. split; [done|]. simpl. lia.
  - destruct (fire e s) as [s1|] eqn:Hfire; [|done]. simpl in Hrun.
    destruct (fire_invariant e s s1 Hinv Hfire) as [Hinv1 Hrem1].
    destruct (IH s1 s' Hinv1 Hrun) as [Hinv' Hrem']. split; [done|].
    rewrite length_cons, Nat2Z.inj_succ. lia.
Qed.

(** In a reached state either some event can happen or every caller has
    returned with the outcome of its own job. *)
Lemma gate_progress (s : state) :
  gate_invariant max_workers jobs s ->
  (exists e s', fire e s = Some s') \/ callers s = Returned <$> jobs.
Proof.
  intros (Hpos & Hsum & Hlen & Hret). destruct s as [sem l]. simpl in *.
  destruct (decide (Exists (fun p => is_executing p = true) l)) as [Hex|Hnex].
  { left. apply Exists_exists in Hex as (p & Hp & Hexec).
    apply list_elem_of_lookup in Hp as [i Hi]. destruct p; try done.
    destruct (jobs !! i) as [r|] eqn:Hr.
    - exists (Finish i). eexists. simpl. by rewrite Hi, Hr.
    - apply lookup_ge_None in Hr. apply lookup_lt_Some in Hi. lia. }
  assert (Hnone : executing {| _semaphore := sem; callers := l |} = 0%Z).
  { unfold executing. simpl. apply not_Exists_Forall in Hnex; [|intros ?; apply _].
    clear -Hnex. induction Hnex as [|p l Hp _ IH]; [done|]. simpl in *.
    by destruct (is_executing p). }
  destruct (decide (Exists (fun p => is_waiting p = true) l)) as [Hw|Hnw].
  { left. apply Exists_exists in Hw as (p & Hp & Hwait).
    apply list_elem_of_lookup in Hp as [i Hi]. destruct p; try done.
    exists (Admit i). eexists. simpl. rewrite Hi.
    assert ((0 <? get_semaphore max_workers {| _semaphore := sem; callers := l |})%Z = true)
      as -> by (apply Z.ltb_lt; lia).
    done. }
  right. apply not_Exists_Forall in Hnex; [|intros ?; apply _].
  apply not_Exists_Forall in Hnw; [|intros ?; apply _].
  apply list_eq. intros i. rewrite list_lookup_fmap.
  destruct (l !! i) as [p|] eqn:Hi.
  - pose proof (proj1 (Forall_lookup _ _) Hnex i p Hi) as E1.
    pose proof (proj1 (Forall_lookup _ _) Hnw i p Hi) as E2.
    destruct p as [| |r]; simpl in *; try done. by rewrite (Hret i r Hi).
  - apply lookup_ge_None in Hi. rewrite (proj2 (lookup_ge_None _ _)); [done|lia].
Qed.

Lemma replicate_shift {B} (n : nat) (x : B) (l : list B) :
  replicate n x ++ x :: l = x :: replicate n x ++ l.
Proof. induction n as [|n IH]; simpl; [done|]. by rewrite IH. Qed.

(** Admitting the first [m] callers one after the other. *)
Lemma admit_first (m : nat) :
  (0 < m)%nat -> (Z.of_nat m <= max_workers)%Z -> (m <= length jobs)%nat ->
  run (Admit <$> seq 0 m) submitted
  = Some {| _semaphore := Some (max_workers - Z.of_nat m)%Z;
            callers := replicate m Executing ++ replicate (length jobs - m) Waiting |}.
Proof.
  assert (G : forall (m k : nat) (sem : option Z),
    (Z.of_nat m <= default max_workers sem)%Z -> (0 < m)%nat ->
    forall rest : nat,
    run (Admit <$> seq k m)
      {| _semaphore := sem;
         callers := replicate k Executing ++ replicate (m + rest) Waiting |}
    = Some {| _semaphore := Some (default max_workers sem - Z.of_nat m)%Z;
              callers := replicate (k + m) Executing ++ replicate rest Waiting |}).
  { clear. intros m. induction m as [|m IH]; intros k sem Hv Hm rest; [lia|].
    simpl seq. simpl fmap. cbn [TaskQueue.run TaskQueue.fire callers].
    rewrite lookup_app_r by (rewrite length_replicate; lia).
    rewrite length_replicate, Nat.sub_diag. simpl replicate. cbn [lookup list_lookup].
    unfold get_semaphore. cbn [_semaphore].
    assert ((0 <? default max_workers sem)%Z = true) as -> by (apply Z.ltb_lt; lia).
    simpl mbind. cbn [option_bind].
    assert (Hins : <[k := Executing]>
                     (replicate k (Executing : phase) ++ Waiting :: replicate (m + rest) Waiting)
                   = replicate (S k) Executing ++ replicate (m + rest) Waiting).
    { rewrite insert_app_r_alt by (rewrite length_replicate; lia).
      rewrite length_replicate, Nat.sub_diag. simpl. apply replicate_shift. }
    rewrite Hins. replace (k + S m)%nat with (S k + m)%nat by lia. destruct m as [|m'].
    - by rewrite Nat.add_0_r.
    - rewrite (IH (S k) (Some (default max_workers sem - 1)%Z)) by (simpl; lia).
      do 3 f_equal. simpl default. lia. }
  intros Hm Hb Hl. unfold submitted, TaskQueue.submitted.
  replace (length jobs) with (m + (length jobs - m))%nat at 1 by lia.
  apply (G m 0%nat None); simpl; lia.
Qed.

Lemma executing_after_admitting (m r : nat) (sem : option Z) :
  executing {| _semaphore := sem;
               callers := replicate m (Executing : phase) ++ replicate r Waiting |}
  = Z.of_nat m
  /\ waiting {| _semaphore := sem;
                callers := replicate m (Executing : phase) ++ replicate r Waiting |}
    = Z.of_nat r.
Proof.
  unfold executing, waiting. simpl. rewrite !List.filter_app, !length_app.
  assert (E : forall (f : phase -> bool) (p : phase) (n : nat),
             length (List.filter f (replicate n p)) = if f p then n else 0%nat).
  { intros f p n. induction n as [|n IH]; simpl; [by destruct (f p)|].
    destruct (f p); simpl; lia. }
  rewrite !E. simpl. split; lia.
Qed.

(** From every reached state some schedule lets every caller return. *)
Lemma gate_completes (s : state) :
  gate_invariant max_workers jobs s ->
  exists events s', run events s = Some s' /\ callers s' = Returned <$> jobs.
Proof.
  remember (Z.to_nat (remaining s)) as n eqn:Hn. revert s Hn.
  induction n as [|n IH]; intros s Hn Hinv.
  - destruct (gate_progress s Hinv) as [(e & s1 & Hfire)|Hdone].
    + destruct (fire_invariant e s s1 Hinv Hfire) as [_ Hrem].
      pose proof (remaining_nonneg s1). lia.
    + by exists [], s.
  - destruct (gate_progress s Hinv) as [(e & s1 & Hfire)|Hdone].
    + destruct (fire_invariant e s s1 Hinv Hfire) as [Hinv1 Hrem].
      destruct (IH s1) as (events & s' & Hrun & Hdone); [lia|done|].
      exists (e :: events), s'. simpl. by rewrite Hfire.
    + by exists [], s.
Qed.

End Gate_facts.

(** C8.  With a positive worker budget and [budget + k] jobs submitted
    through the gate, [k > 0]: in every state that any interleaving of
    admissions and completions reaches, at most [budget] jobs execute;
    when [budget] jobs execute, the other [k] wait and none of them is
    admitted; every interleaving has at most two events per job, and a
    state in which not every caller has returned with the outcome of its
    own job always allows a further event, so that all jobs complete. *)
Theorem gate_bounds_execution_and_completes {A : Type}
    (max_workers : Z) (k : nat) (jobs : list (result A)) :
  (0 < max_workers)%Z -> (0 < k)%nat ->
  length jobs = (Z.to_nat max_workers + k)%nat ->
  (forall events s,
     TaskQueue.run max_workers jobs events (TaskQueue.submitted jobs) = Some s ->
     (TaskQueue.executing s <= max_workers)%Z
     /\ (length events <= 2 * length jobs)%nat
     /\ ((exists e s', TaskQueue.fire max_workers jobs e s = Some s')
         \/ TaskQueue.callers s = TaskQueue.Returned <$> jobs)
     /\ (exists more s',
           TaskQueue.run max_workers jobs more s = Some s'
           /\ TaskQueue.callers s' = TaskQueue.Returned <$> jobs))
  /\ (exists events s,
        TaskQueue.run max_workers jobs events (TaskQueue.submitted jobs) = Some s
        /\ TaskQueue.executing s = max_workers
        /\ TaskQueue.waiting s = Z.of_nat k
        /\ forall i, TaskQueue.fire max_workers jobs (TaskQueue.Admit i) s = None).
Proof.
  intros Hb Hk Hlen. split.
  - intros events s Hrun.
    destruct (run_invariant max_workers jobs events _ s
                (submitted_invariant max_workers jobs Hb) Hrun) as [Hinv Hrem].
    rewrite remaining_submitted in Hrem. pose proof (remaining_nonneg s) as Hnn.
    destruct Hinv as (Hpos & Hsum & Hinv).
    repeat split.
    + lia.
    + lia.
    + by apply (gate_progress max_workers jobs Hb).
    + by apply (gate_completes max_workers jobs Hb).
  - exists (TaskQueue.Admit <$> seq 0 (Z.to_nat max_workers)). eexists. split.
    + apply admit_first; lia.
    + destruct (executing_after_admitting (A := A) (Z.to_nat max_workers)
                  (length jobs - Z.to_nat max_workers)
                  (Some (max_workers - Z.of_nat (Z.to_nat max_workers))%Z)) as [-> ->].
      split; [lia|]. split; [lia|].
      intros i. simpl. destruct (_ !! i) as [[| |r]|]; try done.
      unfold TaskQueue.get_semaphore. simpl.
      by replace (max_workers - Z.of_nat (Z.to_nat max_workers))%Z with 0%Z by lia.
Qed.

Lemma gate_bounds_execution_and_completes_witness :
  (0 < TaskQueue.MAX_WORKERS)%Z /\ (0 < 1)%nat
  /\ exists events s,
      TaskQueue.run TaskQueue.MAX_WORKERS six_jobs events (TaskQueue.submitted six_jobs) = Some s
      /\ TaskQueue.executing s = TaskQueue.MAX_WORKERS
      /\ TaskQueue.waiting s = 1%Z
      /\ forall i, TaskQueue.fire TaskQueue.MAX_WORKERS six_jobs (TaskQueue.Admit i) s = None.
Proof.
  split; [reflexivity|]. split; [lia|].
  apply (gate_bounds_execution_and_completes TaskQueue.MAX_WORKERS 1 six_jobs);
    [reflexivity | lia | reflexivity].
Defined.

(** The six jobs under the default budget: the sixth caller is refused
    while five jobs execute, and at the end of the schedule every caller
    holds the outcome of its own job, the failure included. *)
Example six_jobs_run :
  (TaskQueue.run TaskQueue.MAX_WORKERS six_jobs (TaskQueue.Admit <$> seq 0 6)
     (TaskQueue.submitted six_jobs) = None)
  /\ (TaskQueue.callers
       <$> TaskQueue.run TaskQueue.MAX_WORKERS six_jobs six_jobs_schedule
             (TaskQueue.submitted six_jobs))
     = Some (TaskQueue.Returned <$> six_jobs).
Proof. by vm_compute. Qed.

(** * Further properties of the code *)

(** ** The ratio helpers: bounds and rounding error *)







(** ** The difference of two printed rates *)







(** ** Sheet names of the daily report *)


Lemma str_take_all (n : nat) (s : string) : (String.length s <= n)%nat -> str_take n s = s.
Proof.
  unfold str_take. revert s. induction n as [|n IH]; intros [|a s]; simpl; try done; try lia.
  intros H. rewrite IH; [done|lia].
Qed.



Section Sheet_names.
Variable json_loads : string -> result json.
Variable env : environment.
Variable db : database.




End Sheet_names.




(** ** Ranks in the two places of the daily report *)

Lemma num_ltb_geb (x y : number) : num_ltb x y = negb (num_geb x y).
Proof.
  unfold num_ltb, num_gtb, num_geb. rewrite <- (Qcompare_antisym (toQ x) (toQ y)).
  by destruct (toQ x ?= toQ y)%Q.
Qed.

(** X8.  The summary row and the detail sheet show the same text for
    every rank that is not zero, as an integer or as a decimal: the detail
    sheet puts the region and a colon before it.  For no rank and for the
    rank 0, and only for them, the summary shows the dash and the detail
    sheet the text for a rank above 100. *)
Theorem rank_texts_agree_unless_absent (region_display : string) (rank : option number) :
  if truthy rank
  then rank_display region_display rank = region_display +:+ "：" +:+ rank_str rank
       /\ rank_str rank <> "--"
  else rank_str rank = "--"
       /\ rank_display region_display rank = region_display +:+ "：大于100名".
Proof.
  destruct rank as [r|]; [|done]. unfold rank_str, rank_display, rank_below_100, rank_from_100.
  cbn [truthy default]. rewrite num_ltb_geb.
  destruct (num_truthy r); [|done]. cbn [andb negb].
  destruct (num_geb r (Int 100)); cbn [negb]; [done|].
  split; [done|]. intros E. apply (f_equal (fun s => String.get 0 s)) in E. by vm_compute in E.
Qed.

(** ** The resolver of store metadata and the store filter *)

Lemma left_join_fst {A B} (on : A -> B -> bool) (l : list A) (r : list B) (a : A) :
  (exists b, (a, b) ∈ left_join on l r) <-> a ∈ l.
Proof.
  unfold left_join. split.
  - intros [b H]. apply list_elem_of_In, in_flat_map in H as (x & Hx & H).
    apply list_elem_of_In in Hx.
    destruct (List.filter (on x) r) as [|m ms].
    + destruct H as [[= <- _]|[]]. done.
    + apply in_map_iff in H as (y & [= <- _] & _). done.
  - intros H. destruct (List.filter (on a) r) as [|m ms] eqn:F.
    + exists None. apply list_elem_of_In, in_flat_map. exists a.
      split; [by apply list_elem_of_In|]. rewrite F. by left.
    + exists (Some m). apply list_elem_of_In, in_flat_map. exists a.
      split; [by apply list_elem_of_In|]. rewrite F. by left.
Qed.

Lemma dom_foldl_insert {V} (v : V) (ks : list string) (m : gmap string V) :
  dom (foldl (fun m k => <[k := v]> m) m ks) = dom m ∪ list_to_set ks.
Proof.
  revert m. induction ks as [|k ks IH]; intros m; simpl; [set_solver|].
  rewrite IH, dom_insert_L. set_solver.
Qed.

Lemma listed_shop_ids_not_empty (stores : json) : Forall (fun s => s <> "") (listed_shop_ids stores).
Proof.
  destruct stores as [| | | | l | entries]; try by constructor.
  apply Forall_forall. intros s Hs. unfold listed_shop_ids in Hs.
  apply list_elem_of_omap in Hs as (store & _ & Hs).
  destruct store as [| | | | | entries]; try done.
  unfold str_truthy in Hs.
  destruct (String.eqb_spec (json_str (default (JStr "") (dict_get "shop_id" entries))) "")
    as [|Hne]; [done|].
  by injection Hs as <-.
Qed.

Section Resolver_facts.
Variable json_loads : string -> result json.
Variable db : database.

Lemma account_shop_ids_not_empty (stores_json : option blob) :
  Forall (fun s => s <> "") (account_shop_ids json_loads stores_json).
Proof.
  unfold account_shop_ids. destruct stores_json as [b|]; [|constructor].
  destruct (blob_truthy b); [|constructor].
  destruct (decode json_loads b); [apply listed_shop_ids_not_empty|constructor].
Qed.

(** The stores the resolver knows are the ones listed by the selected
    accounts. *)
Lemma dom_get_shop_info_mapping (accounts : option (list string)) (shop_id : string) :
  shop_id ∈ dom (get_shop_info_mapping json_loads db accounts)
  <-> exists pa, pa ∈ platform_accounts db
                 /\ account_selected accounts pa = true
                 /\ shop_id ∈ account_shop_ids json_loads (pa_stores_json pa).
Proof.
  unfold get_shop_info_mapping.
  set (selected := List.filter _ (platform_accounts db)).
  set (account_results := left_join _ selected (saas_users db)).
  assert (G : forall (l : list (account_row * option user_row)) (m : gmap string shop_info),
    shop_id ∈ dom (foldl (fun shop_mapping '(pa, su) =>
        let info := {| operator := str_or (col su_name su) "";
                       sales := str_or (pa_sales_name pa) "";
                       city := str_or (pa_city_name pa) "" |} in
        foldl (fun m shop_id => <[shop_id := info]> m) shop_mapping
          (account_shop_ids json_loads (pa_stores_json pa))) m l)
    <-> shop_id ∈ dom m
        \/ exists p, p ∈ l /\ shop_id ∈ account_shop_ids json_loads (pa_stores_json p.1)).
  { induction l as [|[pa su] l IH]; intros m; simpl.
    - split; [by left|]. intros [H|(p & Hp & _)]; [done|]. by apply elem_of_nil in Hp.
    - rewrite IH, dom_foldl_insert, elem_of_union, elem_of_list_to_set. split.
      + intros [[H|H]|(p & Hp & H)]; [by left| |].
        * right. exists (pa, su). split; [by left|done].
        * right. exists p. split; [by right|done].
      + intros [H|(p & Hp & H)]; [by left; left|].
        apply elem_of_cons in Hp as [->|Hp]; [by left; right|].
        right. by exists p. }
  rewrite G, dom_empty_L. split.
  - intros [H|([pa su] & Hp & H)]; [set_solver|]. exists pa.
    assert (Hs : pa ∈ selected) by (eapply left_join_fst; by exists su).
    apply list_elem_of_In, filter_In in Hs as [Hin Hs]. apply list_elem_of_In in Hin.
    apply andb_true_iff in Hs as [_ Hs]. done.
  - intros (pa & Hin & Hs & H). right.
    assert (Hsel : pa ∈ selected).
    { apply list_elem_of_In, filter_In. split; [by apply list_elem_of_In|].
      rewrite Hs, andb_true_r. apply bool_decide_eq_true.
      destruct (pa_stores_json pa); [done|]. simpl in H. by apply elem_of_nil in H. }
    eapply (left_join_fst (fun pa su => bool_decide (pa_operator_id pa = Some (su_id su))))
      in Hsel as [su Hsu].
    exists (pa, su). split; [exact Hsu|done].
Qed.

(** X9.  The stores for which the resolver holds metadata are exactly the
    stores listed in the stores documents of the accounts it selects: all
    accounts without a list of accounts (or with an empty one), the named
    ones otherwise.  An account whose document is NULL, empty or not
    decodable adds nothing, and the empty identifier is never a key. *)
Theorem resolver_knows_the_listed_stores (accounts : option (list string)) :
  (forall shop_id,
     is_Some (get_shop_info_mapping json_loads db accounts !! shop_id)
     <-> exists pa, pa ∈ platform_accounts db
                    /\ (list_truthy accounts = true -> pa_account pa ∈ default [] accounts)
                    /\ shop_id ∈ account_shop_ids json_loads (pa_stores_json pa))
  /\ get_shop_info_mapping json_loads db accounts !! "" = None.
Proof.
  assert (S : forall pa, account_selected accounts pa = true
              <-> (list_truthy accounts = true -> pa_account pa ∈ default [] accounts)).
  { intros pa. unfold account_selected, sql_in. destruct (list_truthy accounts).
    - rewrite bool_decide_eq_true. split; [by intros H _|by intros H; apply H].
    - split; [by intros _ ?|done]. }
  split.
  - intros shop_id. rewrite <- elem_of_dom, dom_get_shop_info_mapping.
    split; intros (pa & H1 & H2 & H3); exists pa; by rewrite S in *.
  - apply not_elem_of_dom. rewrite dom_get_shop_info_mapping. intros (pa & _ & _ & H).
    pose proof (account_shop_ids_not_empty (pa_stores_json pa)) as N.
    by eapply Forall_forall in N.
Qed.

(** *** The daily query *)

Lemma join_reports_elem (ks : list kewen_row) (r : joined) :
  r ∈ join_reports db ks -> jk r ∈ ks.
Proof.
  unfold join_reports. intros H.
  apply list_elem_of_In, in_flat_map in H as ([k p] & Hkp & H).
  apply in_map_iff in H as ([k' s] & <- & Hs). simpl.
  apply list_elem_of_In in Hs, Hkp.
  assert (k' ∈ [k]) as ->%list_elem_of_singleton by (eapply left_join_fst; by eexists).
  eapply left_join_fst. by eexists.
Qed.

Lemma join_reports_keeps (ks : list kewen_row) (k : kewen_row) :
  k ∈ ks -> exists r, r ∈ join_reports db ks /\ jk r = k.
Proof.
  intros H. unfold join_reports.
  eapply (left_join_fst (fun k p => String.eqb (k_shop_id k) (p_shop_id p)
                                    && String.eqb (k_report_date k) (p_report_date p)))
    in H as [p Hp].
  assert (Hk : k ∈ [k]) by apply list_elem_of_singleton, eq_refl.
  eapply (left_join_fst (fun k s => String.eqb (k_shop_id k) (s_store_id s)
                                    && String.eqb (k_report_date k) (s_date s)))
    in Hk as [s Hs].
  exists {| jk := k; jp := p; js := s |}. split; [|done].
  apply list_elem_of_In, in_flat_map. exists (k, p). split; [by apply list_elem_of_In|].
  apply in_map_iff. exists (k, s). split; [done|]. apply list_elem_of_In, Hs.
Qed.

#[local] Instance key_le_total {A} (key : A -> string) : Total (key_le key).
Proof. intros a b. apply String.le_total. Qed.

#[local] Instance key_le_trans {A} (key : A -> string) : Transitive (key_le key).
Proof. intros a b c. unfold key_le. apply transitivity. Qed.

Lemma daily_rows_elem (report_date : string) (shop_ids_filter : option (list string))
    (r : joined) :
  r ∈ daily_rows db report_date shop_ids_filter ->
  jk r ∈ kewen_daily_report db
  /\ k_report_date (jk r) = report_date
  /\ (list_truthy shop_ids_filter = true -> k_shop_id (jk r) ∈ default [] shop_ids_filter).
Proof.
  unfold daily_rows, order_by. rewrite merge_sort_Permutation.
  intros H%join_reports_elem. apply list_elem_of_In, filter_In in H as [Hin H].
  apply list_elem_of_In in Hin. apply andb_true_iff in H as [Hd Hf].
  apply String.eqb_eq in Hd. split; [done|]. split; [done|]. intros T. rewrite T in Hf.
  by apply bool_decide_eq_true in Hf.
Qed.

(** X10.  The daily query returns rows of the requested date only and,
    under a store filter that is given and not empty, of the listed stores
    only; it drops no such row of [kewen_daily_report], whether or not the
    store has a promotion or statistics row on that date; and its rows
    come in ascending order of the store identifier. *)
Theorem daily_query_rows (report_date : string) (shop_ids_filter : option (list string)) :
  let wanted k :=
    k ∈ kewen_daily_report db /\ k_report_date k = report_date
    /\ (list_truthy shop_ids_filter = true -> k_shop_id k ∈ default [] shop_ids_filter) in
  (forall r, r ∈ daily_rows db report_date shop_ids_filter -> wanted (jk r))
  /\ (forall k, wanted k -> exists r, r ∈ daily_rows db report_date shop_ids_filter /\ jk r = k)
  /\ StronglySorted (fun a b => String.le (k_shop_id (jk a)) (k_shop_id (jk b)))
       (daily_rows db report_date shop_ids_filter).
Proof.
  intros wanted. split; [apply daily_rows_elem|]. split.
  - intros k (Hin & Hd & Hf).
    destruct (join_reports_keeps
      (List.filter (fun k =>
            String.eqb (k_report_date k) report_date
            && (if list_truthy shop_ids_filter
                then sql_in (k_shop_id k) (default [] shop_ids_filter)
                else true))
          (kewen_daily_report db)) k) as (r & Hr & E).
    { apply list_elem_of_In, filter_In. split; [by apply list_elem_of_In|].
      apply andb_true_iff. split; [by apply String.eqb_eq|].
      destruct (list_truthy shop_ids_filter); [|done]. apply bool_decide_eq_true. by apply Hf. }
    exists r. split; [|done]. unfold daily_rows, order_by. by rewrite merge_sort_Permutation.
  - apply (StronglySorted_merge_sort (key_le (fun r => k_shop_id (jk r)))).
Qed.

(** X11.  A daily report for named accounts whose documents list at least
    one store shows only stores for which the resolver holds metadata: the
    store filter and the resolver read the same documents. *)
Theorem filtered_daily_stores_have_metadata
    (report_date : string) (accounts : option (list string)) (r : joined) :
  list_truthy accounts = true ->
  list_truthy (daily_shop_ids_filter json_loads db accounts) = true ->
  r ∈ daily_rows db report_date (daily_shop_ids_filter json_loads db accounts) ->
  is_Some (get_shop_info_mapping json_loads db accounts !! k_shop_id (jk r)).
Proof.
  intros Ha Hf Hr. apply daily_rows_elem in Hr as (_ & _ & Hin). specialize (Hin Hf).
  apply elem_of_dom, dom_get_shop_info_mapping.
  unfold daily_shop_ids_filter in Hin. rewrite Ha in Hin. simpl in Hin.
  apply list_elem_of_In, in_flat_map in Hin as (pa & Hpa & Hin).
  apply filter_In in Hpa as [Hpa Hsel]. exists pa.
  split; [by apply list_elem_of_In|]. split; [|by apply list_elem_of_In].
  unfold account_selected. by rewrite Ha.
Qed.

End Resolver_facts.

Lemma filtered_daily_stores_have_metadata_witness :
  is_Some (get_shop_info_mapping loads_empty_documents db_accounts (Some ["acctA"]) !! "1001").
Proof.
  apply (filtered_daily_stores_have_metadata loads_empty_documents db_accounts
           "2025-12-18" (Some ["acctA"])
           {| jk := kewen "2025-12-18" "1001" "Central" 100 40 10 8; jp := None; js := None |}).
  - reflexivity.
  - by vm_compute.
  - apply (list_elem_of_lookup_2 _ 0). by vm_compute.
Defined.

(** ** The layout of the daily report *)

Section Daily_layout.
Variable json_loads : string -> result json.
Variable env : environment.
Variable db : database.

Lemma daily_store_describes shop_mapping region_mapping report_date wd ds dsh used idx row
    summary_row ws used' :
  daily_store db shop_mapping region_mapping report_date wd ds dsh used idx row
    = Ok (summary_row, ws, used') ->
  describes_store idx row summary_row ws.
Proof.
  unfold daily_store. fold (display_name row).
  destruct (assign_sheet_name used (display_name row)) as [sheet_name used''].
  cbv zeta.
  destruct (ratio_percent (num_or (k_new_review_count (jk row)) (Int 0)) _) as [r1|];
    simpl; [|done].
  destruct (ratio_percent (num_or (k_new_collect_users (jk row)) (Int 0)) _) as [r2|];
    simpl; [|done].
  destruct (get_coupon_orders_last_7days _ _ _) as [n|]; simpl; [|done].
  intros [= <- <- <-]. unfold describes_store. simpl.
  repeat split; try done. repeat constructor.
Qed.

Lemma daily_loop_describes shop_mapping region_mapping report_date wd ds dsh rows :
  forall used idx summary_rows details,
    daily_loop db shop_mapping region_mapping report_date wd ds dsh used idx rows
      = Ok (summary_rows, details) ->
    length summary_rows = length rows /\ length details = length rows
    /\ forall (i : nat) row, rows !! i = Some row ->
         exists summary_row ws,
           summary_rows !! i = Some summary_row /\ details !! i = Some ws
           /\ describes_store (idx + Z.of_nat i) row summary_row ws.
Proof.
  induction rows as [|row rest IH]; intros used idx summary_rows details; simpl.
  - intros [= <- <-]. by repeat split.
  - destruct (daily_store _ _ _ _ _ _ _ used idx row) as [[[summary_row ws] used']|] eqn:Hstore;
      simpl; [|done].
    destruct (daily_loop _ _ _ _ _ _ _ used' _ rest) as [[srows dets]|] eqn:E; simpl; [|done].
    intros [= <- <-]. destruct (IH _ _ _ _ E) as (L1 & L2 & H). simpl.
    split; [by rewrite L1|]. split; [by rewrite L2|].
    intros [|i] r Hr.
    + injection Hr as <-. exists summary_row, ws. rewrite Z.add_0_r.
      by apply daily_store_describes in Hstore.
    + destruct (H i r Hr) as (sr & w & H1 & H2 & H3). exists sr, w.
      split; [done|]. split; [done|].
      by replace (idx + Z.of_nat (S i))%Z with (idx + 1 + Z.of_nat i)%Z by lia.
Qed.


(** *** The qualification marks of the detail sheet *)

Lemma num_geb_spec (x y : number) : num_geb x y = true <-> (toQ y <= toQ x)%Q.
Proof.
  unfold num_geb. rewrite (Qle_alt (toQ y) (toQ x)), <- (Qcompare_antisym (toQ x) (toQ y)).
  destruct (toQ x ?= toQ y)%Q; simpl; split; congruence.
Qed.

Lemma ratio_percent_threshold (numerator denominator : number) (t : Z) :
  (0 < t)%Z ->
  exists r, ratio_percent numerator denominator = Ok r
    /\ (num_geb r (Int t) = true
        <-> (0 < toQ denominator /\ inject_Z t * toQ denominator <= 100 * toQ numerator)%Q).
Proof.
  intros Ht. unfold ratio_percent. destruct (num_gtb denominator (Int 0)) eqn:G.
  - rewrite (num_truediv_positive numerator denominator G). simpl.
    eexists. split; [reflexivity|]. rewrite num_geb_spec. apply num_gtb_zero_spec in G.
    cbn [num_mul toQ]. change (inject_Z 100) with 100%Q.
    assert (Hne : ~ (toQ denominator == 0)%Q)
      by (intros E; rewrite E in G; by apply Qlt_irrefl in G).
    assert (E : (toQ numerator / toQ denominator * 100
                 == 100 * toQ numerator / toQ denominator)%Q) by (by field).
    rewrite E. split.
    + intros H. split; [done|].
      assert (E' : (100 * toQ numerator / toQ denominator * toQ denominator
                    == 100 * toQ numerator)%Q) by (by field).
      rewrite <- E'. apply Qmult_le_compat_r; [done|]. by apply Qlt_le_weak.
    + intros [_ H]. by apply Qle_shift_div_l.
  - eexists. split; [reflexivity|]. rewrite num_geb_spec. cbn [toQ]. split.
    + rewrite <- Zle_Qle. lia.
    + intros [H _]. apply num_gtb_zero_spec in H. congruence.
Qed.

(** X12.  A daily report has the summary sheet and one detail sheet for
    every row of the query, in the order of the rows.  The summary begins
    with the header; its row for the [i]-th store has the columns of the
    header, the number [i] and the store name, and the [i]-th detail sheet
    has 39 rows of three cells and begins with the same store name. *)
Theorem daily_report_layout (report_date : string) (accounts : option (list string))
    (r : report) :
  let rows := daily_rows db report_date (daily_shop_ids_filter json_loads db accounts) in
  generate_daily_report json_loads env db report_date accounts = Ok r ->
  exists summary_rows details,
    sheets r = {| title := "汇总"; rows := map CStr summary_headers :: summary_rows |} :: details
    /\ length summary_rows = length rows /\ length details = length rows
    /\ forall (i : nat) row, rows !! i = Some row ->
         exists summary_row ws,
           summary_rows !! i = Some summary_row /\ details !! i = Some ws
           /\ describes_store (Z.of_nat i + 1) row summary_row ws.
Proof.
  intros rows. unfold generate_daily_report. fold rows.
  destruct (bool_decide _); [done|].
  destruct (strptime report_date) as [dt|]; simpl; [|done].
  destruct (daily_loop _ _ _ _ _ _ _ _ _ _) as [[summary_rows details]|] eqn:E; simpl; [|done].
  intros [= <-]. simpl. exists summary_rows, details. split; [done|].
  destruct (daily_loop_describes _ _ _ _ _ _ _ _ _ _ _ E) as (L1 & L2 & H).
  split; [done|]. split; [done|]. intros i row Hr.
  destruct (H i row Hr) as (sr & w & H1 & H2 & H3). exists sr, w.
  by rewrite Z.add_comm.
Qed.

(** X13.  The qualification marks on a detail sheet are decided on the
    exact ratios, not on the printed ones: the review rate qualifies when
    there are verifying users and new reviews are at least 30 per cent of
    them, the collection rate when there are ordering users and new
    collections are at least 40 per cent of them; the coupon orders of the
    last seven days qualify from 10 and the advertising orders of the day
    from 1. *)
Theorem qualification_marks shop_mapping region_mapping report_date wd ds dsh used idx row
    summary_row ws used' :
  let reviews := toQ (num_or (k_new_review_count (jk row)) (Int 0)) in
  let verify_users := toQ (num_or (k_verify_person_count (jk row)) (Int 0)) in
  let collects := toQ (num_or (k_new_collect_users (jk row)) (Int 0)) in
  let order_users := toQ (num_or (k_order_users (jk row)) (Int 0)) in
  let ad_today := get_ad_orders_today db (k_shop_id (jk row)) report_date in
  daily_store db shop_mapping region_mapping report_date wd ds dsh used idx row
    = Ok (summary_row, ws, used') ->
  exists review_rate_str collect_rate_str review_ok collect_ok coupon_7days,
    rows ws !! 24%nat
      = Some [CStr "留评率（30%达标）："; CStr review_rate_str; CStr (qualified review_ok)]
    /\ (review_ok = true <-> (0 < verify_users /\ 30 * verify_users <= 100 * reviews)%Q)
    /\ rows ws !! 25%nat
      = Some [CStr "收藏率（40%达标）："; CStr collect_rate_str; CStr (qualified collect_ok)]
    /\ (collect_ok = true <-> (0 < order_users /\ 40 * order_users <= 100 * collects)%Q)
    /\ get_coupon_orders_last_7days db (k_shop_id (jk row)) report_date = Ok coupon_7days
    /\ rows ws !! 26%nat
      = Some [CStr "近7天优惠码订单是否达标："; CNum (Int coupon_7days);
              CStr (qualified (10 <=? coupon_7days)%Z)]
    /\ rows ws !! 27%nat
      = Some [CStr "广告单："; CStr ("当天" +:+ str_int ad_today +:+ "单");
              CStr (qualified (1 <=? ad_today)%Z)].
Proof.
  intros reviews verify_users collects order_users ad_today.
  unfold daily_store. fold (display_name row).
  destruct (assign_sheet_name used (display_name row)) as [sheet_name used''].
  cbv zeta.
  destruct (ratio_percent_threshold (num_or (k_new_review_count (jk row)) (Int 0))
              (num_or (k_verify_person_count (jk row)) (Int 0)) 30 eq_refl) as (r1 & -> & T1).
  simpl.
  destruct (ratio_percent_threshold (num_or (k_new_collect_users (jk row)) (Int 0))
              (num_or (k_order_users (jk row)) (Int 0)) 40 eq_refl) as (r2 & -> & T2).
  simpl.
  destruct (get_coupon_orders_last_7days _ _ _) as [n|]; simpl; [|done].
  intros [= <- <- <-]. simpl.
  exists (fmt_1f r1 +:+ "%"), (fmt_1f r2 +:+ "%"), (num_geb r1 (Int 30)),
    (num_geb r2 (Int 40)), n.
  split; [done|]. split; [exact T1|]. split; [done|]. split; [exact T2|]. done.
Qed.

End Daily_layout.

Lemma daily_report_layout_witness :
  exists r summary_rows details,
    generate_daily_report loads_empty_documents env0 db_ranks "2025-12-18" None = Ok r
    /\ sheets r = {| title := "汇总"; rows := map CStr summary_headers :: summary_rows |}
                  :: details
    /\ length summary_rows = 3%nat /\ length details = 3%nat.
Proof.
  destruct (generate_daily_report loads_empty_documents env0 db_ranks "2025-12-18" None)
    as [r|e] eqn:E; [|by vm_compute in E].
  destruct (daily_report_layout loads_empty_documents env0 db_ranks "2025-12-18" None r E)
    as (summary_rows & details & H1 & H2 & H3 & _).
  exists r, summary_rows, details. split; [done|]. split; [done|].
  split; [exact H2|exact H3].
Defined.

(** A store with 2996 new reviews on 10000 verifying users: the detail
    sheet prints the rate as 30.0 per cent and marks it as not
    qualified. *)
Example printed_thirty_percent_not_qualified :
  let row := {| jk := {| k_report_date := "2025-12-18"; k_shop_id := "1";
                         k_shop_name := Some "North";
                         k_exposure_users := None; k_visit_users := None;
                         k_order_users := None;
                         k_verify_person_count := Some (Int 10000);
                         k_order_coupon_count := None; k_verify_coupon_count := None;
                         k_promotion_cost := None; k_new_good_review_count := None;
                         k_new_review_count := Some (Int 2996);
                         k_new_collect_users := None; k_consult_users := None;
                         k_intent_rate := None; k_order_sale_amount := None;
                         k_verify_sale_amount := None; k_verify_after_discount := None;
                         k_coupon_pay_order_count := None;
                         k_promotion_exposure_count := None;
                         k_promotion_click_count := None |};
                jp := None; js := None |} in
  (fun r => rows r.1.2 !! 24%nat)
    <$> daily_store db_ranks ∅ ∅ "2025-12-18" "周四" "12月18日" "12.18" ∅ 1 row
  = Ok (Some [CStr "留评率（30%达标）："; CStr "30.0%"; CStr "未达标"]).
Proof. by vm_compute. Qed.

Lemma qualification_marks_witness :
  exists review_rate_str review_ok summary_row ws used',
    daily_store db_ranks ∅ ∅ "2025-12-18" "周四" "12月18日" "12.18" ∅ 1
      {| jk := kewen "2025-12-18" "1" "North" 1 1 1 1; jp := None; js := None |}
      = Ok (summary_row, ws, used')
    /\ rows ws !! 24%nat
       = Some [CStr "留评率（30%达标）："; CStr review_rate_str; CStr (qualified review_ok)]
    /\ (review_ok = true <-> (0 < 1 /\ 30 * 1 <= 100 * 0)%Q).
Proof.
  destruct (daily_store db_ranks ∅ ∅ "2025-12-18" "周四" "12月18日" "12.18" ∅ 1
              {| jk := kewen "2025-12-18" "1" "North" 1 1 1 1; jp := None; js := None |})
    as [[[summary_row ws] used']|e] eqn:E; [|by vm_compute in E].
  destruct (qualification_marks db_ranks ∅ ∅ "2025-12-18" "周四" "12月18日" "12.18" ∅ 1
              {| jk := kewen "2025-12-18" "1" "North" 1 1 1 1; jp := None; js := None |}
              summary_row ws used' E) as (s1 & s2 & b1 & b2 & n & H1 & H2 & _).
  exists s1, b1, summary_row, ws, used'. split; [done|]. split; [exact H1|exact H2].
Defined.

(** ** The two-period sheet *)

Lemma week_str_plain (s e : datetime) :
  let week_str := strftime_dotted s +:+ "-" +:+ strftime_dotted e in
  String.eqb week_str "差值" = false /\ String.eqb week_str "数据周期" = false.
Proof.
  intros week_str.
  assert (H : occurs "-" week_str = true).
  { unfold week_str. rewrite !occurs_app. simpl. by rewrite orb_true_r. }
  split; apply String.eqb_neq; intros E; rewrite E in H; by vm_compute in H.
Qed.

Section Weekly_layout.
Variable json_loads : string -> result json.
Variable env : environment.
Variable db : database.

Lemma weekly_store_block shop_mapping week1_data week2_data week1_str week2_str seq_num
    shop_id block :
  String.eqb week1_str "差值" = false -> String.eqb week1_str "数据周期" = false ->
  String.eqb week2_str "差值" = false -> String.eqb week2_str "数据周期" = false ->
  weekly_store shop_mapping week1_data week2_data week1_str week2_str seq_num shop_id
    = Ok block ->
  store_block seq_num block.
Proof.
  intros A1 B1 A2 B2. unfold weekly_store. cbv zeta.
  destruct (period_of (week1_data !! shop_id)) as [m1|]; simpl; [|done].
  destruct (period_of (week2_data !! shop_id)) as [m2|]; simpl; [|done].
  destruct (diff_of m1 m2) as [d|] eqn:Hd; simpl; [|done].
  intros [= <-]. unfold store_block. split; [done|]. split; [by repeat constructor|].
  split; [done|]. split; [done|]. split; [done|]. split.
  - intros k Hk. do 8 (destruct k as [|k]; [try lia; done|]). lia.
  - unfold header_style, red_font, value_is. simpl. by rewrite A1, B1, A2, B2.
Qed.

Lemma weekly_loop_blocks shop_mapping week1_data week2_data week1_str week2_str shop_ids :
  String.eqb week1_str "差值" = false -> String.eqb week1_str "数据周期" = false ->
  String.eqb week2_str "差值" = false -> String.eqb week2_str "数据周期" = false ->
  forall seq_num summary,
    weekly_loop shop_mapping week1_data week2_data week1_str week2_str seq_num shop_ids
      = Ok summary ->
    length summary = (8 * length shop_ids)%nat
    /\ forall i : nat, (i < length shop_ids)%nat ->
         store_block (seq_num + Z.of_nat i) (take 8 (drop (8 * i) summary)).
Proof.
  intros A1 B1 A2 B2.
  induction shop_ids as [|shop_id rest IH]; intros seq_num summary H; simpl in H.
  - injection H as <-. split; [done|]. intros i Hi. simpl in Hi. lia.
  - destruct (weekly_store _ _ _ _ _ seq_num shop_id) as [block|] eqn:Hb; simpl in H; [|done].
    destruct (weekly_loop _ _ _ _ _ _ rest) as [more|] eqn:Hm; simpl in H; [|done].
    injection H as <-. apply weekly_store_block in Hb; [|done..].
    destruct (IH _ _ Hm) as [Hlen Hblocks]. pose proof Hb as (L & _).
    split; [rewrite length_app, length_cons; lia|].
    intros [|i] Hi.
    + rewrite Z.add_0_r, Nat.mul_0_r, drop_0. by rewrite take_app_length'.
    + replace (8 * S i)%nat with (length block + 8 * i)%nat by lia.
      rewrite drop_app_add.
      replace (seq_num + Z.of_nat (S i))%Z with (seq_num + 1 + Z.of_nat i)%Z by lia.
      apply Hblocks. rewrite length_cons in Hi. lia.
Qed.

Lemma generate_weekly_report_rows week1_start week1_end week2_start week2_end accounts r :
  generate_weekly_report json_loads env db week1_start week1_end week2_start week2_end accounts
    = Ok r ->
  exists s1 e1 s2 e2 summary,
    let shop_ids := merge_sort String.le
      (elements (dom (by_shop_id (sql_week db week1_start week1_end))
                 ∪ dom (by_shop_id (sql_week db week2_start week2_end)))) in
    strptime week1_start = Ok s1 /\ strptime week1_end = Ok e1
    /\ strptime week2_start = Ok s2 /\ strptime week2_end = Ok e2
    /\ weekly_loop (get_shop_info_mapping json_loads db accounts)
         (by_shop_id (sql_week db week1_start week1_end))
         (by_shop_id (sql_week db week2_start week2_end))
         (strftime_dotted s1 +:+ "-" +:+ strftime_dotted e1)
         (strftime_dotted s2 +:+ "-" +:+ strftime_dotted e2) 1 shop_ids = Ok summary
    /\ sheets r = [ {| title := "汇总"; rows := summary |} ]
    /\ path r = generate_temp_filename env
                  ("周报_" +:+ str_remove "-" week2_start +:+ "_"
                   +:+ str_remove "-" week2_end) "xlsx".
Proof.
  unfold generate_weekly_report.
  destruct (bool_decide _); [done|].
  destruct (strptime week1_start) as [s1|]; [|done]. simpl.
  destruct (strptime week1_end) as [e1|]; [|done]. simpl.
  destruct (strptime week2_start) as [s2|]; [|done]. simpl.
  destruct (strptime week2_end) as [e2|]; [|done]. simpl.
  destruct (weekly_loop _ _ _ _ _ _ _) as [summary|] eqn:E; simpl; [|done].
  intros [= <-]. exists s1, e1, s2, e2, summary. by repeat split.
Qed.

Lemma weekly_blocks_of_report week1_start week1_end week2_start week2_end accounts r :
  let stores := size (dom (by_shop_id (sql_week db week1_start week1_end))
                      ∪ dom (by_shop_id (sql_week db week2_start week2_end))) in
  generate_weekly_report json_loads env db week1_start week1_end week2_start week2_end accounts
    = Ok r ->
  exists ws,
    sheets r = [ws]
    /\ length (rows ws) = (8 * stores)%nat
    /\ forall i : nat, (i < stores)%nat ->
         store_block (Z.of_nat i + 1) (take 8 (drop (8 * i) (rows ws))).
Proof.
  intros stores H.
  apply generate_weekly_report_rows in H
    as (s1 & e1 & s2 & e2 & summary & _ & _ & _ & _ & L & Hs & _).
  destruct (week_str_plain s1 e1) as [A1 B1]. destruct (week_str_plain s2 e2) as [A2 B2].
  apply (weekly_loop_blocks _ _ _ _ _ _ A1 B1 A2 B2) in L as [Hlen Hblocks].
  assert (E : length (merge_sort String.le
                (elements (dom (by_shop_id (sql_week db week1_start week1_end))
                           ∪ dom (by_shop_id (sql_week db week2_start week2_end)))))
              = stores) by (by rewrite merge_sort_Permutation).
  rewrite E in Hlen, Hblocks.
  eexists. split; [exact Hs|]. split; [exact Hlen|].
  intros i Hi. rewrite Z.add_comm. by apply Hblocks.
Qed.

(** X14.  The sheet of a two-period report has eight rows of 20 cells
    for every store with a row in either period.  The stores are numbered
    from 1; in every block of eight rows the two header rows, and no other
    row, are bold on green, and the two rows of differences, and no other
    row, have the red font, whatever the names and figures of the store
    are. *)
Theorem weekly_report_layout week1_start week1_end week2_start week2_end accounts r :
  let stores := size (dom (by_shop_id (sql_week db week1_start week1_end))
                      ∪ dom (by_shop_id (sql_week db week2_start week2_end))) in
  generate_weekly_report json_loads env db week1_start week1_end week2_start week2_end accounts
    = Ok r ->
  exists ws,
    sheets r = [ws] /\ title ws = "汇总"
    /\ length (rows ws) = (8 * stores)%nat
    /\ forall i : nat, (i < stores)%nat ->
         store_block (Z.of_nat i + 1) (take 8 (drop (8 * i) (rows ws))).
Proof.
  intros stores H.
  destruct (weekly_blocks_of_report _ _ _ _ _ _ H) as (ws & Hs & Hlen & Hblocks).
  apply generate_weekly_report_rows in H
    as (s1 & e1 & s2 & e2 & summary & _ & _ & _ & _ & _ & Hs' & _).
  exists ws. split; [done|]. split; [|done].
  rewrite Hs' in Hs. by injection Hs as <-.
Qed.

(** *** Merged cells *)

Lemma merge_loop_stores (n : nat) :
  forall (k j fuel : nat), (j + k = n)%nat -> (k < fuel)%nat ->
    merge_loop fuel (Z.max 1 (Z.of_nat (8 * n))) (8 * Z.of_nat j + 2)
    = Some (flat_map store_ranges (seq j k)).
Proof.
  induction k as [|k IH]; intros j fuel Hj Hf; (destruct fuel as [|fuel]; [lia|]);
    cbn [merge_loop].
  - assert ((8 * Z.of_nat j + 2 <=? Z.max 1 (Z.of_nat (8 * n)))%Z = false) as ->
      by (apply Z.leb_gt; lia).
    done.
  - assert ((8 * Z.of_nat j + 2 <=? Z.max 1 (Z.of_nat (8 * n)))%Z = true) as ->
      by (apply Z.leb_le; lia).
    assert ((8 * Z.of_nat j + 2 + 6 <=? Z.max 1 (Z.of_nat (8 * n)))%Z = true) as ->
      by (apply Z.leb_le; lia).
    replace (8 * Z.of_nat j + 2 + 8)%Z with (8 * Z.of_nat (S j) + 2)%Z by lia.
    rewrite (IH (S j) fuel) by lia. cbn [mbind option_bind seq flat_map]. do 2 f_equal.
    unfold store_ranges. apply list_fmap_ext. intros _ col _. f_equal. lia.
Qed.

(** X15.  The merged cells of a two-period report: the loop ends and
    merges, for every store, rows 2 to 8 of its block in each of the first
    five columns, and nothing else.  No value is hidden by a merge: every
    cell of a merged range below its first one holds the empty text. *)
Theorem merged_cells_hide_no_value week1_start week1_end week2_start week2_end accounts r :
  let stores := size (dom (by_shop_id (sql_week db week1_start week1_end))
                      ∪ dom (by_shop_id (sql_week db week2_start week2_end))) in
  generate_weekly_report json_loads env db week1_start week1_end week2_start week2_end accounts
    = Ok r ->
  exists ws,
    sheets r = [ws]
    /\ merged_cells ws = Some (flat_map store_ranges (seq 0 stores))
    /\ forall (m : merged_range) (row : Z),
         m ∈ flat_map store_ranges (seq 0 stores) ->
         (start_row m < row <= end_row m)%Z ->
         cell_value ws row (start_column m) = Some (CStr "").
Proof.
  intros stores H.
  destruct (weekly_blocks_of_report _ _ _ _ _ _ H) as (ws & S & Hlen & Hblocks).
  exists ws. split; [done|]. split.
  - unfold merged_cells, max_row. rewrite Hlen.
    apply (merge_loop_stores stores stores 0); lia.
  - intros m row Hm Hrow.
    apply list_elem_of_In, in_flat_map in Hm as (i & Hi & Hm).
    apply in_seq in Hi. apply list_elem_of_In in Hm. unfold store_ranges in Hm.
    apply list_elem_of_fmap in Hm as (col & -> & Hcol). apply elem_of_seqZ in Hcol.
    cbn [start_row end_row start_column] in *.
    destruct (Hblocks i ltac:(lia)) as (_ & _ & _ & _ & _ & Hblank & _).
    set (k := Z.to_nat (row - 1 - 8 * Z.of_nat i)).
    specialize (Hblank k ltac:(lia)).
    rewrite lookup_take_lt, lookup_drop in Hblank by lia.
    unfold cell_value. replace (Z.to_nat (row - 1)) with (8 * i + k)%nat by lia.
    destruct (rows ws !! (8 * i + k)%nat) as [cells|]; [|done].
    injection Hblank as Hblank. cbn [mbind option_bind].
    rewrite <- (lookup_take_lt cells 5) by lia. rewrite Hblank.
    assert (Hc : (Z.to_nat (col - 1) < 5)%nat) by lia.
    revert Hc. generalize (Z.to_nat (col - 1)). intros c Hc.
    do 5 (destruct c as [|c]; [done|]). lia.
Qed.

(** *** The accounts of a two-period request *)




End Weekly_layout.

Lemma weekly_report_layout_witness :
  exists r ws,
    generate_weekly_report loads_empty_documents env0 db_two_stores
      "2025-12-01" "2025-12-07" "2025-12-08" "2025-12-14" None = Ok r
    /\ sheets r = [ws] /\ title ws = "汇总" /\ length (rows ws) = 16%nat.
Proof.
  destruct (generate_weekly_report loads_empty_documents env0 db_two_stores
              "2025-12-01" "2025-12-07" "2025-12-08" "2025-12-14" None)
    as [r|e] eqn:E; [|by vm_compute in E].
  destruct (weekly_report_layout loads_empty_documents env0 db_two_stores
              "2025-12-01" "2025-12-07" "2025-12-08" "2025-12-14" None r E)
    as (ws & H1 & H2 & H3 & _).
  exists r, ws. split; [done|]. split; [exact H1|]. split; [exact H2|].
  rewrite H3. by vm_compute.
Defined.

Lemma merged_cells_hide_no_value_witness :
  exists r ws,
    generate_weekly_report loads_empty_documents env0 db_two_stores
      "2025-12-01" "2025-12-07" "2025-12-08" "2025-12-14" None = Ok r
    /\ sheets r = [ws]
    /\ merged_cells ws = Some (store_ranges 0 ++ store_ranges 1).
Proof.
  destruct (generate_weekly_report loads_empty_documents env0 db_two_stores
              "2025-12-01" "2025-12-07" "2025-12-08" "2025-12-14" None)
    as [r|e] eqn:E; [|by vm_compute in E].
  destruct (merged_cells_hide_no_value loads_empty_documents env0 db_two_stores
              "2025-12-01" "2025-12-07" "2025-12-08" "2025-12-14" None r E)
    as (ws & H1 & H2 & _).
  exists r, ws. split; [done|]. split; [exact H1|]. rewrite H2. by vm_compute.
Defined.

(** ** The routes *)

Section Route_facts.
Import Routes.
Variable path_exists : string -> bool.
Variable str_of_exception : raised -> string.
Variable json_loads : string -> result json.
Variable env : environment.
Variable db : database.

#[local] Abbreviation respond := (respond path_exists str_of_exception).


(** X18.  Empty result sets are answered as bad requests: the daily
    route with status 400 and the message that names the date when the
    daily query has no row, and the weekly, monthly and custom routes with
    status 400 and the no-data message when neither period has a row. *)
Theorem no_data_is_a_bad_request
    (date s1 e1 s2 e2 : string) (accounts stores : option (list string)) :
  daily_rows db date (daily_shop_ids_filter json_loads db accounts) = [] ->
  sql_week db s1 e1 = [] -> sql_week db s2 e2 = [] ->
  create_daily_report path_exists str_of_exception json_loads env db
    {| report_date := date; daily_accounts := accounts |}
  = Error 400 ("日期 " +:+ date +:+ " 没有数据")
  /\ create_weekly_report path_exists str_of_exception json_loads env db
       {| week1_start := s1; week1_end := e1; week2_start := s2; week2_end := e2;
          weekly_accounts := accounts |}
     = Error 400 "没有找到数据"
  /\ create_monthly_report path_exists str_of_exception json_loads env db
       {| month1_start := s1; month1_end := e1; month2_start := s2; month2_end := e2;
          monthly_accounts := accounts |}
     = Error 400 "没有找到数据"
  /\ create_custom_report path_exists str_of_exception json_loads env db
       {| period1_start := s1; period1_end := e1; period2_start := s2; period2_end := e2;
          shop_ids := stores; custom_accounts := accounts |}
     = Error 400 "没有找到数据".
Proof.
  intros Hd H1 H2.
  assert (W : generate_weekly_report json_loads env db s1 e1 s2 e2 accounts
              = Raise no_data_found).
  { unfold generate_weekly_report. rewrite H1, H2. by rewrite bool_decide_eq_true_2. }
  unfold create_daily_report, create_weekly_report, create_monthly_report,
    create_custom_report, generate_monthly_report, generate_custom_report. simpl.
  rewrite W. unfold generate_daily_report. rewrite Hd. by rewrite bool_decide_eq_true_2.
Qed.

End Route_facts.

Lemma no_data_is_a_bad_request_witness :
  Routes.create_daily_report (fun _ => true) (fun _ => "") loads_empty_documents env0 db_B
    {| Routes.report_date := "2025-12-18"; Routes.daily_accounts := None |}
  = Routes.Error 400 "日期 2025-12-18 没有数据"
  /\ Routes.create_custom_report (fun _ => true) (fun _ => "") loads_empty_documents env0 db_B
       {| Routes.period1_start := "2025-11-01"; Routes.period1_end := "2025-11-07";
          Routes.period2_start := "2025-11-08"; Routes.period2_end := "2025-11-14";
          Routes.shop_ids := Some ["1001"]; Routes.custom_accounts := None |}
     = Routes.Error 400 "没有找到数据".
Proof.
  destruct (no_data_is_a_bad_request (fun _ => true) (fun _ => "") loads_empty_documents
              env0 db_B "2025-12-18" "2025-11-01" "2025-11-07" "2025-11-08" "2025-11-14"
              None (Some ["1001"])) as (H1 & _ & _ & H2).
  - by vm_compute.
  - by vm_compute.
  - by vm_compute.
  - split; [exact H1|exact H2].
Defined.

(** ** What the report jobs raise *)



Section Raised.
Variable json_loads : string -> result json.
Variable env : environment.
Variable db : database.




End Raised.


(** ** The admission gate: what never happens *)

Section Gate_order.
Import TaskQueue.
Context {A : Type}.
Variable max_workers : Z.
Variable jobs : list (result A).

#[local] Abbreviation fire := (fire max_workers jobs).
#[local] Abbreviation run := (run max_workers jobs).
#[local] Abbreviation submitted := (submitted (A := A) jobs).
#[local] Abbreviation phase := (phase (A := A)).
#[local] Abbreviation state := (state (A := A)).

(** An event moves one caller one phase forward and leaves the others
    where they are. *)
Lemma fire_advances (e : event) (s s' : state) (i : nat) (p : phase) :
  fire e s = Some s' -> callers s !! i = Some p ->
  exists p', callers s' !! i = Some p'
             /\ (steps_left p' <= steps_left p)%Z
             /\ (forall r, p = Returned r -> p' = Returned r).
Proof.
  intros Hfire Hp. destruct s as [sem l]. destruct e as [j|j]; simpl in *.
  - destruct (l !! j) as [[| |r]|] eqn:Hj; try done.
    destruct (0 <? _)%Z; [|done]. injection Hfire as <-. simpl.
    destruct (decide (j = i)) as [->|Hne].
    + rewrite list_lookup_insert_eq by (by apply lookup_lt_Some in Hj).
      eexists. split; [done|]. simplify_eq. simpl. split; [lia|done].
    + rewrite list_lookup_insert_ne by done. exists p. by repeat split.
  - destruct (l !! j) as [[| |r]|] eqn:Hj; try done.
    destruct (jobs !! j) as [r|]; [|done]. injection Hfire as <-. simpl.
    destruct (decide (j = i)) as [->|Hne].
    + rewrite list_lookup_insert_eq by (by apply lookup_lt_Some in Hj).
      eexists. split; [done|]. simplify_eq. simpl. split; [lia|done].
    + rewrite list_lookup_insert_ne by done. exists p. by repeat split.
Qed.

Lemma run_advances (events : list event) :
  forall (s s' : state) (i : nat) (p : phase),
    run events s = Some s' -> callers s !! i = Some p ->
    exists p', callers s' !! i = Some p'
               /\ (steps_left p' <= steps_left p)%Z
               /\ (forall r, p = Returned r -> p' = Returned r).
Proof.
  induction events as [|e rest IH]; intros s s' i p Hrun Hp; simpl in Hrun.
  - injection Hrun as <-. exists p. by repeat split.
  - destruct (fire e s) as [s1|] eqn:Hfire; [|done]. simpl in Hrun.
    destruct (fire_advances e s s1 i p Hfire Hp) as (p1 & Hp1 & L1 & R1).
    destruct (IH s1 s' i p1 Hrun Hp1) as (p' & Hp' & L' & R').
    exists p'. split; [done|]. split; [lia|]. intros r ->. by apply R', R1.
Qed.

Lemma fire_steps (e : event) (s s' : state) :
  fire e s = Some s' ->
  exists p p', callers s !! caller_of e = Some p /\ steps_left p = steps_before e
               /\ callers s' !! caller_of e = Some p'
               /\ steps_left p' = (steps_before e - 1)%Z.
Proof.
  intros Hfire. destruct s as [sem l]. destruct e as [j|j]; simpl in *.
  - destruct (l !! j) as [[| |r]|] eqn:Hj; try done.
    destruct (0 <? _)%Z; [|done]. injection Hfire as <-. simpl.
    rewrite list_lookup_insert_eq by (by apply lookup_lt_Some in Hj).
    by exists Waiting, Executing.
  - destruct (l !! j) as [[| |r]|] eqn:Hj; try done.
    destruct (jobs !! j) as [r|]; [|done]. injection Hfire as <-. simpl.
    rewrite list_lookup_insert_eq by (by apply lookup_lt_Some in Hj).
    by exists Executing, (Returned r).
Qed.

Lemma run_no_event_twice (events : list event) :
  forall (s s' : state), run events s = Some s' -> NoDup events.
Proof.
  induction events as [|e rest IH]; intros s s' Hrun; [constructor|].
  simpl in Hrun. destruct (fire e s) as [s1|] eqn:Hfire; [|done]. simpl in Hrun.
  constructor; [|by eapply IH].
  intros Hin. apply list_elem_of_split in Hin as (pre & post & ->).
  destruct (fire_steps e s s1 Hfire) as (p & p1 & _ & _ & Hp1 & L1).
  assert (Hsplit : exists s2 s3, run pre s1 = Some s2 /\ fire e s2 = Some s3).
  { clear -Hrun. revert s1 Hrun. induction pre as [|x pre IHp]; intros s1 Hrun; simpl in Hrun.
    - destruct (fire e s1) as [s3|] eqn:F; [|done]. by exists s1, s3.
    - destruct (fire x s1) as [sx|] eqn:F; [|done]. simpl in Hrun.
      destruct (IHp sx Hrun) as (s2 & s3 & H1 & H2). exists s2, s3. simpl. by rewrite F. }
  destruct Hsplit as (s2 & s3 & Hpre & Hagain).
  destruct (run_advances pre s1 s2 (caller_of e) p1 Hpre Hp1) as (p2 & Hp2 & L2 & _).
  destruct (fire_steps e s2 s3 Hagain) as (q & _ & Hq & Lq & _). simplify_eq. lia.
Qed.

(** X19.  The gate never repeats an event and never moves a caller
    back: in every interleaving no job is admitted twice and none
    finishes twice, a caller only moves from waiting to executing to
    returned, and the outcome a caller has returned with stays its
    outcome. *)
Theorem gate_never_repeats_or_reverts (events : list event) (s s' : state) :
  run events s = Some s' ->
  NoDup events
  /\ forall (i : nat) (p : phase), callers s !! i = Some p ->
       exists p', callers s' !! i = Some p'
                  /\ (steps_left p' <= steps_left p)%Z
                  /\ (forall r, p = Returned r -> p' = Returned r).
Proof.
  intros Hrun. split; [by eapply run_no_event_twice|].
  intros i p Hp. by eapply run_advances.
Qed.

Lemma all_returned (l : list (result A)) (sem : option Z) :
  remaining {| _semaphore := sem; callers := Returned <$> l |} = 0%Z
  /\ executing {| _semaphore := sem; callers := Returned <$> l |} = 0%Z.
Proof.
  unfold remaining, executing. cbn [callers _semaphore].
  induction l as [|r l [IH1 IH2]]; [done|].
  cbn [fmap list_fmap foldr steps_left List.filter is_executing]. split; [|done].
  change (foldr (fun p acc => (steps_left p + acc)%Z) 0%Z (Returned <$> l) = 0%Z) in IH1.
  change (list_fmap (result A) phase Returned l) with (Returned <$> l). lia.
Qed.

(** X20.  When every caller has returned, every token is back: the
    semaphore holds the whole budget again, exactly two events have
    happened for every job, and no further event can happen. *)
Theorem all_returned_means_all_tokens_back (events : list event) (s : state) :
  (0 < max_workers)%Z ->
  run events submitted = Some s ->
  callers s = Returned <$> jobs ->
  get_semaphore max_workers s = max_workers
  /\ length events = (2 * length jobs)%nat
  /\ forall e, fire e s = None.
Proof.
  intros Hb Hrun Hdone.
  destruct (run_invariant max_workers jobs events _ s
              (submitted_invariant max_workers jobs Hb) Hrun) as [Hinv Hrem].
  rewrite remaining_submitted in Hrem. destruct Hinv as (_ & Hsum & _).
  destruct s as [sem l]. simpl in Hdone. subst l.
  destruct (all_returned jobs sem) as [R E]. rewrite R in Hrem. rewrite E in Hsum.
  split; [lia|]. split; [lia|].
  intros [i|i]; simpl; rewrite list_lookup_fmap; by destruct (jobs !! i).
Qed.

End Gate_order.

Lemma gate_never_repeats_or_reverts_witness :
  exists s,
    TaskQueue.run TaskQueue.MAX_WORKERS six_jobs six_jobs_schedule
      (TaskQueue.submitted six_jobs) = Some s
    /\ NoDup six_jobs_schedule.
Proof.
  destruct (TaskQueue.run TaskQueue.MAX_WORKERS six_jobs six_jobs_schedule
              (TaskQueue.submitted six_jobs)) as [s|] eqn:E; [|by vm_compute in E].
  exists s. split; [done|].
  exact (proj1 (gate_never_repeats_or_reverts TaskQueue.MAX_WORKERS six_jobs
                  six_jobs_schedule _ s E)).
Defined.

Lemma all_returned_means_all_tokens_back_witness :
  exists s,
    TaskQueue.run TaskQueue.MAX_WORKERS six_jobs six_jobs_schedule
      (TaskQueue.submitted six_jobs) = Some s
    /\ TaskQueue.get_semaphore TaskQueue.MAX_WORKERS s = TaskQueue.MAX_WORKERS
    /\ length six_jobs_schedule = 12%nat.
Proof.
  destruct (TaskQueue.run TaskQueue.MAX_WORKERS six_jobs six_jobs_schedule
              (TaskQueue.submitted six_jobs)) as [s|] eqn:E; [|by vm_compute in E].
  destruct (all_returned_means_all_tokens_back TaskQueue.MAX_WORKERS six_jobs
              six_jobs_schedule s) as (H1 & H2 & _).
  - reflexivity.
  - exact E.
  - by vm_compute in E; injection E as <-.
  - exists s. split; [done|]. split; [exact H1|exact H2].
Defined.

(** ** The stores of a period *)

Section Period_stores.
Variable db : database.

(** X21.  The stores of a two-period report: a store has a row in the
    aggregate of a period exactly when [kewen_daily_report] has a row of
    the store dated within the period, whatever promotion and statistics
    rows exist; no list of accounts or stores enters the query. *)
Theorem period_stores (start_date end_date shop_id : string) :
  is_Some (by_shop_id (sql_week db start_date end_date) !! shop_id)
  <-> exists k, k ∈ kewen_daily_report db /\ k_shop_id k = shop_id
                /\ String.le start_date (k_report_date k)
                /\ String.le (k_report_date k) end_date.
Proof.
  rewrite <- elem_of_dom, dom_by_shop_id, elem_of_list_to_set.
  unfold sql_week, order_by. rewrite merge_sort_Permutation, <- list_fmap_compose.
  set (ks := List.filter _ (kewen_daily_report db)).
  assert (K : forall k, k ∈ ks <-> k ∈ kewen_daily_report db
                /\ String.le start_date (k_report_date k)
                /\ String.le (k_report_date k) end_date).
  { intros k. unfold ks. rewrite list_elem_of_In, filter_In, <- list_elem_of_In.
    unfold sql_between, String.le. rewrite andb_true_iff, !Is_true_true. done. }
  rewrite list_elem_of_fmap. split.
  - intros ([id name] & -> & H). apply elem_of_remove_dups, list_elem_of_In, in_map_iff in H
      as (r & [= <- <-] & Hr).
    apply list_elem_of_In, join_reports_elem, K in Hr as (H1 & H2 & H3). by exists (jk r).
  - intros (k & Hk & <- & Hd). destruct (join_reports_keeps db ks k) as (r & Hr & <-).
    { by apply K. }
    exists (k_shop_id (jk r), k_shop_name (jk r)). split; [done|].
    apply elem_of_remove_dups, list_elem_of_In, in_map_iff. exists r.
    split; [done|]. by apply list_elem_of_In.
Qed.

End Period_stores.

(** ** Names of the saved files *)

Lemma string_app_inv_head (a x y : string) : a +:+ x = a +:+ y -> x = y.
Proof. induction a as [|c a IH]; simpl; [done|]. intros [= H]. by apply IH. Qed.

Lemma string_app_inv_length (a b x y : string) :
  String.length a = String.length b -> a +:+ x = b +:+ y -> a = b /\ x = y.
Proof.
  revert b. induction a as [|c a IH]; intros [|d b] L; simpl in *; try done.
  intros [= -> H]. destruct (IH b) as [-> ->]; [lia|done|done].
Qed.

Lemma string_app_inv_tail (x y t : string) : x +:+ t = y +:+ t -> x = y.
Proof.
  revert y. induction x as [|c x IH]; intros [|d y] H; simpl in *; try done.
  - apply (f_equal String.length) in H. simpl in H. rewrite !str_length_app in H.
    simpl in H. lia.
  - apply (f_equal String.length) in H. simpl in H. rewrite !str_length_app in H.
    simpl in H. lia.
  - injection H as -> H. by rewrite (IH y H).
Qed.

Lemma path_join_inj (a b b' : string) :
  String.get 0 b = String.get 0 b' -> path_join a b = path_join a b' -> b = b'.
Proof.
  unfold path_join. intros H0.
  destruct b as [|c b], b' as [|c' b']; simpl in H0; try done.
  injection H0 as <-.
  assert (E : forall r : string,
      match String c r with String "/" _ => String c r
      | _ => if negb (str_truthy a)
                || String.eqb (String.substring (String.length a - 1) 1 a) "/"
             then a +:+ String c r else a +:+ "/" +:+ String c r end
      = if Ascii.eqb c "/" then String c r
        else if negb (str_truthy a)
                || String.eqb (String.substring (String.length a - 1) 1 a) "/"
             then a +:+ String c r else a +:+ "/" +:+ String c r).
    { intros r. destruct (Ascii.eqb_spec c "/") as [->|N]; [done|].
      destruct c as [[] [] [] [] [] [] [] []]; try done. }
    rewrite !E. destruct (Ascii.eqb c "/"); [done|].
    destruct (negb (str_truthy a) || _); intros H.
    + by apply string_app_inv_head in H.
    + by apply string_app_inv_head, string_app_inv_head in H.
Qed.

(** X22.  Two reports never share a file name unless they share the
    time stamp and the random part of the name: for the same directory,
    prefix and extension, and time stamps of the same length, names with
    different time stamps or different random parts are different
    paths. *)
Theorem temp_files_do_not_collide (env1 env2 : environment) (prefix ext : string) :
  TEMP_DIR env1 = TEMP_DIR env2 ->
  String.length (timestamp env1) = String.length (timestamp env2) ->
  timestamp env1 <> timestamp env2 \/ unique_id env1 <> unique_id env2 ->
  generate_temp_filename env1 prefix ext <> generate_temp_filename env2 prefix ext.
Proof.
  unfold generate_temp_filename. intros D L N H. rewrite D in H.
  apply path_join_inj in H.
  - apply string_app_inv_head, string_app_inv_head in H.
    apply string_app_inv_length in H as [T H]; [|done].
    apply string_app_inv_head in H. apply string_app_inv_tail in H.
    by destruct N.
  - destruct prefix; done.
Qed.

Lemma temp_files_do_not_collide_witness :
  generate_temp_filename env0 "日报_20251218" "xlsx"
  <> generate_temp_filename
       {| TEMP_DIR := "/tmp/jx_reports"; timestamp := "20251218093000";
          unique_id := "9f8e7d6c" |} "日报_20251218" "xlsx".
Proof.
  apply (temp_files_do_not_collide env0
           {| TEMP_DIR := "/tmp/jx_reports"; timestamp := "20251218093000";
              unique_id := "9f8e7d6c" |} "日报_20251218" "xlsx").
  - reflexivity.
  - reflexivity.
  - right. by vm_compute.
Defined.

(** ** The figures of a period *)

Lemma by_shop_id_unique (rows : list agg_row) (row : agg_row) :
  row ∈ rows ->
  (forall r, r ∈ rows -> a_shop_id r = a_shop_id row -> r = row) ->
  by_shop_id rows !! a_shop_id row = Some row.
Proof.
  unfold by_shop_id. generalize (∅ : gmap string agg_row).
  assert (Keep : forall (l : list agg_row) (m : gmap string agg_row),
    (forall r, r ∈ l -> a_shop_id r = a_shop_id row -> r = row) ->
    m !! a_shop_id row = Some row ->
    foldl (fun m r => <[a_shop_id r := r]> m) m l !! a_shop_id row = Some row).
  { induction l as [|x l IH]; intros m U Hm; simpl; [done|]. apply IH.
    - intros r Hr. apply U. by right.
    - destruct (decide (a_shop_id x = a_shop_id row)) as [E|N].
      + rewrite (U x) by (done || by left). apply lookup_insert_eq.
      + by rewrite lookup_insert_ne. }
  induction rows as [|x l IH]; intros m Hin U; [by apply elem_of_nil in Hin|].
  simpl. destruct (decide (a_shop_id x = a_shop_id row)) as [E|N].
  - apply Keep; [intros r Hr; apply U; by right|].
    rewrite (U x) by (done || by left). apply lookup_insert_eq.
  - apply IH.
    + apply elem_of_cons in Hin as [->|Hin]; done.
    + intros r Hr. apply U. by right.
Qed.

Lemma filter_none {B} (f : B -> bool) (l : list B) :
  Forall (fun x => f x = false) l -> List.filter f l = [].
Proof. induction 1 as [|x l Hx _ IH]; simpl; [done|]. by rewrite Hx. Qed.

Lemma filter_filter_and {B} (f g : B -> bool) (l : list B) :
  List.filter f (List.filter g l) = List.filter (fun x => f x && g x) l.
Proof.
  induction l as [|x l IH]; simpl; [done|].
  destruct (g x); simpl; [|by rewrite andb_false_r].
  rewrite andb_true_r. destruct (f x); by rewrite IH.
Qed.

Section Period_figures.
Variable db : database.

Lemma join_reports_cons (k : kewen_row) (ks : list kewen_row) :
  join_reports db (k :: ks) = join_reports db [k] ++ join_reports db ks.
Proof.
  unfold join_reports, left_join. cbn [flat_map]. by rewrite app_nil_r, flat_map_app.
Qed.

Lemma join_reports_once (k : kewen_row) :
  joined_once db k ->
  join_reports db [k]
  = [ {| jk := k; jp := head (promo_of db k); js := head (stats_of db k) |} ].
Proof.
  intros [Hp Hs]. unfold join_reports, left_join, promo_of, stats_of in *.
  cbn [flat_map]. rewrite app_nil_r.
  destruct (List.filter _ (promotion_daily_report db)) as [|p [|p' ps]];
    simpl in *; try lia;
    destruct (List.filter _ (store_stats db)) as [|s [|s' ss]];
    simpl in *; try lia; done.
Qed.

Lemma period_group (start_date end_date shop_id : string) (name : option string) :
  Forall (fun k => k_shop_name k = name) (period_rows db start_date end_date shop_id) ->
  Forall (joined_once db) (period_rows db start_date end_date shop_id) ->
  List.filter (fun r => bool_decide ((k_shop_id (jk r), k_shop_name (jk r)) = (shop_id, name)))
    (join_reports db
       (List.filter (fun k => sql_between (k_report_date k) start_date end_date)
          (kewen_daily_report db)))
  = map (fun k => {| jk := k; jp := head (promo_of db k); js := head (stats_of db k) |})
      (period_rows db start_date end_date shop_id).
Proof.
  unfold period_rows. rewrite <- filter_filter_and.
  induction (List.filter (fun k => sql_between (k_report_date k) start_date end_date)
               (kewen_daily_report db)) as [|k ks IH]; [done|].
  rewrite join_reports_cons, List.filter_app. cbn [List.filter].
  destruct (String.eqb_spec (k_shop_id k) shop_id) as [E|N].
  - intros [Hn Hns]%Forall_cons [Ho Hos]%Forall_cons.
    rewrite (join_reports_once k Ho). cbn [List.filter jk map].
    rewrite bool_decide_eq_true_2 by (by rewrite E, Hn). simpl. f_equal. by apply IH.
  - intros Hn Ho. rewrite filter_none; [by apply IH|].
    apply Forall_forall. intros r Hr%join_reports_elem. apply list_elem_of_singleton in Hr.
    apply bool_decide_eq_false_2. intros [= H _]. rewrite Hr in H. done.
Qed.

(** X23.  The figures of a period are the sums over the rows of the
    store: for a store with at least one row in the period, one name on
    all these rows, and at most one promotion and one statistics row per
    day, the record that the report reads for the store holds, in every
    summed column, the sum of that column over the store's rows of the
    period (and over the promotion or statistics rows joined to them). *)
Theorem period_figures_are_sums (start_date end_date shop_id : string)
    (name : option string) :
  let rows := period_rows db start_date end_date shop_id in
  rows <> [] ->
  Forall (fun k => k_shop_name k = name) rows ->
  Forall (joined_once db) rows ->
  exists row,
    by_shop_id (sql_week db start_date end_date) !! shop_id = Some row
    /\ a_shop_name row = name
    /\ Forall (fun '(a, f) => a row = sql_sum (map f rows)) kewen_sums
    /\ Forall (fun '(a, f) =>
                 a row = sql_sum (map (fun k => col f (head (promo_of db k))) rows))
         promo_sums
    /\ a_checkin_count row
       = sql_sum (map (fun k => col s_checkin_count (head (stats_of db k))) rows).
Proof.
  intros rows Hne Hname Honce.
  pose proof (period_group start_date end_date shop_id name Hname Honce) as G.
  set (ks := List.filter (fun k => sql_between (k_report_date k) start_date end_date)
               (kewen_daily_report db)) in *.
  set (key := fun r : joined => (k_shop_id (jk r), k_shop_name (jk r))).
  set (F := fun g : string * option string =>
              let '(sid, sname) := g in
              aggregate sid sname
                (List.filter (fun r => bool_decide (key r = (sid, sname)))
                   (join_reports db ks))).
  assert (W : sql_week db start_date end_date
              ≡ₚ map F (remove_dups (map key (join_reports db ks)))).
  { unfold sql_week, order_by. by rewrite merge_sort_Permutation. }
  assert (Krows : forall k, k ∈ rows <-> k ∈ ks /\ k_shop_id k = shop_id).
  { intros k. unfold rows, period_rows. rewrite <- filter_filter_and.
    fold ks. rewrite list_elem_of_In, filter_In, <- list_elem_of_In, String.eqb_eq. tauto. }
  exists (F (shop_id, name)). split; [|split; [done|]].
  - change shop_id with (a_shop_id (F (shop_id, name))) at 1.
    apply by_shop_id_unique.
    + rewrite W. apply list_elem_of_In, in_map, list_elem_of_In, elem_of_remove_dups.
      destruct rows as [|k rest] eqn:R; [done|].
      assert (Hk : k ∈ ks /\ k_shop_id k = shop_id) by (apply Krows; by left).
      destruct Hk as [Hk Hid]. destruct (join_reports_keeps db ks k Hk) as (r & Hr & Hjk).
      apply list_elem_of_In, in_map_iff. exists r. split; [|by apply list_elem_of_In].
      unfold key. rewrite Hjk, Hid. f_equal. by apply Forall_cons in Hname as [-> _].
    + intros r'. rewrite W. intros Hr' Hid.
      apply list_elem_of_In, in_map_iff in Hr' as ([sid sname] & <- & Hg).
      simpl in Hid. subst sid. f_equal. f_equal.
      apply list_elem_of_In, elem_of_remove_dups, list_elem_of_In, in_map_iff in Hg
        as (r & [= Hid Hn] & Hr).
      apply list_elem_of_In, join_reports_elem in Hr.
      assert (Hin : jk r ∈ rows) by (by apply Krows).
      rewrite <- Hn. by eapply Forall_forall in Hname.
  - unfold F, aggregate, key. rewrite G. fold rows. cbn [a_checkin_count].
    rewrite !map_map. cbn [jk jp js]. split; [|split]; [| |done].
    + unfold kewen_sums. repeat constructor; cbn; by rewrite map_map.
    + unfold promo_sums. repeat constructor; cbn; by rewrite map_map.
Qed.

End Period_figures.

(** A store renamed within the period has two groups in the query, and
    the report reads only one of them: the exposures under one of the two
    names, 100 or 300, not the 400 of both rows. *)
Example renamed_store_shows_one_group :
  let shown :=
    a_exposure_users
      <$> (by_shop_id (sql_week db_renamed "2025-12-01" "2025-12-07") !! "1001") in
  (shown = Some (Some (Dec 100)) \/ shown = Some (Some (Dec 300)))
  /\ sql_sum (map k_exposure_users (period_rows db_renamed "2025-12-01" "2025-12-07" "1001"))
     = Some (Dec 400).
Proof. split; [right|]; by vm_compute. Qed.

Lemma period_figures_are_sums_witness :
  exists row,
    by_shop_id (sql_week db_two_stores "2025-12-01" "2025-12-14") !! "1001" = Some row
    /\ a_exposure_users row = Some (Dec (100 + (120 + 0))).
Proof.
  destruct (period_figures_are_sums db_two_stores "2025-12-01" "2025-12-14" "1001"
              (Some "Central")) as (row & H1 & _ & H2 & _).
  - by vm_compute.
  - vm_compute. by repeat constructor.
  - vm_compute. repeat constructor; lia.
  - exists row. split; [exact H1|].
    apply Forall_cons in H2 as [_ H2]. apply Forall_cons in H2 as [H2 _]. exact H2.
Defined.

(** ** Connections of the pool *)

Lemma levels_app (n : Z) (a b : list Pool.event) :
  Pool.levels n (a ++ b) = Pool.levels n a ++ Pool.levels (foldl Pool.step n a) b.
Proof. revert n. induction a as [|e a IH]; intros n; simpl; [done|]. by rewrite IH. Qed.

Lemma with_connection_levels (n : Z) (body : list Pool.event) :
  foldl Pool.step (n + 1)%Z body = (n + 1)%Z ->
  Pool.levels n (Pool.with_connection body)
  = (n + 1)%Z :: Pool.levels (n + 1) body ++ [n]
  /\ foldl Pool.step n (Pool.with_connection body) = n.
Proof.
  intros H. unfold Pool.with_connection. cbn [Pool.levels foldl].
  change (Pool.step n Pool.get_connection) with (n + 1)%Z.
  rewrite levels_app, foldl_app, H. cbn [Pool.levels foldl Pool.step].
  replace (n + 1 - 1)%Z with n by lia. done.
Qed.

Lemma levels_seq (P : Z -> Prop) (a b : list Pool.event) :
  Forall P (Pool.levels 0 a) /\ foldl Pool.step 0%Z a = 0%Z ->
  Forall P (Pool.levels 0 b) /\ foldl Pool.step 0%Z b = 0%Z ->
  Forall P (Pool.levels 0 (a ++ b)) /\ foldl Pool.step 0%Z (a ++ b) = 0%Z.
Proof.
  intros [A1 A2] [B1 B2]. rewrite levels_app, foldl_app, A2. split; [|done].
  by apply Forall_app.
Qed.

Lemma levels_loop {B} (rows : list B) :
  let body := flat_map (fun _ => Pool.get_coupon_orders_last_7days
                                 ++ Pool.get_ad_orders_today) rows in
  Forall (fun n => (1 <= n <= 2)%Z) (Pool.levels 1 body) /\ foldl Pool.step 1%Z body = 1%Z.
Proof.
  induction rows as [|row rows [IH1 IH2]]; simpl; [by split|].
  split; [|exact IH2]. repeat (constructor; [lia|]). exact IH1.
Qed.

(** X24.  The report jobs cannot exhaust the pool.  A daily job holds
    at most two connections at any time, a weekly, monthly or custom job
    at most one; every job gives back every connection it took, also when
    it raises; so the jobs that the gate lets execute together, at most
    [MAX_WORKERS], hold at most 10 of the [DB_POOL_SIZE] connections. *)
Theorem report_jobs_cannot_exhaust_the_pool
    (json_loads : string -> result json) (db : database)
    (report_date : string) (accounts : option (list string)) :
  let daily := Pool.generate_daily_report json_loads db report_date accounts in
  (Forall (fun n => (0 <= n <= 2)%Z) (Pool.levels 0 daily) /\ Pool.in_use daily = 0%Z)
  /\ (Forall (fun n => (0 <= n <= 1)%Z) (Pool.levels 0 Pool.generate_weekly_report)
      /\ Pool.in_use Pool.generate_weekly_report = 0%Z)
  /\ forall held : list Z,
       (Z.of_nat (length held) <= TaskQueue.MAX_WORKERS)%Z ->
       Forall (fun n => (0 <= n <= 2)%Z) held ->
       (foldr Z.add 0 held <= 10 < Pool.DB_POOL_SIZE)%Z.
Proof.
  intros daily. split; [|split].
  - unfold daily, Pool.generate_daily_report, Pool.in_use.
    set (rows := daily_rows db report_date (daily_shop_ids_filter json_loads db accounts)).
    set (body := match strptime report_date with
                 | Ok _ => flat_map (fun _ => Pool.get_coupon_orders_last_7days
                                              ++ Pool.get_ad_orders_today) rows
                 | Raise _ => []
                 end).
    assert (Hbody : Forall (fun n => (1 <= n <= 2)%Z) (Pool.levels 1 body)
                    /\ foldl Pool.step 1%Z body = 1%Z).
    { unfold body. destruct (strptime report_date); [apply levels_loop|by split]. }
    destruct Hbody as [Hl Hf].
    assert (Hmain : Forall (fun n => (0 <= n <= 2)%Z)
                      (Pool.levels 0 (Pool.with_connection body))
                    /\ foldl Pool.step 0%Z (Pool.with_connection body) = 0%Z).
    { destruct (with_connection_levels 0 body Hf) as [-> ->]. split; [|done].
      constructor; [lia|]. apply Forall_app. split; [|by repeat constructor].
      eapply Forall_impl; [exact Hl|]. intros n Hn. simpl in Hn. lia. }
    assert (Hone : Forall (fun n => (0 <= n <= 2)%Z)
                     (Pool.levels 0 (Pool.with_connection []))
                   /\ foldl Pool.step 0%Z (Pool.with_connection []) = 0%Z)
      by (split; [by repeat constructor|done]).
    assert (Hnil : Forall (fun n => (0 <= n <= 2)%Z) (Pool.levels 0 [])
                   /\ foldl Pool.step 0%Z [] = 0%Z) by (by split).
    apply levels_seq; [by destruct (list_truthy accounts)|].
    apply levels_seq; [exact Hone|]. apply levels_seq; [exact Hone|exact Hmain].
  - split; [by repeat constructor|done].
  - intros held Hlen Hheld. unfold TaskQueue.MAX_WORKERS, Pool.DB_POOL_SIZE in *.
    split; [|lia].
    assert (G : (foldr Z.add 0 held <= 2 * Z.of_nat (length held))%Z).
    { clear Hlen. induction Hheld as [|n l Hn _ IH]; simpl; [lia|].
      rewrite Nat2Z.inj_succ in *. simpl in *. lia. }
    lia.
Qed.
